(** * Advanced Content Tracker: classification pipeline and daemon

    A shallow embedding of [src/analyzers/content_classifier.py] and of the
    scheduler / lifecycle part of [src/core/daemon.py], with the properties
    of the specification stated and settled on it; then of the analysis
    worker, of the five analyzers behind the classifier, of the URLs the
    window monitor reads off titles, of the daily statistics and of the
    duration format, with further properties of the code.

    Conventions of the embedding:
    - Python [str] is [string]; [.lower()] and [.title()] are the ASCII
      versions, [a in b] on strings is [is_substring].
    - Python [float] values are rationals ([Q]); only comparisons, [max] and
      constants of the source occur, and these are exact on the values the
      floats denote. What the code computes with float arithmetic (the two
      float keys of the daily summary) is left out.
    - A [dict] with a fixed set of keys is a record; a key that may be
      missing is an [option] field read through [.get(key, default)].
    - An exception is a value of [exn]; code that mutates an object and may
      raise lives in the monad [M S], which keeps the mutated state when an
      exception propagates, as Python does. *)

From Stdlib Require Import String Ascii List Bool Arith ZArith QArith Lia DecimalString.
Import ListNotations.
Local Open Scope string_scope.

(** ** Python values used by the code *)

Module Py.

Definition is_upper (c : ascii) : bool :=
  let n := nat_of_ascii c in (65 <=? n)%nat && (n <=? 90)%nat.

Definition is_lower (c : ascii) : bool :=
  let n := nat_of_ascii c in (97 <=? n)%nat && (n <=? 122)%nat.

Definition is_cased (c : ascii) : bool := is_upper c || is_lower c.

Definition lower_char (c : ascii) : ascii :=
  if is_upper c then ascii_of_nat (nat_of_ascii c + 32) else c.

Definition upper_char (c : ascii) : ascii :=
  if is_lower c then ascii_of_nat (nat_of_ascii c - 32) else c.

(** [s.lower()] *)
Fixpoint lower (s : string) : string :=
  match s with
  | EmptyString => EmptyString
  | String c s' => String (lower_char c) (lower s')
  end.

(** [sub in s] *)
Fixpoint is_substring (sub s : string) : bool :=
  String.prefix sub s ||
  match s with
  | EmptyString => false
  | String _ s' => is_substring sub s'
  end.

(** [any(x in s for x in xs)] *)
Definition any_in (xs : list string) (s : string) : bool :=
  existsb (fun x => is_substring x s) xs.

(** [x in xs] for a list of strings *)
Definition mem (x : string) (xs : list string) : bool :=
  existsb (String.eqb x) xs.

(** Truth value of a string: non-empty. *)
Definition truthy (s : string) : bool :=
  match s with EmptyString => false | _ => true end.

(** [s.replace(a, b)] for single characters. *)
Fixpoint replace_char (a b : ascii) (s : string) : string :=
  match s with
  | EmptyString => EmptyString
  | String c s' => String (if Ascii.eqb c a then b else c) (replace_char a b s')
  end.

(** [s.title()]: a cased character is upper-cased after an uncased one and
    lower-cased after a cased one. *)
Fixpoint title_from (prev_cased : bool) (s : string) : string :=
  match s with
  | EmptyString => EmptyString
  | String c s' =>
      String (if is_cased c then (if prev_cased then lower_char c else upper_char c) else c)
             (title_from (is_cased c) s')
  end.

Definition title (s : string) : string := title_from false s.

(** [s[:n]]; a character of a [string] is one character of the [str], the
    strings of this development being ASCII. *)
Definition take (n : nat) (s : string) : string := String.substring 0 n s.

(** [a > b] on numbers. *)
Definition gt (a b : Q) : bool := negb (Qle_bool a b).

(** [max(a, b)]: the first argument unless the second is greater. *)
Definition max (a b : Q) : Q := if gt b a then b else a.

(** [d.get(key, default)] for a key that may be missing. *)
Definition get {A : Type} (field : option A) (default : A) : A :=
  match field with Some v => v | None => default end.

(** [d.get(key, default)] for a dict with string keys. *)
Fixpoint dict_get {A : Type} (d : list (string * A)) (key : string) (default : A) : A :=
  match d with
  | [] => default
  | (k, v) :: d' => if String.eqb k key then v else dict_get d' key default
  end.

End Py.

(** ** Exceptions and the state-and-exception monad *)

Inductive exn : Type :=
| AttributeError (cls attr : string)
| KeyError (key : string)
| QueueFull
| Exception (msg : string).

Inductive outcome (A : Type) : Type :=
| Ok (a : A)
| Raise (e : exn).

Arguments Ok {A} a.
Arguments Raise {A} e.

Definition M (S A : Type) : Type := S -> S * outcome A.

Definition ret {S A : Type} (a : A) : M S A := fun s => (s, Ok a).

Definition bind {S A B : Type} (c : M S A) (k : A -> M S B) : M S B :=
  fun s =>
    match c s with
    | (s', Ok a) => k a s'
    | (s', Raise e) => (s', Raise e)
    end.

Definition raise {S A : Type} (e : exn) : M S A := fun s => (s, Raise e).

Definition modify {S : Type} (f : S -> S) : M S unit := fun s => (f s, Ok tt).

Definition gets {S A : Type} (f : S -> A) : M S A := fun s => (s, Ok (f s)).

(** The result of a call to a collaborator that may raise. *)
Definition call {S A : Type} (o : outcome A) : M S A := fun s => (s, o).

(** [try: c  except Exception as e: h e] *)
Definition try_except {S A : Type} (c : M S A) (h : exn -> M S A) : M S A :=
  fun s =>
    match c s with
    | (s', Ok a) => (s', Ok a)
    | (s', Raise e) => h e s'
    end.

Definition when {S : Type} (b : bool) (c : M S unit) : M S unit :=
  if b then c else ret tt.

Declare Scope py_scope.
Delimit Scope py_scope with py.
Notation "x <- c1 ;; c2" := (bind c1 (fun x => c2))
  (at level 61, c1 at next level, right associativity) : py_scope.
Notation "c1 ;; c2" := (bind c1 (fun _ => c2))
  (at level 61, right associativity) : py_scope.

(** A captured bitmap (a PIL image); the pipeline only passes it on. *)
Inductive Image : Type := PILImage (id : nat).

(** ** src/core/monitor.py *)

Module Monitor.

Record WindowInfo : Type := mkWindowInfo {
  window_id : Z;
  window_title : string;
  app_name : string;
  process_name : string;
  process_id : Z;
  wm_class : string;
  is_browser : bool;
  url : string
}.

(** The instance attributes of a [WindowMonitor] set in [__init__]. *)
Record WindowMonitor : Type := mkWindowMonitor {
  _display_server : string;
  _desktop : string;
  _last_window : option WindowInfo
}.

(** Every name bound in the body of [class WindowMonitor] or assigned to
    [self] in its [__init__]: what attribute lookup on an instance finds. *)
Definition WindowMonitor_attributes : list string :=
  [ "BROWSER_NAMES"; "__init__"; "_detect_display_server"; "get_active_window";
    "_get_window_wayland"; "_get_window_gnome"; "_get_window_sway";
    "_get_window_hyprland"; "_get_window_kde"; "_get_window_x11";
    "_get_window_fallback"; "_extract_app_from_title"; "_extract_url_from_title";
    "is_user_idle"; "close";
    "_display_server"; "_desktop"; "_last_window" ].

(** [WindowMonitor.is_user_idle] *)
Definition is_user_idle (self : WindowMonitor) (threshold : Z) : bool := false.

(** [WindowMonitor.close] *)
Definition close (self : WindowMonitor) : WindowMonitor := self.

End Monitor.

(** ** src/analyzers/content_classifier.py *)

Module Classifier.

Local Open Scope py_scope.

(** The [result] dict of [classify]. *)
Record Result : Type := mkResult {
  content_type : string;
  content_category : string;
  content_description : string;
  content_title : string;
  activity_type : string;
  is_productive : bool;
  productivity_score : Q;
  detection_method : string;
  confidence : Q;
  nsfw_score : Q;
  is_nsfw : bool;
  extracted_text : string
}.

Definition set_content_type (v : string) (r : Result) : Result :=
  mkResult v (content_category r) (content_description r) (content_title r)
    (activity_type r) (is_productive r) (productivity_score r) (detection_method r)
    (confidence r) (nsfw_score r) (is_nsfw r) (extracted_text r).

Definition set_content_category (v : string) (r : Result) : Result :=
  mkResult (content_type r) v (content_description r) (content_title r)
    (activity_type r) (is_productive r) (productivity_score r) (detection_method r)
    (confidence r) (nsfw_score r) (is_nsfw r) (extracted_text r).

Definition set_content_description (v : string) (r : Result) : Result :=
  mkResult (content_type r) (content_category r) v (content_title r)
    (activity_type r) (is_productive r) (productivity_score r) (detection_method r)
    (confidence r) (nsfw_score r) (is_nsfw r) (extracted_text r).

Definition set_activity_type (v : string) (r : Result) : Result :=
  mkResult (content_type r) (content_category r) (content_description r) (content_title r)
    v (is_productive r) (productivity_score r) (detection_method r)
    (confidence r) (nsfw_score r) (is_nsfw r) (extracted_text r).

Definition set_is_productive (v : bool) (r : Result) : Result :=
  mkResult (content_type r) (content_category r) (content_description r) (content_title r)
    (activity_type r) v (productivity_score r) (detection_method r)
    (confidence r) (nsfw_score r) (is_nsfw r) (extracted_text r).

Definition set_productivity_score (v : Q) (r : Result) : Result :=
  mkResult (content_type r) (content_category r) (content_description r) (content_title r)
    (activity_type r) (is_productive r) v (detection_method r)
    (confidence r) (nsfw_score r) (is_nsfw r) (extracted_text r).

Definition set_detection_method (v : string) (r : Result) : Result :=
  mkResult (content_type r) (content_category r) (content_description r) (content_title r)
    (activity_type r) (is_productive r) (productivity_score r) v
    (confidence r) (nsfw_score r) (is_nsfw r) (extracted_text r).

Definition set_confidence (v : Q) (r : Result) : Result :=
  mkResult (content_type r) (content_category r) (content_description r) (content_title r)
    (activity_type r) (is_productive r) (productivity_score r) (detection_method r)
    v (nsfw_score r) (is_nsfw r) (extracted_text r).

Definition set_nsfw_score (v : Q) (r : Result) : Result :=
  mkResult (content_type r) (content_category r) (content_description r) (content_title r)
    (activity_type r) (is_productive r) (productivity_score r) (detection_method r)
    (confidence r) v (is_nsfw r) (extracted_text r).

Definition set_is_nsfw (v : bool) (r : Result) : Result :=
  mkResult (content_type r) (content_category r) (content_description r) (content_title r)
    (activity_type r) (is_productive r) (productivity_score r) (detection_method r)
    (confidence r) (nsfw_score r) v (extracted_text r).

Definition set_extracted_text (v : string) (r : Result) : Result :=
  mkResult (content_type r) (content_category r) (content_description r) (content_title r)
    (activity_type r) (is_productive r) (productivity_score r) (detection_method r)
    (confidence r) (nsfw_score r) (is_nsfw r) v.

(** The dict literal at the top of [classify]. *)
Definition initial_result : Result :=
  mkResult "unknown" "" "" "" "neutral" false 0 "rules" 0 0 false "".

(** *** Results of the analyzers, as [classify] reads them *)

(** [URLAnalyzer.analyze]: the keys the merge reads. The empty dict is [None]. *)
Record URLResult : Type := mkURLResult {
  url_website : string;
  url_content_type : string;
  url_activity : string
}.

(** [OCRAnalyzer.analyze_text]: both keys may be missing. *)
Record OCRResult : Type := mkOCRResult {
  programming_language : option string;
  content_suggestions : option (list string)
}.

(** [ImageAnalyzer.analyze_image] *)
Record ImageResult : Type := mkImageResult {
  layout_type : option string
}.

(** [CLIPAnalyzer.classify] *)
Record CLIPResult : Type := mkCLIPResult {
  clip_classification : option string;
  clip_confidence : option Q
}.

(** [NSFWDetector.detect] *)
Record NSFWResult : Type := mkNSFWResult {
  nsfw_result_score : option Q;
  nsfw_result_is_nsfw : option bool
}.

(** The five analyzers held by a [ContentClassifier]. Each call either
    returns or raises. *)
Record Analyzers : Type := mkAnalyzers {
  url_analyze : string -> outcome (option URLResult);
  ocr_extract_text : Image -> outcome string;
  ocr_analyze_text : string -> outcome OCRResult;
  image_analyze : Image -> outcome ImageResult;
  clip_classify : Image -> outcome CLIPResult;
  nsfw_detect : Image -> outcome NSFWResult
}.

(** [CLIPAnalyzer._fallback_classification] *)
Definition clip_fallback_classification : CLIPResult :=
  mkCLIPResult (Some "unknown") (Some 0).

(** [NSFWDetector._fallback_result] *)
Definition nsfw_fallback_result : NSFWResult :=
  mkNSFWResult (Some 0) (Some false).

(** *** The merge functions *)

Definition _merge_url_result (u : URLResult) (r : Result) : Result :=
  let r1 := if Py.truthy (url_website u) then set_content_type "browser" r else r in
  let r2 := if Py.truthy (url_content_type u)
            then set_content_category (url_content_type u) r1 else r1 in
  if Py.truthy (url_activity u)
  then set_confidence (Py.max (confidence r2) (7 # 10))
         (set_activity_type (url_activity u) r2)
  else r2.

Definition _merge_ocr_result (o : OCRResult) (r : Result) : Result :=
  let r1 :=
    match programming_language o with
    | Some lang =>
        if Py.truthy lang then
          set_confidence (Py.max (confidence r) (8 # 10))
            (set_activity_type "productive"
               (set_content_category ("coding_" ++ lang)
                  (set_content_type "code" r)))
        else r
    | None => r
    end in
  match content_suggestions o with
  | Some ((_ :: _) as suggestions) =>
      if Py.mem "tutorial" suggestions then set_activity_type "educational" r1
      else if Py.mem "entertainment" suggestions then set_activity_type "entertainment" r1
      else r1
  | _ => r1
  end.

Definition _merge_image_result (i : ImageResult) (r : Result) : Result :=
  match layout_type i with
  | Some l =>
      if String.eqb l "simple" then
        if String.eqb (content_type r) "unknown" then set_content_type "video" r else r
      else r
  | None => r
  end.

Definition activity_map : list (string * string) :=
  [ ("tutorial", "educational");
    ("coding", "productive");
    ("documentary", "educational");
    ("gaming", "gaming");
    ("anime", "entertainment");
    ("cartoon", "entertainment");
    ("music_video", "entertainment");
    ("movie_series", "entertainment");
    ("comedy", "entertainment");
    ("vlog", "entertainment");
    ("live_stream", "entertainment");
    ("social_feed", "social_media");
    ("news", "news");
    ("sports", "entertainment");
    ("adult", "adult") ].

(** [clip_result['confidence']] raises [KeyError] when the key is missing. *)
Definition _merge_clip_result (c : CLIPResult) : M Result unit :=
  r <- gets (fun r => r) ;;
  if Py.gt (Py.get (clip_confidence c) 0) (confidence r) then
    let classification := Py.get (clip_classification c) "" in
    if Py.truthy classification then
      modify (set_content_category classification) ;;
      conf <- call (match clip_confidence c with
                    | Some q => Ok q
                    | None => Raise (KeyError "confidence")
                    end) ;;
      modify (set_confidence conf) ;;
      modify (set_detection_method "clip") ;;
      modify (fun r => set_activity_type
                         (Py.dict_get activity_map classification (activity_type r)) r)
    else ret tt
  else ret tt.

Definition code_editors : list string :=
  ["code"; "sublime"; "atom"; "vim"; "emacs"; "idea"; "pycharm"].

Definition terminals : list string :=
  ["terminal"; "konsole"; "xterm"; "alacritty"; "kitty"].

Definition video_players : list string := ["vlc"; "mpv"; "totem"; "celluloid"].

Definition tutorial_words : list string := ["tutorial"; "learn"; "course"; "how to"].

Definition social_sites : list string := ["facebook"; "twitter"; "instagram"; "reddit"].

Definition _apply_rules (app_name window_title : string) (is_browser : bool)
    (r : Result) : Result :=
  let app_lower := if Py.truthy app_name then Py.lower app_name else "" in
  let title_lower := if Py.truthy window_title then Py.lower window_title else "" in
  if Py.any_in code_editors app_lower then
    set_confidence (Py.max (confidence r) (9 # 10))
      (set_activity_type "productive" (set_content_type "code" r))
  else if Py.any_in terminals app_lower then
    set_confidence (Py.max (confidence r) (85 # 100))
      (set_activity_type "productive" (set_content_type "terminal" r))
  else if Py.any_in video_players app_lower then
    set_confidence (Py.max (confidence r) (8 # 10))
      (set_activity_type "entertainment" (set_content_type "video" r))
  else if is_browser then
    if Py.is_substring "youtube" title_lower then
      let r1 := set_content_category "youtube" (set_content_type "video" r) in
      if Py.any_in tutorial_words title_lower
      then set_activity_type "educational" r1
      else set_activity_type "entertainment" r1
    else if Py.is_substring "github" title_lower then
      set_activity_type "productive" (set_content_type "code" r)
    else if Py.any_in social_sites title_lower then
      set_activity_type "social_media" (set_content_type "social_feed" r)
    else r
  else r.

Definition scores : list (string * Q) :=
  [ ("productive", 1);
    ("educational", 8 # 10);
    ("neutral", 0);
    ("news", - (1 # 10));
    ("shopping", - (2 # 10));
    ("entertainment", - (3 # 10));
    ("social_media", - (4 # 10));
    ("gaming", - (3 # 10));
    ("adult", - (1)) ]%Q.

Definition _calculate_productivity (activity_type : string) : Q :=
  Py.dict_get scores activity_type 0.

Definition _generate_description (r : Result) (app_name window_title : string) : string :=
  let activity_type := activity_type r in
  let content_category := content_category r in
  let pretty := Py.title (Py.replace_char "_" " " content_category) in
  if String.eqb activity_type "productive" then
    if Py.is_substring "code" content_category
    then "Coding in " ++ app_name
    else "Working in " ++ app_name
  else if String.eqb activity_type "educational" then
    "Learning: " ++ pretty
  else if String.eqb activity_type "entertainment" then
    if Py.truthy content_category
    then "Watching: " ++ pretty
    else "Entertainment in " ++ app_name
  else if String.eqb activity_type "social_media" then
    "Browsing social media"
  else if String.eqb activity_type "gaming" then
    "Playing game"
  else if Py.truthy app_name then "Using " ++ app_name else "Unknown activity".

(** *** The stages of [classify] *)

(** Step 1: URL analysis. *)
Definition url_stage (an : Analyzers) (url : string) : M Result unit :=
  when (Py.truthy url)
    (url_result <- call (url_analyze an url) ;;
     match url_result with
     | Some u => modify (_merge_url_result u)
     | None => ret tt
     end).

(** Step 2: OCR analysis. *)
Definition ocr_stage (an : Analyzers) (screenshot : option Image) : M Result unit :=
  match screenshot with
  | Some img =>
      ocr_text <- call (ocr_extract_text an img) ;;
      when (Py.truthy ocr_text)
        (modify (set_extracted_text (Py.take 500 ocr_text)) ;;
         ocr_result <- call (ocr_analyze_text an ocr_text) ;;
         modify (_merge_ocr_result ocr_result))
  | None => ret tt
  end.

(** Step 3: image analysis. *)
Definition image_stage (an : Analyzers) (screenshot : option Image) : M Result unit :=
  match screenshot with
  | Some img =>
      img_result <- call (image_analyze an img) ;;
      modify (_merge_image_result img_result)
  | None => ret tt
  end.

(** Step 4: CLIP classification, in its own [try]. *)
Definition clip_stage (an : Analyzers) (screenshot : option Image) : M Result unit :=
  match screenshot with
  | Some img =>
      try_except
        (clip_result <- call (clip_classify an img) ;;
         if Py.gt (Py.get (clip_confidence clip_result) 0) (3 # 10)
         then _merge_clip_result clip_result
         else ret tt)
        (fun _ => ret tt)
  | None => ret tt
  end.

(** Step 5: NSFW detection, in its own [try]. *)
Definition nsfw_stage (an : Analyzers) (screenshot : option Image) : M Result unit :=
  match screenshot with
  | Some img =>
      try_except
        (nsfw_result <- call (nsfw_detect an img) ;;
         modify (set_nsfw_score (Py.get (nsfw_result_score nsfw_result) 0)) ;;
         modify (set_is_nsfw (Py.get (nsfw_result_is_nsfw nsfw_result) false)) ;;
         flagged <- gets is_nsfw ;;
         when flagged
           (modify (set_activity_type "adult") ;;
            modify (set_content_category "adult_content")))
        (fun _ => ret tt)
  | None => ret tt
  end.

(** Step 6: the rules, on the window information. *)
Definition rules_stage (app_name window_title : string) (is_browser : bool) : M Result unit :=
  modify (_apply_rules app_name window_title is_browser).

(** The productivity score and flag. *)
Definition productivity_stage : M Result unit :=
  modify (fun r => set_productivity_score (_calculate_productivity (activity_type r)) r) ;;
  modify (fun r => set_is_productive (Py.gt (productivity_score r) 0) r).

(** The description, when none is set. *)
Definition description_stage (app_name window_title : string) : M Result unit :=
  description <- gets content_description ;;
  when (negb (Py.truthy description))
    (modify (fun r => set_content_description
                        (_generate_description r app_name window_title) r)).

(** The body of the outer [try] of [classify]. *)
Definition classify_body (an : Analyzers) (screenshot : option Image)
    (window_info : option Monitor.WindowInfo) : M Result unit :=
  let app_name := match window_info with Some w => Monitor.app_name w | None => "" end in
  let window_title :=
    match window_info with Some w => Monitor.window_title w | None => "" end in
  let url := match window_info with Some w => Monitor.url w | None => "" end in
  let is_browser :=
    match window_info with Some w => Monitor.is_browser w | None => false end in
  url_stage an url ;;
  ocr_stage an screenshot ;;
  image_stage an screenshot ;;
  clip_stage an screenshot ;;
  nsfw_stage an screenshot ;;
  rules_stage app_name window_title is_browser ;;
  productivity_stage ;;
  description_stage app_name window_title.

(** [ContentClassifier.classify]: whatever happens inside the [try], the
    [result] dict as mutated so far is returned. *)
Definition classify (an : Analyzers) (screenshot : option Image)
    (window_info : option Monitor.WindowInfo) : Result :=
  fst (try_except (classify_body an screenshot window_info) (fun _ => ret tt)
         initial_result).

End Classifier.

(** ** src/storage/models.py: Activity *)

Module Models.

Record Activity : Type := mkActivity {
  id : option Z;
  timestamp : Z;
  app_name : string;
  window_title : string;
  process_name : string;
  process_id : option Z;
  website : string;
  url : string;
  content_type : string;
  content_category : string;
  content_description : string;
  content_title : string;
  activity_type : string;
  is_productive : bool;
  productivity_score : Q;
  detection_method : string;
  confidence : Q;
  nsfw_score : Q;
  is_nsfw : bool;
  duration : Z;
  screenshot_path : string;
  is_idle : bool;
  is_excluded : bool;
  extracted_text : string
}.

End Models.

(** ** src/utils/config.py: the settings the scheduler reads *)

Module Config.

Record Config : Type := mkConfig {
  screenshot_interval : Z;          (* monitoring.screenshot_interval *)
  skip_unchanged : bool;            (* detection.skip_unchanged *)
  excluded_apps : list string;      (* privacy.excluded_apps *)
  excluded_title_keywords : list string  (* privacy.excluded_title_keywords *)
}.

Definition is_app_excluded (cfg : Config) (app_name : string) : bool :=
  existsb (fun exc => Py.is_substring (Py.lower exc) (Py.lower app_name))
          (excluded_apps cfg).

Definition is_title_excluded (cfg : Config) (title : string) : bool :=
  let title_lower := Py.lower title in
  existsb (fun kw => Py.is_substring (Py.lower kw) title_lower)
          (excluded_title_keywords cfg).

End Config.

(** ** src/core/daemon.py *)

Module Daemon.

Local Open Scope py_scope.

Record DaemonState : Type := mkDaemonState {
  is_running : bool;
  is_paused : bool;
  last_capture_time : option Z;
  last_analysis_time : option Z;
  last_window : option Monitor.WindowInfo;
  total_captures : nat;
  total_analyses : nat;
  errors : nat;
  start_time : option Z
}.

(** The defaults of the dataclass: [DaemonState()]. *)
Definition new_DaemonState : DaemonState :=
  mkDaemonState false false None None None 0 0 0 None.

(** An item of the analysis queue. *)
Record QueueItem : Type := mkQueueItem {
  item_window_info : Monitor.WindowInfo;
  item_screenshot : Image;
  item_timestamp : Z
}.

(** [queue.Queue(maxsize)]: a FIFO; [maxsize <= 0] means unbounded. *)
Record Queue : Type := mkQueue {
  maxsize : nat;
  items : list QueueItem
}.

Definition qsize (q : Queue) : nat := length (items q).

Definition full (q : Queue) : bool :=
  (0 <? maxsize q)%nat && (maxsize q <=? qsize q)%nat.

(** [Queue.put_nowait]: append at the tail, or [queue.Full]. *)
Definition put_nowait (x : QueueItem) (q : Queue) : outcome Queue :=
  if full q then Raise QueueFull else Ok (mkQueue (maxsize q) (items q ++ [x])).

(** What the daemon does to the outside world, in order. *)
Inductive Event : Type :=
| ScreenshotCaptureClosed
| WindowMonitorClosed
| DailyStatsUpdated
| AppUsageUpdated
| WebsiteUsageUpdated
| DatabaseClosed
| ActivityInserted (a : Models.Activity)
| CaptureCalled
| Warning (msg : string)
| Error (msg : string).

Record Daemon : Type := mkDaemon {
  config : Config.Config;
  state : DaemonState;
  screenshot_capture : bool;                     (* None or the capture object *)
  window_monitor : option Monitor.WindowMonitor;
  database : bool;                               (* None or the database object *)
  _content_classifier : bool;
  _main_thread : bool;
  _analysis_queue : Queue;
  _analysis_thread : bool;
  _stop_event : bool;
  events : list Event
}.

Definition set_state (f : DaemonState -> DaemonState) (d : Daemon) : Daemon :=
  mkDaemon (config d) (f (state d)) (screenshot_capture d) (window_monitor d)
    (database d) (_content_classifier d) (_main_thread d) (_analysis_queue d)
    (_analysis_thread d) (_stop_event d) (events d).

Definition set_queue (q : Queue) (d : Daemon) : Daemon :=
  mkDaemon (config d) (state d) (screenshot_capture d) (window_monitor d)
    (database d) (_content_classifier d) (_main_thread d) q
    (_analysis_thread d) (_stop_event d) (events d).

Definition set_stop_event (b : bool) (d : Daemon) : Daemon :=
  mkDaemon (config d) (state d) (screenshot_capture d) (window_monitor d)
    (database d) (_content_classifier d) (_main_thread d) (_analysis_queue d)
    (_analysis_thread d) b (events d).

Definition set_threads (analysis main : bool) (d : Daemon) : Daemon :=
  mkDaemon (config d) (state d) (screenshot_capture d) (window_monitor d)
    (database d) (_content_classifier d) main (_analysis_queue d)
    analysis (_stop_event d) (events d).

Definition set_components (capture : bool) (monitor : option Monitor.WindowMonitor)
    (db classifier : bool) (d : Daemon) : Daemon :=
  mkDaemon (config d) (state d) capture monitor db classifier
    (_main_thread d) (_analysis_queue d) (_analysis_thread d) (_stop_event d)
    (events d).

Definition emit (e : Event) (d : Daemon) : Daemon :=
  mkDaemon (config d) (state d) (screenshot_capture d) (window_monitor d)
    (database d) (_content_classifier d) (_main_thread d) (_analysis_queue d)
    (_analysis_thread d) (_stop_event d) (events d ++ [e]).

Definition set_is_running (b : bool) (s : DaemonState) : DaemonState :=
  mkDaemonState b (is_paused s) (last_capture_time s) (last_analysis_time s)
    (last_window s) (total_captures s) (total_analyses s) (errors s) (start_time s).

Definition set_is_paused (b : bool) (s : DaemonState) : DaemonState :=
  mkDaemonState (is_running s) b (last_capture_time s) (last_analysis_time s)
    (last_window s) (total_captures s) (total_analyses s) (errors s) (start_time s).

Definition set_last_capture_time (t : option Z) (s : DaemonState) : DaemonState :=
  mkDaemonState (is_running s) (is_paused s) t (last_analysis_time s)
    (last_window s) (total_captures s) (total_analyses s) (errors s) (start_time s).

Definition set_last_window (w : option Monitor.WindowInfo) (s : DaemonState) : DaemonState :=
  mkDaemonState (is_running s) (is_paused s) (last_capture_time s) (last_analysis_time s)
    w (total_captures s) (total_analyses s) (errors s) (start_time s).

Definition set_total_captures (n : nat) (s : DaemonState) : DaemonState :=
  mkDaemonState (is_running s) (is_paused s) (last_capture_time s) (last_analysis_time s)
    (last_window s) n (total_analyses s) (errors s) (start_time s).

Definition set_errors (n : nat) (s : DaemonState) : DaemonState :=
  mkDaemonState (is_running s) (is_paused s) (last_capture_time s) (last_analysis_time s)
    (last_window s) (total_captures s) (total_analyses s) n (start_time s).

Definition set_start_time (t : option Z) (s : DaemonState) : DaemonState :=
  mkDaemonState (is_running s) (is_paused s) (last_capture_time s) (last_analysis_time s)
    (last_window s) (total_captures s) (total_analyses s) (errors s) t.

(** [ContentTrackerDaemon.__init__], with the configuration it loads and no
    callback registered. *)
Definition __init__ (cfg : Config.Config) : Daemon :=
  mkDaemon cfg new_DaemonState false None false false false (mkQueue 100 []) false
    false [].

(** *** Lifecycle *)

(** What [start] meets outside the daemon object. *)
Record StartEnv : Type := mkStartEnv {
  start_now : Z;                                  (* datetime.now() *)
  the_window_monitor : Monitor.WindowMonitor;     (* get_window_monitor() *)
  get_database : outcome unit;                    (* get_database(path) *)
  new_classifier : outcome unit                   (* ContentClassifier() *)
}.

(** [_init_content_classifier]: a failure leaves the classifier unset. *)
Definition _init_content_classifier (env : StartEnv) : M Daemon bool :=
  try_except (call (new_classifier env) ;; ret true)
             (fun _ => modify (emit (Error "Failed to initialize content classifier")) ;;
                       ret false).

Definition _initialize_components (env : StartEnv) : M Daemon unit :=
  modify (fun d => set_components true (window_monitor d) (database d)
                     (_content_classifier d) d) ;;
  modify (fun d => set_components (screenshot_capture d) (Some (the_window_monitor env))
                     (database d) (_content_classifier d) d) ;;
  call (get_database env) ;;
  modify (fun d => set_components (screenshot_capture d) (window_monitor d) true
                     (_content_classifier d) d) ;;
  classifier <- _init_content_classifier env ;;
  modify (fun d => set_components (screenshot_capture d) (window_monitor d) (database d)
                     classifier d).

(** [start(blocking=False)] up to the point where both threads are started.
    With [blocking=True] the same steps run and the main loop is then entered
    in the calling thread; its iterations are [_main_loop] below. *)
Definition start (env : StartEnv) : M Daemon unit :=
  running <- gets (fun d => is_running (state d)) ;;
  if running then modify (emit (Warning "Daemon is already running"))
  else
    _initialize_components env ;;
    modify (set_state (set_is_running true)) ;;
    modify (set_state (set_start_time (Some (start_now env)))) ;;
    modify (set_stop_event false) ;;
    modify (set_threads true true).

(** The outcome of the three statistics updates of [_cleanup]. *)
Record StopEnv : Type := mkStopEnv {
  update_daily_stats : outcome unit;
  update_app_usage : outcome unit;
  update_website_usage : outcome unit
}.

Definition _cleanup (env : StopEnv) : M Daemon unit :=
  capture <- gets screenshot_capture ;;
  when capture (modify (emit ScreenshotCaptureClosed)) ;;
  monitor <- gets window_monitor ;;
  match monitor with
  | Some m =>
      modify (fun d => set_components (screenshot_capture d) (Some (Monitor.close m))
                         (database d) (_content_classifier d) d) ;;
      modify (emit WindowMonitorClosed)
  | None => ret tt
  end ;;
  db <- gets database ;;
  when db
    (try_except
       (call (update_daily_stats env) ;; modify (emit DailyStatsUpdated) ;;
        call (update_app_usage env) ;; modify (emit AppUsageUpdated) ;;
        call (update_website_usage env) ;; modify (emit WebsiteUsageUpdated))
       (fun _ => modify (emit (Error "Failed to update stats"))) ;;
     modify (emit DatabaseClosed)).

(** [stop]: the joins of the two threads change no attribute. *)
Definition stop (env : StopEnv) : M Daemon unit :=
  running <- gets (fun d => is_running (state d)) ;;
  if negb running then ret tt
  else
    modify (set_state (set_is_running false)) ;;
    modify (set_stop_event true) ;;
    _cleanup env.

Definition pause : M Daemon unit := modify (set_state (set_is_paused true)).

Definition resume : M Daemon unit := modify (set_state (set_is_paused false)).

(** The dict returned by [get_status]; [uptime] is left in seconds. *)
Record Status : Type := mkStatus {
  status_is_running : bool;
  status_is_paused : bool;
  status_uptime : Z;
  status_total_captures : nat;
  status_total_analyses : nat;
  status_errors : nat;
  status_last_capture : option Z;
  status_last_window : option Monitor.WindowInfo;
  status_queue_size : nat
}.

Definition uptime (now : Z) (s : DaemonState) : Z :=
  match start_time s with
  | Some t => (now - t)%Z
  | None => 0%Z
  end.

Definition get_status (now : Z) (d : Daemon) : Status :=
  mkStatus (is_running (state d)) (is_paused (state d)) (uptime now (state d))
    (total_captures (state d)) (total_analyses (state d)) (errors (state d))
    (last_capture_time (state d)) (last_window (state d))
    (qsize (_analysis_queue d)).

(** *** The scheduler *)

(** What one tick meets outside the daemon object. *)
Record TickEnv : Type := mkTickEnv {
  get_active_window : option Monitor.WindowInfo;  (* window_monitor.get_active_window() *)
  capture : option Image;                         (* screenshot_capture.capture() *)
  now_capture : Z;                                (* first datetime.now() *)
  now_enqueue : Z;                                (* second datetime.now() *)
  insert_activity : outcome Z                     (* database.insert_activity(..) *)
}.

(** [self.window_monitor] when an attribute of it is used. *)
Definition monitor_object (attr : string) : M Daemon Monitor.WindowMonitor :=
  m <- gets window_monitor ;;
  match m with
  | Some w => ret w
  | None => raise (AttributeError "NoneType" attr)
  end.

(** [self.window_monitor.has_window_changed(window_info)]: the class
    [WindowMonitor] binds no such name (see
    [Monitor.WindowMonitor_attributes]), so evaluating the attribute raises. *)
Definition has_window_changed (window_info : Monitor.WindowInfo) : M Daemon bool :=
  _ <- monitor_object "has_window_changed" ;;
  raise (AttributeError "WindowMonitor" "has_window_changed").

(** [self.window_monitor.update_last_window(window_info)]: no such name
    either. *)
Definition update_last_window (window_info : Monitor.WindowInfo) : M Daemon unit :=
  _ <- monitor_object "update_last_window" ;;
  raise (AttributeError "WindowMonitor" "update_last_window").

Definition _should_exclude_window (cfg : Config.Config)
    (window_info : Monitor.WindowInfo) : bool :=
  if Config.is_app_excluded cfg (Monitor.app_name window_info) then true
  else if Config.is_app_excluded cfg (Monitor.process_name window_info) then true
  else if Config.is_title_excluded cfg (Monitor.window_title window_info) then true
  else false.

Definition idle_activity (now interval : Z) : Models.Activity :=
  Models.mkActivity None now "System" "Idle" "" None "" "" "idle" "" "User is idle" ""
    "idle" false 0 "rules" 0 0 false interval "" true false "".

Definition _record_idle_activity (env : TickEnv) : M Daemon unit :=
  interval <- gets (fun d => Config.screenshot_interval (config d)) ;;
  let activity := idle_activity (now_capture env) interval in
  db <- gets database ;;
  if db then
    call (insert_activity env) ;;
    modify (emit (ActivityInserted activity))
  else raise (AttributeError "NoneType" "insert_activity").

(** [_extend_last_activity]: only a debug line. *)
Definition _extend_last_activity : M Daemon unit := ret tt.

(** [self._analysis_queue.put_nowait(item)] *)
Definition enqueue (item : QueueItem) : M Daemon unit :=
  q <- gets _analysis_queue ;;
  q' <- call (put_nowait item q) ;;
  modify (set_queue q').

Definition _do_capture_cycle (env : TickEnv) : M Daemon unit :=
  monitor <- monitor_object "is_user_idle" ;;
  if Monitor.is_user_idle monitor 300 then _record_idle_activity env
  else
    match get_active_window env with
    | None => ret tt
    | Some window_info =>
        cfg <- gets config ;;
        if _should_exclude_window cfg window_info then ret tt
        else
          same_window <-
            (if Config.skip_unchanged cfg then
               changed <- has_window_changed window_info ;;
               if negb changed then _extend_last_activity ;; ret true
               else ret false
             else ret false) ;;
          if same_window then ret tt
          else
            has_capture <- gets screenshot_capture ;;
            (if has_capture then ret tt
             else raise (AttributeError "NoneType" "capture")) ;;
            modify (emit CaptureCalled) ;;
            match capture env with
            | None => modify (emit (Warning "Failed to capture screenshot"))
            | Some screenshot =>
                modify (set_state (fun s => set_total_captures (total_captures s + 1) s)) ;;
                modify (set_state (set_last_capture_time (Some (now_capture env)))) ;;
                try_except
                  (enqueue (mkQueueItem window_info screenshot (now_enqueue env)))
                  (fun e =>
                     match e with
                     | QueueFull =>
                         modify (emit (Warning "Analysis queue full, dropping capture"))
                     | _ => raise e
                     end) ;;
                update_last_window window_info ;;
                modify (set_state (set_last_window (Some window_info)))
            end
    end.

(** One iteration of the [while] loop of [_main_loop]. *)
Definition _main_loop_iteration (env : TickEnv) : M Daemon unit :=
  try_except
    (paused <- gets (fun d => is_paused (state d)) ;;
     when (negb paused) (_do_capture_cycle env))
    (fun _ =>
       modify (set_state (fun s => set_errors (errors s + 1) s)) ;;
       modify (emit (Error "Error in main loop"))).

(** [_main_loop]: one tick per element of [envs], as long as the loop
    condition holds. *)
Fixpoint _main_loop (envs : list TickEnv) (d : Daemon) : Daemon :=
  match envs with
  | [] => d
  | env :: rest =>
      if is_running (state d) && negb (_stop_event d)
      then _main_loop rest (fst (_main_loop_iteration env d))
      else d
  end.

(** *** The module-level singleton *)

(** [get_daemon]: the global [_daemon], constructed on first use. *)
Definition get_daemon (cfg : Config.Config) (_daemon : option Daemon) : Daemon :=
  match _daemon with
  | Some d => d
  | None => __init__ cfg
  end.

(** [start_daemon], on the global [_daemon]. *)
Definition start_daemon (cfg : Config.Config) (env : StartEnv) : M (option Daemon) unit :=
  fun _daemon =>
    let (d, o) := start env (get_daemon cfg _daemon) in (Some d, o).

(** [stop_daemon]: stops the global daemon, if any, and forgets it. *)
Definition stop_daemon (env : StopEnv) : M (option Daemon) unit :=
  fun _daemon =>
    match _daemon with
    | Some d =>
        match stop env d with
        | (_, Ok _) => (None, Ok tt)
        | (d', Raise e) => (Some d', Raise e)
        end
    | None => (None, Ok tt)
    end.

End Daemon.

(** ** src/core/daemon.py: the analysis worker *)

Module Worker.

Import Daemon.

Local Open Scope py_scope.

(** [Activity(timestamp=.., app_name=.., window_title=.., process_name=..,
    process_id=.., website=.., url=.., duration=..)]: the other fields take
    the defaults of the dataclass. *)
Definition new_Activity (timestamp : Z) (app_name window_title process_name : string)
    (process_id : Z) (website url : string) (duration : Z) : Models.Activity :=
  Models.mkActivity None timestamp app_name window_title process_name (Some process_id)
    website url "unknown" "" "" "" "unknown" false 0 "rules" 0 0 false duration ""
    false false "".

(** Assignment to one attribute of an [Activity]. *)
Definition with_website (v : string) (a : Models.Activity) : Models.Activity :=
  Models.mkActivity (Models.id a) (Models.timestamp a) (Models.app_name a)
    (Models.window_title a) (Models.process_name a) (Models.process_id a) v
    (Models.url a) (Models.content_type a) (Models.content_category a)
    (Models.content_description a) (Models.content_title a) (Models.activity_type a)
    (Models.is_productive a) (Models.productivity_score a) (Models.detection_method a)
    (Models.confidence a) (Models.nsfw_score a) (Models.is_nsfw a) (Models.duration a)
    (Models.screenshot_path a) (Models.is_idle a) (Models.is_excluded a)
    (Models.extracted_text a).

Definition with_content_type (v : string) (a : Models.Activity) : Models.Activity :=
  Models.mkActivity (Models.id a) (Models.timestamp a) (Models.app_name a)
    (Models.window_title a) (Models.process_name a) (Models.process_id a)
    (Models.website a) (Models.url a) v (Models.content_category a)
    (Models.content_description a) (Models.content_title a) (Models.activity_type a)
    (Models.is_productive a) (Models.productivity_score a) (Models.detection_method a)
    (Models.confidence a) (Models.nsfw_score a) (Models.is_nsfw a) (Models.duration a)
    (Models.screenshot_path a) (Models.is_idle a) (Models.is_excluded a)
    (Models.extracted_text a).

Definition with_content_category (v : string) (a : Models.Activity) : Models.Activity :=
  Models.mkActivity (Models.id a) (Models.timestamp a) (Models.app_name a)
    (Models.window_title a) (Models.process_name a) (Models.process_id a)
    (Models.website a) (Models.url a) (Models.content_type a) v
    (Models.content_description a) (Models.content_title a) (Models.activity_type a)
    (Models.is_productive a) (Models.productivity_score a) (Models.detection_method a)
    (Models.confidence a) (Models.nsfw_score a) (Models.is_nsfw a) (Models.duration a)
    (Models.screenshot_path a) (Models.is_idle a) (Models.is_excluded a)
    (Models.extracted_text a).

Definition with_content_description (v : string) (a : Models.Activity) : Models.Activity :=
  Models.mkActivity (Models.id a) (Models.timestamp a) (Models.app_name a)
    (Models.window_title a) (Models.process_name a) (Models.process_id a)
    (Models.website a) (Models.url a) (Models.content_type a)
    (Models.content_category a) v (Models.content_title a) (Models.activity_type a)
    (Models.is_productive a) (Models.productivity_score a) (Models.detection_method a)
    (Models.confidence a) (Models.nsfw_score a) (Models.is_nsfw a) (Models.duration a)
    (Models.screenshot_path a) (Models.is_idle a) (Models.is_excluded a)
    (Models.extracted_text a).

Definition with_content_title (v : string) (a : Models.Activity) : Models.Activity :=
  Models.mkActivity (Models.id a) (Models.timestamp a) (Models.app_name a)
    (Models.window_title a) (Models.process_name a) (Models.process_id a)
    (Models.website a) (Models.url a) (Models.content_type a)
    (Models.content_category a) (Models.content_description a) v
    (Models.activity_type a) (Models.is_productive a) (Models.productivity_score a)
    (Models.detection_method a) (Models.confidence a) (Models.nsfw_score a)
    (Models.is_nsfw a) (Models.duration a) (Models.screenshot_path a) (Models.is_idle a)
    (Models.is_excluded a) (Models.extracted_text a).

Definition with_activity_type (v : string) (a : Models.Activity) : Models.Activity :=
  Models.mkActivity (Models.id a) (Models.timestamp a) (Models.app_name a)
    (Models.window_title a) (Models.process_name a) (Models.process_id a)
    (Models.website a) (Models.url a) (Models.content_type a)
    (Models.content_category a) (Models.content_description a) (Models.content_title a)
    v (Models.is_productive a) (Models.productivity_score a) (Models.detection_method a)
    (Models.confidence a) (Models.nsfw_score a) (Models.is_nsfw a) (Models.duration a)
    (Models.screenshot_path a) (Models.is_idle a) (Models.is_excluded a)
    (Models.extracted_text a).

Definition with_is_productive (v : bool) (a : Models.Activity) : Models.Activity :=
  Models.mkActivity (Models.id a) (Models.timestamp a) (Models.app_name a)
    (Models.window_title a) (Models.process_name a) (Models.process_id a)
    (Models.website a) (Models.url a) (Models.content_type a)
    (Models.content_category a) (Models.content_description a) (Models.content_title a)
    (Models.activity_type a) v (Models.productivity_score a) (Models.detection_method a)
    (Models.confidence a) (Models.nsfw_score a) (Models.is_nsfw a) (Models.duration a)
    (Models.screenshot_path a) (Models.is_idle a) (Models.is_excluded a)
    (Models.extracted_text a).

Definition with_productivity_score (v : Q) (a : Models.Activity) : Models.Activity :=
  Models.mkActivity (Models.id a) (Models.timestamp a) (Models.app_name a)
    (Models.window_title a) (Models.process_name a) (Models.process_id a)
    (Models.website a) (Models.url a) (Models.content_type a)
    (Models.content_category a) (Models.content_description a) (Models.content_title a)
    (Models.activity_type a) (Models.is_productive a) v (Models.detection_method a)
    (Models.confidence a) (Models.nsfw_score a) (Models.is_nsfw a) (Models.duration a)
    (Models.screenshot_path a) (Models.is_idle a) (Models.is_excluded a)
    (Models.extracted_text a).

Definition with_detection_method (v : string) (a : Models.Activity) : Models.Activity :=
  Models.mkActivity (Models.id a) (Models.timestamp a) (Models.app_name a)
    (Models.window_title a) (Models.process_name a) (Models.process_id a)
    (Models.website a) (Models.url a) (Models.content_type a)
    (Models.content_category a) (Models.content_description a) (Models.content_title a)
    (Models.activity_type a) (Models.is_productive a) (Models.productivity_score a) v
    (Models.confidence a) (Models.nsfw_score a) (Models.is_nsfw a) (Models.duration a)
    (Models.screenshot_path a) (Models.is_idle a) (Models.is_excluded a)
    (Models.extracted_text a).

Definition with_confidence (v : Q) (a : Models.Activity) : Models.Activity :=
  Models.mkActivity (Models.id a) (Models.timestamp a) (Models.app_name a)
    (Models.window_title a) (Models.process_name a) (Models.process_id a)
    (Models.website a) (Models.url a) (Models.content_type a)
    (Models.content_category a) (Models.content_description a) (Models.content_title a)
    (Models.activity_type a) (Models.is_productive a) (Models.productivity_score a)
    (Models.detection_method a) v (Models.nsfw_score a) (Models.is_nsfw a)
    (Models.duration a) (Models.screenshot_path a) (Models.is_idle a)
    (Models.is_excluded a) (Models.extracted_text a).

Definition with_nsfw_score (v : Q) (a : Models.Activity) : Models.Activity :=
  Models.mkActivity (Models.id a) (Models.timestamp a) (Models.app_name a)
    (Models.window_title a) (Models.process_name a) (Models.process_id a)
    (Models.website a) (Models.url a) (Models.content_type a)
    (Models.content_category a) (Models.content_description a) (Models.content_title a)
    (Models.activity_type a) (Models.is_productive a) (Models.productivity_score a)
    (Models.detection_method a) (Models.confidence a) v (Models.is_nsfw a)
    (Models.duration a) (Models.screenshot_path a) (Models.is_idle a)
    (Models.is_excluded a) (Models.extracted_text a).

Definition with_is_nsfw (v : bool) (a : Models.Activity) : Models.Activity :=
  Models.mkActivity (Models.id a) (Models.timestamp a) (Models.app_name a)
    (Models.window_title a) (Models.process_name a) (Models.process_id a)
    (Models.website a) (Models.url a) (Models.content_type a)
    (Models.content_category a) (Models.content_description a) (Models.content_title a)
    (Models.activity_type a) (Models.is_productive a) (Models.productivity_score a)
    (Models.detection_method a) (Models.confidence a) (Models.nsfw_score a) v
    (Models.duration a) (Models.screenshot_path a) (Models.is_idle a)
    (Models.is_excluded a) (Models.extracted_text a).

Definition with_screenshot_path (v : string) (a : Models.Activity) : Models.Activity :=
  Models.mkActivity (Models.id a) (Models.timestamp a) (Models.app_name a)
    (Models.window_title a) (Models.process_name a) (Models.process_id a)
    (Models.website a) (Models.url a) (Models.content_type a)
    (Models.content_category a) (Models.content_description a) (Models.content_title a)
    (Models.activity_type a) (Models.is_productive a) (Models.productivity_score a)
    (Models.detection_method a) (Models.confidence a) (Models.nsfw_score a)
    (Models.is_nsfw a) (Models.duration a) v (Models.is_idle a) (Models.is_excluded a)
    (Models.extracted_text a).

Definition with_extracted_text (v : string) (a : Models.Activity) : Models.Activity :=
  Models.mkActivity (Models.id a) (Models.timestamp a) (Models.app_name a)
    (Models.window_title a) (Models.process_name a) (Models.process_id a)
    (Models.website a) (Models.url a) (Models.content_type a)
    (Models.content_category a) (Models.content_description a) (Models.content_title a)
    (Models.activity_type a) (Models.is_productive a) (Models.productivity_score a)
    (Models.detection_method a) (Models.confidence a) (Models.nsfw_score a)
    (Models.is_nsfw a) (Models.duration a) (Models.screenshot_path a) (Models.is_idle a)
    (Models.is_excluded a) v.
Definition office_apps : list string :=
  ["libreoffice"; "word"; "excel"; "writer"; "calc"].

(** [_basic_classify]: the classification without the classifier. *)
Definition _basic_classify (activity : Models.Activity)
    (window_info : Monitor.WindowInfo) : Models.Activity :=
  let app_lower := Py.lower (Monitor.app_name window_info) in
  let title_lower := Py.lower (Monitor.window_title window_info) in
  let title50 := Py.take 50 (Monitor.window_title window_info) in
  let a :=
    if Monitor.is_browser window_info then
      let a1 := with_activity_type "neutral" (with_content_type "browser" activity) in
      if Py.is_substring "youtube" title_lower
         || Py.is_substring "youtube" (Monitor.url window_info) then
        with_content_description ("Watching: " ++ title50)
          (with_activity_type "entertainment"
             (with_content_category "video" (with_website "youtube.com" a1)))
      else if Py.is_substring "github" title_lower
              || Py.is_substring "github" (Monitor.url window_info) then
        with_productivity_score (8 # 10)
          (with_is_productive true
             (with_activity_type "productive"
                (with_content_category "code" (with_website "github.com" a1))))
      else if Py.any_in Classifier.social_sites title_lower then
        with_activity_type "social_media" (with_content_category "social_feed" a1)
      else with_content_description ("Browsing: " ++ title50) a1
    else if Py.any_in Classifier.code_editors app_lower then
      with_content_description ("Coding in " ++ Monitor.app_name window_info)
        (with_productivity_score 1
           (with_is_productive true
              (with_activity_type "productive" (with_content_type "code" activity))))
    else if Py.any_in Classifier.terminals app_lower then
      with_content_description "Using terminal"
        (with_productivity_score (8 # 10)
           (with_is_productive true
              (with_activity_type "productive" (with_content_type "terminal" activity))))
    else if Py.any_in Classifier.video_players app_lower then
      with_content_description ("Watching: " ++ title50)
        (with_activity_type "entertainment" (with_content_type "video" activity))
    else if Py.any_in office_apps app_lower then
      with_content_description ("Working on document: " ++ title50)
        (with_productivity_score (9 # 10)
           (with_is_productive true
              (with_activity_type "productive" (with_content_type "document" activity))))
    else
      with_content_description ("Using " ++ Monitor.app_name window_info)
        (with_activity_type "neutral" (with_content_type "unknown" activity)) in
  with_confidence (5 # 10) (with_detection_method "rules" a).

(** The assignments of [_analyze_content] from the dict that [classify]
    returned. The dict has no key ['description'] and no key ['title'], so
    the two [.get] calls on them yield their default [''];
    [extracted_text] is cut to 1000 characters. *)
Definition from_classification (c : Classifier.Result) (activity : Models.Activity)
    : Models.Activity :=
  with_extracted_text (Py.take 1000 (Classifier.extracted_text c))
    (with_is_nsfw (Classifier.is_nsfw c)
       (with_nsfw_score (Classifier.nsfw_score c)
          (with_confidence (Classifier.confidence c)
             (with_detection_method (Classifier.detection_method c)
                (with_productivity_score (Classifier.productivity_score c)
                   (with_is_productive (Classifier.is_productive c)
                      (with_activity_type (Classifier.activity_type c)
                         (with_content_title ""
                            (with_content_description ""
                               (with_content_category (Classifier.content_category c)
                                  (with_content_type (Classifier.content_type c)
                                     activity))))))))))).

(** What one pass of the worker meets outside the daemon object. *)
Record WorkerEnv : Type := mkWorkerEnv {
  analyzers : Classifier.Analyzers;        (* those of self._content_classifier *)
  save_screenshots : bool;                 (* config.monitoring.save_screenshots *)
  save_screenshot : outcome (option string);  (* screenshot_capture.save_screenshot(..) *)
  insert_activity : outcome Z;             (* database.insert_activity(..) *)
  now : Z                                  (* datetime.now() *)
}.

(** [_analyze_content]. [classify] catches whatever its stages raise, so the
    [except] branch around it is never taken. *)
Definition _analyze_content (env : WorkerEnv) (window_info : Monitor.WindowInfo)
    (screenshot : Image) (timestamp : Z) : M Daemon Models.Activity :=
  interval <- gets (fun d => Config.screenshot_interval (config d)) ;;
  let shown_url :=
    if Monitor.is_browser window_info then Monitor.url window_info else "" in
  let activity :=
    new_Activity timestamp (Monitor.app_name window_info)
      (Monitor.window_title window_info) (Monitor.process_name window_info)
      (Monitor.process_id window_info) shown_url shown_url interval in
  has_classifier <- gets _content_classifier ;;
  let activity :=
    if has_classifier
    then from_classification
           (Classifier.classify (analyzers env) (Some screenshot) (Some window_info))
           activity
    else _basic_classify activity window_info in
  if save_screenshots env then
    has_capture <- gets screenshot_capture ;;
    if has_capture then
      screenshot_path <- call (save_screenshot env) ;;
      match screenshot_path with
      | Some path =>
          if Py.truthy path then ret (with_screenshot_path path activity)
          else ret activity
      | None => ret activity
      end
    else raise (AttributeError "NoneType" "save_screenshot")
  else ret activity.

Definition set_total_analyses (n : nat) (s : DaemonState) : DaemonState :=
  mkDaemonState (is_running s) (is_paused s) (last_capture_time s) (last_analysis_time s)
    (last_window s) (total_captures s) n (errors s) (start_time s).

Definition set_last_analysis_time (t : option Z) (s : DaemonState) : DaemonState :=
  mkDaemonState (is_running s) (is_paused s) (last_capture_time s) t
    (last_window s) (total_captures s) (total_analyses s) (errors s) (start_time s).

(** One pass of the [while] loop of [_analysis_worker], with no callback
    registered. An empty queue after the timeout is the [continue]. *)
Definition _analysis_worker_iteration (env : WorkerEnv) : M Daemon unit :=
  try_except
    (q <- gets _analysis_queue ;;
     match items q with
     | [] => ret tt
     | item :: rest =>
         modify (set_queue (mkQueue (maxsize q) rest)) ;;
         activity <- _analyze_content env (item_window_info item)
                       (item_screenshot item) (item_timestamp item) ;;
         db <- gets database ;;
         (if db then call (insert_activity env)
          else raise (AttributeError "NoneType" "insert_activity")) ;;
         modify (emit (ActivityInserted activity)) ;;
         modify (set_state (fun s => set_total_analyses (total_analyses s + 1) s)) ;;
         modify (set_state (set_last_analysis_time (Some (now env))))
     end)
    (fun _ =>
       modify (set_state (fun s => set_errors (errors s + 1) s)) ;;
       modify (emit (Error "Analysis error"))).

(** [_analysis_worker]: one pass per element of [envs], as long as the loop
    condition holds. *)
Fixpoint _analysis_worker (envs : list WorkerEnv) (d : Daemon) : Daemon :=
  match envs with
  | [] => d
  | env :: rest =>
      if is_running (state d) && negb (_stop_event d)
      then _analysis_worker rest (fst (_analysis_worker_iteration env d))
      else d
  end.

End Worker.

(** ** src/analyzers/nsfw_detector.py *)

Module NSFWDetector.

(** One region reported by NudeNet: a dict whose keys ['class'] and
    ['score'] are read with [.get]. *)
Record Detection : Type := mkDetection {
  det_class : option string;
  det_score : option Q
}.

(** The library as [detect] meets it. *)
Record NudeNet : Type := mkNudeNet {
  HAS_NUDENET : bool;                          (* the import succeeded *)
  NudeDetector : outcome unit;                 (* NudeDetector() *)
  run_detector : Image -> outcome (list Detection)
      (* np.array(image) ... self._detector.detect(img_array) *)
}.

(** The dict [detect] returns. *)
Record Report : Type := mkReport {
  is_nsfw : bool;
  nsfw_score : Q;
  safe_score : Q;
  detected_parts : list string;
  detection_method : string
}.

Definition nsfw_labels : list string :=
  [ "FEMALE_BREAST_EXPOSED"; "FEMALE_GENITALIA_EXPOSED";
    "MALE_GENITALIA_EXPOSED"; "BUTTOCKS_EXPOSED";
    "ANUS_EXPOSED"; "FEMALE_BREAST_COVERED";
    "BELLY_EXPOSED"; "ARMPITS_EXPOSED" ].

Definition _fallback_result : Report := mkReport false 0 1 [] "fallback".

(** The three variables of the loop over the detections. *)
Record Scan : Type := mkScan {
  scan_is_nsfw : bool;
  scan_score : Q;
  scan_parts : list string
}.

(** The body of [for detection in results]. *)
Definition scan_step (acc : Scan) (detection : Detection) : Scan :=
  let label := Py.get (det_class detection) "" in
  let score := Py.get (det_score detection) 0 in
  if Py.mem label nsfw_labels && Py.gt score (5 # 10)
  then mkScan true (Py.max (scan_score acc) score) (scan_parts acc ++ [label])
  else acc.

Definition scan (results : list Detection) : Scan :=
  fold_left scan_step results (mkScan false 0 []).

(** [_initialize], on the flag [self._initialized]. *)
Definition _initialize (lib : NudeNet) : M bool bool :=
  fun initialized =>
    if initialized || negb (HAS_NUDENET lib) then (initialized, Ok false)
    else match NudeDetector lib with
         | Ok _ => (true, Ok true)
         | Raise _ => (initialized, Ok false)
         end.

(** [detect], on the flag [self._initialized]. *)
Definition detect (lib : NudeNet) (image : option Image) : M bool Report :=
  fun initialized =>
    if negb (HAS_NUDENET lib) then (initialized, Ok _fallback_result)
    else
      let (initialized', ready) :=
        if negb initialized then
          match _initialize lib initialized with
          | (i, Ok ok) => (i, ok)
          | (i, Raise _) => (i, false)
          end
        else (initialized, true) in
      if negb ready then (initialized', Ok _fallback_result)
      else
        match image with
        | None => (initialized', Ok _fallback_result)
        | Some img =>
            match run_detector lib img with
            | Ok results =>
                let s := scan results in
                (initialized',
                 Ok (mkReport (scan_is_nsfw s) (scan_score s) (1 - scan_score s)
                       (scan_parts s) "nudenet"))
            | Raise _ => (initialized', Ok _fallback_result)
            end
        end.

(** The detector as the classifier calls it, with the two keys it reads. *)
Definition as_analyzer (lib : NudeNet) (initialized : bool)
    (img : Image) : outcome Classifier.NSFWResult :=
  match snd (detect lib (Some img) initialized) with
  | Ok report =>
      Ok (Classifier.mkNSFWResult (Some (nsfw_score report)) (Some (is_nsfw report)))
  | Raise e => Raise e
  end.

End NSFWDetector.

(** ** src/analyzers/clip_analyzer.py *)

Module CLIPAnalyzer.

(** [s.replace(old, new)] for a non-empty [old]: the occurrences are found
    from left to right and do not overlap. [skip] counts the characters of a
    found occurrence still to be passed over. *)
Fixpoint replace_from (old new : string) (skip : nat) (s : string) : string :=
  match s with
  | EmptyString => EmptyString
  | String c s' =>
      match skip with
      | S k => replace_from old new k s'
      | O =>
          if String.prefix old s
          then new ++ replace_from old new (String.length old - 1) s'
          else String c (replace_from old new 0 s')
      end
  end.

Definition replace (old new s : string) : string := replace_from old new 0 s.

Definition CONTENT_CATEGORIES : list string :=
  [ "a cartoon or animated video";
    "an anime video";
    "a music video";
    "a gaming video or gameplay";
    "a tutorial or educational video";
    "a movie or TV series";
    "a documentary";
    "a comedy or funny video";
    "a news broadcast";
    "a sports video";
    "a vlog or personal video";
    "a live stream";
    "a coding or programming screen";
    "a social media feed";
    "a website or article";
    "a video player interface";
    "a desktop or file manager";
    "an adult or inappropriate content" ].

Definition mappings : list (string * string) :=
  [ ("cartoon or animated video", "cartoon");
    ("anime video", "anime");
    ("music video", "music_video");
    ("gaming video or gameplay", "gaming");
    ("tutorial or educational video", "tutorial");
    ("movie or TV series", "movie_series");
    ("documentary", "documentary");
    ("comedy or funny video", "comedy");
    ("news broadcast", "news");
    ("sports video", "sports");
    ("vlog or personal video", "vlog");
    ("live stream", "live_stream");
    ("coding or programming screen", "coding");
    ("social media feed", "social_feed");
    ("website or article", "article");
    ("video player interface", "video_player");
    ("desktop or file manager", "desktop");
    ("adult or inappropriate content", "adult") ].

(** [for key, value in mappings.items(): if key in category: return value] *)
Fixpoint first_mapping (m : list (string * string)) (category : string) : option string :=
  match m with
  | [] => None
  | (key, value) :: rest =>
      if Py.is_substring key category then Some value else first_mapping rest category
  end.

Definition _parse_category (category : string) : string :=
  let category := replace "an " "" (replace "a " "" category) in
  match first_mapping mappings category with
  | Some value => value
  | None => Py.lower (replace " " "_" category)
  end.

(** The library as [classify] meets it. The model's answer is the result of
    [similarity[0].topk(5)]: indices into the categories with their
    values, best first. *)
Record OpenCLIP : Type := mkOpenCLIP {
  HAS_CLIP : bool;                                  (* the imports succeeded *)
  load_model : outcome unit;                        (* the body of _initialize *)
  top_k : Image -> outcome (list (nat * Q))         (* preprocess ... topk(5) *)
}.

(** The dict [classify] returns; the fallback has no ['top_5']. *)
Record Report : Type := mkReport {
  classification : string;
  confidence : Q;
  top_5 : list (string * Q);
  is_nsfw : bool;
  detection_method : string
}.

Definition _fallback_classification : Report :=
  mkReport "unknown" 0 [] false "fallback".

(** [_initialize], on the flag [self._initialized]. *)
Definition _initialize (lib : OpenCLIP) : M bool bool :=
  fun initialized =>
    if initialized || negb (HAS_CLIP lib) then (initialized, Ok false)
    else match load_model lib with
         | Ok _ => (true, Ok true)
         | Raise _ => (false, Ok false)
         end.

(** [categories[idx]] for every index of the answer; [None] stands for the
    [IndexError]. *)
Fixpoint lookup_all (categories : list string) (answer : list (nat * Q))
    : option (list (string * Q)) :=
  match answer with
  | [] => Some []
  | (idx, value) :: rest =>
      match nth_error categories idx, lookup_all categories rest with
      | Some c, Some l => Some ((c, value) :: l)
      | _, _ => None
      end
  end.

(** [classify(image)] with the default categories; the empty dict is
    [None]. *)
Definition classify (lib : OpenCLIP) (image : option Image) : M bool (option Report) :=
  fun initialized =>
    if negb (HAS_CLIP lib) then (initialized, Ok (Some _fallback_classification))
    else
      let (initialized', ready) :=
        if negb initialized then
          match _initialize lib initialized with
          | (i, Ok ok) => (i, ok)
          | (i, Raise _) => (i, false)
          end
        else (initialized, true) in
      if negb ready then (initialized', Ok (Some _fallback_classification))
      else
        match image with
        | None => (initialized', Ok None)
        | Some img =>
            match top_k lib img with
            | Ok answer =>
                match lookup_all CONTENT_CATEGORIES answer with
                | Some (((top_category, top_confidence) :: _) as named) =>
                    (initialized',
                     Ok (Some (mkReport (_parse_category top_category) top_confidence
                                 (map (fun cv => (_parse_category (fst cv), snd cv)) named)
                                 (Py.is_substring "adult" (Py.lower top_category)
                                  || Py.is_substring "inappropriate"
                                       (Py.lower top_category))
                                 "clip")))
                | _ => (initialized', Ok (Some _fallback_classification))
                end
            | Raise _ => (initialized', Ok (Some _fallback_classification))
            end
        end.

(** The analyzer as the classifier calls it, with the two keys it reads. *)
Definition as_analyzer (lib : OpenCLIP) (initialized : bool)
    (img : Image) : outcome Classifier.CLIPResult :=
  match snd (classify lib (Some img) initialized) with
  | Ok (Some report) =>
      Ok (Classifier.mkCLIPResult (Some (classification report))
            (Some (confidence report)))
  | Ok None => Ok (Classifier.mkCLIPResult None None)
  | Raise e => Raise e
  end.

End CLIPAnalyzer.

(** ** src/analyzers/url_analyzer.py *)

Module URLAnalyzer.

(** An entry of [SITE_RULES]. *)
Record SiteInfo : Type := mkSiteInfo {
  category : string;
  site_activity : string;
  site_name : string
}.

Definition SITE_RULES : list (string * SiteInfo) :=
  [ ("youtube.com", mkSiteInfo "video_streaming" "entertainment" "YouTube");
    ("youtu.be", mkSiteInfo "video_streaming" "entertainment" "YouTube");
    ("netflix.com", mkSiteInfo "video_streaming" "entertainment" "Netflix");
    ("twitch.tv", mkSiteInfo "live_streaming" "entertainment" "Twitch");
    ("vimeo.com", mkSiteInfo "video_streaming" "neutral" "Vimeo");
    ("facebook.com", mkSiteInfo "social_media" "social_media" "Facebook");
    ("twitter.com", mkSiteInfo "social_media" "social_media" "Twitter");
    ("x.com", mkSiteInfo "social_media" "social_media" "X");
    ("instagram.com", mkSiteInfo "social_media" "social_media" "Instagram");
    ("tiktok.com", mkSiteInfo "social_media" "social_media" "TikTok");
    ("reddit.com", mkSiteInfo "forum" "social_media" "Reddit");
    ("linkedin.com", mkSiteInfo "professional" "productive" "LinkedIn");
    ("github.com", mkSiteInfo "development" "productive" "GitHub");
    ("gitlab.com", mkSiteInfo "development" "productive" "GitLab");
    ("stackoverflow.com", mkSiteInfo "development" "productive" "Stack Overflow");
    ("developer.mozilla.org", mkSiteInfo "documentation" "educational" "MDN");
    ("udemy.com", mkSiteInfo "learning" "educational" "Udemy");
    ("coursera.org", mkSiteInfo "learning" "educational" "Coursera");
    ("khanacademy.org", mkSiteInfo "learning" "educational" "Khan Academy");
    ("amazon.com", mkSiteInfo "shopping" "shopping" "Amazon");
    ("ebay.com", mkSiteInfo "shopping" "shopping" "eBay");
    ("bbc.com", mkSiteInfo "news" "news" "BBC");
    ("cnn.com", mkSiteInfo "news" "news" "CNN");
    ("docs.google.com", mkSiteInfo "productivity" "productive" "Google Docs");
    ("notion.so", mkSiteInfo "productivity" "productive" "Notion");
    ("trello.com", mkSiteInfo "productivity" "productive" "Trello");
    ("mail.google.com", mkSiteInfo "email" "productive" "Gmail");
    ("outlook.live.com", mkSiteInfo "email" "productive" "Outlook") ].

(** [s[n:]] *)
Fixpoint drop (n : nat) (s : string) : string :=
  match n, s with
  | O, _ => s
  | S k, EmptyString => EmptyString
  | S k, String _ s' => drop k s'
  end.

(** [s.split(c)[0]]: the characters before the first [c]. *)
Fixpoint before (c : ascii) (s : string) : string :=
  match s with
  | EmptyString => EmptyString
  | String c0 s' => if Ascii.eqb c0 c then EmptyString else String c0 (before c s')
  end.

(** [_extract_domain]; [netloc] stands for [urlparse(url).netloc], which may
    raise. *)
Definition _extract_domain (netloc : string -> outcome string) (url : string) : string :=
  if negb (Py.truthy url) then ""
  else
    let url :=
      if String.prefix "http://" url || String.prefix "https://" url
      then url else "https://" ++ url in
    match netloc url with
    | Ok parsed =>
        let domain := Py.lower parsed in
        let domain := if String.prefix "www." domain then drop 4 domain else domain in
        if Py.is_substring ":" domain then before ":" domain else domain
    | Raise _ => ""
    end.

(** The first entry of the table whose key occurs in the domain. *)
Fixpoint match_site (rules : list (string * SiteInfo)) (domain : string)
    : option SiteInfo :=
  match rules with
  | [] => None
  | (site_domain, info) :: rest =>
      if Py.is_substring site_domain domain then Some info else match_site rest domain
  end.

(** The dict [analyze] returns, without the optional ['video_id']. *)
Record Analysis : Type := mkAnalysis {
  url : string;
  domain : string;
  website : string;
  content_type : string;
  activity : string;
  name : string
}.

(** [analyze]; the empty dict is [None]. *)
Definition analyze (netloc : string -> outcome string) (u : string) : option Analysis :=
  if negb (Py.truthy u) then None
  else
    let d := _extract_domain netloc u in
    match match_site SITE_RULES d with
    | Some info => Some (mkAnalysis u d d (category info) (site_activity info)
                           (site_name info))
    | None => Some (mkAnalysis u d d "other" "neutral" "")
    end.

(** The analyzer as the classifier calls it, with the keys the merge reads. *)
Definition as_analyzer (netloc : string -> outcome string)
    (u : string) : outcome (option Classifier.URLResult) :=
  Ok (match analyze netloc u with
      | Some a => Some (Classifier.mkURLResult (website a) (content_type a) (activity a))
      | None => None
      end).

End URLAnalyzer.

(** ** src/analyzers/ocr_analyzer.py *)

Module OCRAnalyzer.

(** What the code uses of pytesseract: whether the import succeeded and
    [pytesseract.image_to_string], which may raise. *)
Record Tesseract : Type := mkTesseract {
  HAS_PYTESSERACT : bool;
  image_to_string : Image -> outcome string
}.

(** The programming-language indicators of [analyze_text], in the order of
    the dict. *)
Definition lang_indicators : list (string * list string) :=
  [ ("python", ["import "; "def "; "class "; "print("; "self."; "elif "; "python"]);
    ("javascript", ["function "; "const "; "let "; "var "; "=>"; "console."]);
    ("java", ["public static"; "void main"; "system.out"; "import java"]);
    ("cpp", ["#include"; "std::"; "cout"; "cin"; "template<"]);
    ("html", ["<html"; "<div"; "<span"; "<script"; "<!doctype"]);
    ("css", ["font-size:"; "margin:"; "padding:"; "@media"]);
    ("sql", ["select "; "from "; "where "; "insert "; "update "]) ].

(** The loop over [lang_detections]: the first language with an indicator
    in the text. *)
Fixpoint detect_programming_language (table : list (string * list string))
    (text_lower : string) : option string :=
  match table with
  | [] => None
  | (lang, indicators) :: rest =>
      if Py.any_in indicators text_lower then Some lang
      else detect_programming_language rest text_lower
  end.

Definition tutorial_words : list string := ["tutorial"; "learn"; "how to"; "guide"; "course"].
Definition video_words : list string := ["subscribe"; "like"; "comment"; "share"; "views"].
Definition entertainment_words : list string := ["episode"; "season"; "series"; "anime"].

(** The keys of the dict [analyze_text] returns that do not depend on word
    splitting: keywords, language, word_count and line_count are left out. *)
Record Analysis : Type := mkAnalysis {
  full_text : string;
  text_length : nat;
  programming_language : option string;
  has_code : bool;
  has_url : bool;
  content_suggestions : list string
}.

Section Cleaning.

(** [clean_text], a matter of regular expressions and Unicode character
    classes, is kept abstract. *)
Variable clean_text : string -> string.

(** [extract_text] *)
Definition extract_text (lib : Tesseract) (image : option Image) : string :=
  if negb (HAS_PYTESSERACT lib) then ""
  else
    match image with
    | None => ""
    | Some img =>
        match image_to_string lib img with
        | Ok text => clean_text text
        | Raise _ => ""
        end
    end.

(** [analyze_text]; the empty dict is [None]. *)
Definition analyze_text (text : string) : option Analysis :=
  if negb (Py.truthy text) || (String.length text <? 3)%nat then None
  else
    let text := clean_text text in
    let text_lower := Py.lower text in
    let programming_language := detect_programming_language lang_indicators text_lower in
    let has_code := match programming_language with Some _ => true | None => false end in
    let has_url :=
      Py.is_substring "http://" text || Py.is_substring "https://" text
      || Py.is_substring "www." text in
    let content_suggestions :=
      ((if has_code then ["coding"] else [])
       ++ (if Py.any_in tutorial_words text_lower then ["tutorial"] else [])
       ++ (if Py.any_in video_words text_lower then ["video"] else [])
       ++ (if Py.any_in entertainment_words text_lower then ["entertainment"] else []))%list in
    Some (mkAnalysis (Py.take 500 text) (String.length text) programming_language
            has_code has_url content_suggestions).

(** The two keys the classifier's merge reads. *)
Definition as_result (a : option Analysis) : Classifier.OCRResult :=
  match a with
  | Some a => Classifier.mkOCRResult (programming_language a) (Some (content_suggestions a))
  | None => Classifier.mkOCRResult None None
  end.

End Cleaning.

End OCRAnalyzer.

(** ** src/analyzers/image_analyzer.py *)

Module ImageAnalyzer.

(** What the code uses of PIL, numpy and OpenCV: the attributes of the
    image, the three colour means of its RGB conversion, and the share of
    edge pixels that Canny finds ([edge_count / total_pixels], 0 for an
    image without pixels). The last two may raise. *)
Record Vision : Type := mkVision {
  HAS_OPENCV : bool;
  width : Image -> Z;
  height : Image -> Z;
  mode : Image -> string;
  mean_rgb : Image -> outcome (Q * Q * Q);
  edge_share : Image -> outcome Q
}.

Record Colors : Type := mkColors {
  mean_red : Q;
  mean_green : Q;
  mean_blue : Q;
  brightness : Q;
  is_dark_theme : bool
}.

Record Layout : Type := mkLayout {
  edge_density : Q;
  layout_type : string;
  ui_complexity : string
}.

(** The dict of [analyze_image]: the keys of a failed part are absent. *)
Record Results : Type := mkResults {
  image_width : Z;
  image_height : Z;
  aspect_ratio : Q;
  image_mode : string;
  colors : option Colors;
  layout : option Layout
}.

(** [analyze_colors]; the empty dict is [None]. *)
Definition analyze_colors (lib : Vision) (image : Image) : option Colors :=
  match mean_rgb lib image with
  | Ok (mean_r, mean_g, mean_b) =>
      let brightness := (mean_r + mean_g + mean_b) / 3 in
      Some (mkColors mean_r mean_g mean_b brightness (Py.gt 128 brightness))
  | Raise _ => None
  end.

(** [analyze_layout]; the empty dict is [None]. *)
Definition analyze_layout (lib : Vision) (image : Image) : option Layout :=
  if negb (HAS_OPENCV lib) then None
  else
    match edge_share lib image with
    | Ok edge_density =>
        let layout_type :=
          if Py.gt edge_density (15 # 100) then "complex"
          else if Py.gt edge_density (5 # 100) then "moderate"
          else "simple" in
        Some (mkLayout edge_density layout_type
                (if Py.gt edge_density (15 # 100) then "high"
                 else if Py.gt edge_density (5 # 100) then "medium" else "low"))
    | Raise _ => None
    end.

(** [analyze_image]; the empty dict is [None]. *)
Definition analyze_image (lib : Vision) (image : option Image) : option Results :=
  match image with
  | None => None
  | Some image =>
      Some (mkResults (width lib image) (height lib image)
              (if (0 <? height lib image)%Z
               then inject_Z (width lib image) / inject_Z (height lib image) else 0)
              (mode lib image)
              (analyze_colors lib image)
              (if HAS_OPENCV lib then analyze_layout lib image else None))
  end.

(** The key the classifier's merge reads. *)
Definition as_result (a : option Results) : Classifier.ImageResult :=
  Classifier.mkImageResult
    match a with
    | Some results =>
        match layout results with
        | Some l => Some (layout_type l)
        | None => None
        end
    | None => None
    end.

End ImageAnalyzer.

(** ** src/core/monitor.py: what a window title tells *)

Module WindowTitles.

Definition BROWSER_NAMES : list string :=
  ["firefox"; "chrome"; "chromium"; "brave"; "opera"; "edge"; "vivaldi"; "librewolf"].

(** [any(b in app_name.lower() for b in self.BROWSER_NAMES)] *)
Definition is_browser (app_name : string) : bool :=
  Py.any_in BROWSER_NAMES (Py.lower app_name).

(** The dict [known_sites] of [_extract_url_from_title], in its order. *)
Definition known_sites : list (string * string) :=
  [ ("youtube", "youtube.com");
    ("github", "github.com");
    ("stackoverflow", "stackoverflow.com");
    ("stack overflow", "stackoverflow.com");
    ("reddit", "reddit.com");
    ("twitter", "twitter.com");
    ("facebook", "facebook.com");
    ("linkedin", "linkedin.com");
    ("instagram", "instagram.com");
    ("netflix", "netflix.com");
    ("amazon", "amazon.com");
    ("google", "google.com");
    ("gmail", "gmail.com") ].

(** The loop of [_extract_url_from_title]: the domain of the first name
    that occurs in the title. *)
Fixpoint first_site (sites : list (string * string)) (title_lower : string) : string :=
  match sites with
  | [] => ""
  | (name, domain) :: rest =>
      if Py.is_substring name title_lower then domain else first_site rest title_lower
  end.

Definition _extract_url_from_title (title : string) : string :=
  if negb (Py.truthy title) then "" else first_site known_sites (Py.lower title).

(** The [url] that [_get_window_gnome], [_get_window_sway],
    [_get_window_hyprland] and [_get_window_x11] give their [WindowInfo];
    [_get_window_fallback] leaves it empty. *)
Definition window_url (app_name title : string) : string :=
  if is_browser app_name then _extract_url_from_title title else "".

End WindowTitles.

(** ** src/analytics/stats.py *)

Module Stats.

Definition PRODUCTIVITY_WEIGHTS : list (string * Q) :=
  [ ("productive", 1);
    ("educational", 8 # 10);
    ("neutral", 0);
    ("news", - (1 # 10));
    ("shopping", - (2 # 10));
    ("entertainment", - (3 # 10));
    ("social_media", - (4 # 10));
    ("gaming", - (3 # 10));
    ("adult", - (1));
    ("idle", 0);
    ("unknown", 0) ]%Q.

(** The weight [_calculate_productivity_score] gives the seconds of an
    activity type: [self.PRODUCTIVITY_WEIGHTS.get(activity_type, 0)]. *)
Definition weight (activity_type : string) : Q :=
  Py.dict_get PRODUCTIVITY_WEIGHTS activity_type 0.

(** [time_by_type[key] += duration] on a [defaultdict(int)]. *)
Fixpoint add_time (key : string) (duration : Z) (d : list (string * Z))
    : list (string * Z) :=
  match d with
  | [] => [(key, duration)]
  | (k, v) :: d' =>
      if String.eqb k key then (k, (v + duration)%Z) :: d'
      else (k, v) :: add_time key duration d'
  end.

(** The integer keys of the dict of [get_daily_summary] and
    [_empty_summary]. The two float keys, ['productivity_score'] and
    ['avg_confidence'], which the code computes in double precision, are
    left out. *)
Record Summary : Type := mkSummary {
  date : string;
  total_tracked_time : Z;
  productive_time : Z;
  educational_time : Z;
  entertainment_time : Z;
  social_media_time : Z;
  gaming_time : Z;
  shopping_time : Z;
  news_time : Z;
  adult_content_time : Z;
  neutral_time : Z;
  idle_time : Z;
  total_sessions : Z;
  nsfw_detections : Z
}.

Definition _empty_summary (date_str : string) : Summary :=
  mkSummary date_str 0 0 0 0 0 0 0 0 0 0 0 0 0.

(** The integer accumulators of the loop over the activities
    ([total_confidence], a float, is left out). *)
Record Totals : Type := mkTotals {
  time_by_type : list (string * Z);
  total_duration : Z;
  nsfw_count : Z
}.

Definition count (t : Totals) (activity : Models.Activity) : Totals :=
  mkTotals
    (add_time (Models.activity_type activity) (Models.duration activity) (time_by_type t))
    (total_duration t + Models.duration activity)%Z
    (if Models.is_nsfw activity then (nsfw_count t + 1)%Z else nsfw_count t).

Definition tally (activities : list Models.Activity) : Totals :=
  fold_left count activities (mkTotals [] 0 0).

(** [get_daily_summary] from the two answers of the database: the cached
    row of the day, returned as it is, and the activities of the day, whose
    query (or the parsing of the date before it) may raise. *)
Definition get_daily_summary (date_str : string) (cached : option Summary)
    (activities : outcome (list Models.Activity)) : Summary :=
  match cached with
  | Some summary => summary
  | None =>
      match activities with
      | Ok ((_ :: _) as activities) =>
          let t := tally activities in
          let time := fun key => Py.dict_get (time_by_type t) key 0%Z in
          mkSummary date_str (total_duration t)
            (time "productive") (time "educational") (time "entertainment")
            (time "social_media") (time "gaming") (time "shopping") (time "news")
            (time "adult") (time "neutral") (time "idle")
            (Z.of_nat (List.length activities))
            (nsfw_count t)
      | Ok [] => _empty_summary date_str
      | Raise _ => _empty_summary date_str
      end
  end.

End Stats.

(** ** src/utils/helpers.py: durations, and the uptime of the daemon *)

Module Helpers.

(** [f"{n}"] for an [int]. *)
Definition str (n : Z) : string := NilZero.string_of_int (Z.to_int n).

(** [format_duration]; [src/analytics/stats.py] has the same function. *)
Definition format_duration (seconds : Z) : string :=
  if (seconds <? 60)%Z then str seconds ++ "s"
  else if (seconds <? 3600)%Z then
    let minutes := (seconds / 60)%Z in
    let secs := (seconds mod 60)%Z in
    if (secs =? 0)%Z then str minutes ++ "m"
    else str minutes ++ "m " ++ str secs ++ "s"
  else
    let hours := (seconds / 3600)%Z in
    let minutes := ((seconds mod 3600) / 60)%Z in
    if (minutes =? 0)%Z then str hours ++ "h"
    else str hours ++ "h " ++ str minutes ++ "m".

(** [DaemonState.uptime_formatted], the ['uptime'] of [get_status]; the
    uptime in whole seconds is [int(self.uptime)]. *)
Definition uptime_formatted (now : Z) (s : Daemon.DaemonState) : string :=
  format_duration (Daemon.uptime now s).

End Helpers.

(** * Vocabulary of the properties *)

Module Spec.

Import Classifier.

(** The confidence [classify] reads from a CLIP result. *)
Definition clip_conf (c : CLIPResult) : Q := Py.get (clip_confidence c) 0.

(** What the embedding stage writes when it applies. *)
Definition clip_written (c : CLIPResult) (r r' : Result) : Prop :=
  let classification := Py.get (clip_classification c) "" in
  content_category r' = classification /\
  confidence r' = clip_conf c /\
  detection_method r' = "clip" /\
  activity_type r' = Py.dict_get activity_map classification (activity_type r).

(** The fields the embedding stage never writes. *)
Definition clip_frame (r r' : Result) : Prop :=
  content_type r' = content_type r /\
  content_description r' = content_description r /\
  content_title r' = content_title r /\
  is_productive r' = is_productive r /\
  productivity_score r' = productivity_score r /\
  nsfw_score r' = nsfw_score r /\
  is_nsfw r' = is_nsfw r /\
  extracted_text r' = extracted_text r.

(** The state a computation leaves, whether it returned or raised. *)
Definition exec {S A : Type} (c : M S A) (s : S) : S := fst (c s).

Definition returns {A : Type} (o : outcome A) : bool :=
  match o with Ok _ => true | Raise _ => false end.

(** The window attributes [classify] reads with [getattr]. *)
Definition win_app_name (w : option Monitor.WindowInfo) : string :=
  match w with Some w => Monitor.app_name w | None => "" end.

Definition win_title (w : option Monitor.WindowInfo) : string :=
  match w with Some w => Monitor.window_title w | None => "" end.

Definition win_url (w : option Monitor.WindowInfo) : string :=
  match w with Some w => Monitor.url w | None => "" end.

Definition win_is_browser (w : option Monitor.WindowInfo) : bool :=
  match w with Some w => Monitor.is_browser w | None => false end.

(** Every analyzer call that [classify] makes outside an inner [try]
    (URL, OCR text extraction and analysis, image analysis) returns. *)
Definition unguarded_calls_return (an : Analyzers) (screenshot : option Image)
    (window_info : option Monitor.WindowInfo) : bool :=
  (negb (Py.truthy (win_url window_info))
   || returns (url_analyze an (win_url window_info)))
  && match screenshot with
     | None => true
     | Some img =>
         match ocr_extract_text an img with
         | Ok text => negb (Py.truthy text) || returns (ocr_analyze_text an text)
         | Raise _ => false
         end
         && returns (image_analyze an img)
     end.

(** The weight table as the specification words it. *)
Definition weight_table (f : string -> Q) : Prop :=
  f "productive" = 1 /\
  f "educational" = 8 # 10 /\
  f "neutral" = 0 /\
  f "news" = - (1 # 10) /\
  f "shopping" = - (2 # 10) /\
  f "entertainment" = - (3 # 10) /\
  f "social_media" = - (4 # 10) /\
  f "gaming" = - (3 # 10) /\
  f "adult" = - (1) /\
  (forall a,
     ~ In a ["productive"; "educational"; "neutral"; "news"; "shopping";
             "entertainment"; "social_media"; "gaming"; "adult"] ->
     f a = 0).

(** *** Analyzers and windows used as concrete inputs *)

(** [URLAnalyzer.analyze] on a URL that matches no entry of [SITE_RULES], the
    URL being its own domain. *)
Definition unknown_site (url : string) : outcome (option URLResult) :=
  if Py.truthy url then Ok (Some (mkURLResult url "other" "neutral")) else Ok None.

(** The analyzers with every optional library missing: no OCR text, no
    layout, the CLIP and NSFW fallbacks. *)
Definition offline_analyzers : Analyzers :=
  mkAnalyzers unknown_site
    (fun _ => Ok "")
    (fun _ => Ok (mkOCRResult None None))
    (fun _ => Ok (mkImageResult None))
    (fun _ => Ok clip_fallback_classification)
    (fun _ => Ok nsfw_fallback_result).

(** An editor window, as in the example scenario of the specification. *)
Definition vscode_window : Monitor.WindowInfo :=
  Monitor.mkWindowInfo 0 "main.py - myproj - VS Code" "code" "code" 4242 "code" false "".

(** The lower-cased strings [_apply_rules] matches on:
    [s.lower() if s else ''] *)
Definition lowered (s : string) : string :=
  if Py.truthy s then Py.lower s else "".

(** The application name matches one of the three application rules
    (editor, terminal, video player). *)
Definition recognized_app (app_name : string) : bool :=
  Py.any_in code_editors (lowered app_name)
  || Py.any_in terminals (lowered app_name)
  || Py.any_in video_players (lowered app_name).

(** The window is a browser whose title names one of the known sites. *)
Definition recognized_site (window_title : string) (is_browser : bool) : bool :=
  is_browser
  && (Py.is_substring "youtube" (lowered window_title)
      || Py.is_substring "github" (lowered window_title)
      || Py.any_in social_sites (lowered window_title)).

(** Some rule of the rule stage applies to the window. *)
Definition rule_matches (app_name window_title : string) (is_browser : bool) : bool :=
  recognized_app app_name || recognized_site window_title is_browser.

(** The fields the rule stage never writes. *)
Definition rules_frame (r r' : Result) : Prop :=
  content_description r' = content_description r /\
  content_title r' = content_title r /\
  is_productive r' = is_productive r /\
  productivity_score r' = productivity_score r /\
  detection_method r' = detection_method r /\
  nsfw_score r' = nsfw_score r /\
  is_nsfw r' = is_nsfw r /\
  extracted_text r' = extracted_text r.

(** C3 as the specification states it: the rule stage writes content_type,
    activity_type and content_category only where the earlier stages left
    the default. *)
Definition rules_fill_only_unset (app_name window_title : string) (is_browser : bool)
    (r : Result) : Prop :=
  let r' := _apply_rules app_name window_title is_browser r in
  (content_type r <> "unknown" -> content_type r' = content_type r) /\
  (activity_type r <> "neutral" -> activity_type r' = activity_type r) /\
  (content_category r <> "" -> content_category r' = content_category r).

(** The merged result after the URL stage has seen a YouTube address. *)
Definition after_youtube_url : Result :=
  _merge_url_result (mkURLResult "youtube.com" "video_streaming" "entertainment")
    initial_result.

(** C1 as the specification states it: a positive NSFW verdict decides the
    final activity type and category. *)
Definition nsfw_decides (an : Analyzers) (img : Image)
    (window_info : option Monitor.WindowInfo) : Prop :=
  forall n, nsfw_detect an img = Ok n ->
            Py.get (nsfw_result_is_nsfw n) false = true ->
            activity_type (classify an (Some img) window_info) = "adult" /\
            content_category (classify an (Some img) window_info) = "adult_content".

(** The offline analyzers with an NSFW detector that flags every image. *)
Definition flagging_analyzers : Analyzers :=
  mkAnalyzers (url_analyze offline_analyzers) (ocr_extract_text offline_analyzers)
    (ocr_analyze_text offline_analyzers) (image_analyze offline_analyzers)
    (clip_classify offline_analyzers)
    (fun _ => Ok (mkNSFWResult (Some (9 # 10)) (Some true))).

(** C2 as the specification states it, for a recognized application:
    whatever the analyzers do, the rules have run and a classification and a
    description exist. *)
Definition always_classifies (an : Analyzers) (screenshot : option Image)
    (window_info : option Monitor.WindowInfo) : Prop :=
  recognized_app (win_app_name window_info) = true ->
  activity_type (classify an screenshot window_info) <> "neutral" /\
  content_description (classify an screenshot window_info) <> "".

(** The offline analyzers with an image analyzer that raises. *)
Definition broken_image_analyzers : Analyzers :=
  mkAnalyzers (url_analyze offline_analyzers) (ocr_extract_text offline_analyzers)
    (ocr_analyze_text offline_analyzers)
    (fun _ => Raise (Exception "image analysis failed"))
    (clip_classify offline_analyzers) (nsfw_detect offline_analyzers).

(** C7 as the specification states it: whatever the analyzers do, the
    result carries the table value of its final activity type, and
    is_productive tells whether that value is positive. *)
Definition productivity_follows_table (an : Analyzers) (screenshot : option Image)
    (window_info : option Monitor.WindowInfo) : Prop :=
  let r := classify an screenshot window_info in
  productivity_score r = _calculate_productivity (activity_type r) /\
  (is_productive r = true <-> (0 < productivity_score r)%Q).

(** Analyzers whose OCR reads a line of Python and whose image analyzer
    raises. *)
Definition code_then_broken_image_analyzers : Analyzers :=
  mkAnalyzers (url_analyze offline_analyzers)
    (fun _ => Ok "import numpy")
    (fun _ => Ok (mkOCRResult (Some "python") (Some ["coding"])))
    (fun _ => Raise (Exception "image analysis failed"))
    (clip_classify offline_analyzers) (nsfw_detect offline_analyzers).

(** Every step of [classify] applied in order to the initial result. *)
Definition all_stages (an : Analyzers) (screenshot : option Image)
    (window_info : option Monitor.WindowInfo) : Result :=
  exec (description_stage (win_app_name window_info) (win_title window_info))
    (exec productivity_stage
       (exec (rules_stage (win_app_name window_info) (win_title window_info)
                (win_is_browser window_info))
          (exec (nsfw_stage an screenshot)
             (exec (clip_stage an screenshot)
                (exec (image_stage an screenshot)
                   (exec (ocr_stage an screenshot)
                      (exec (url_stage an (win_url window_info)) initial_result))))))).

End Spec.

Module DaemonSpec.

Import Daemon.

(** The three counters of the daemon state. *)
Definition counters (d : Daemon) : nat * nat * nat :=
  (total_captures (state d), total_analyses (state d), errors (state d)).

(** The configuration [config.py] ships as default, as far as the scheduler
    reads it. *)
Definition default_config : Config.Config :=
  Config.mkConfig 30 true
    ["keepassxc"; "bitwarden"; "1password"; "gnome-keyring"]
    ["password"; "private"; "incognito"; "secret"].

(** The default configuration with the skip-unchanged flag off. *)
Definition capture_every_tick_config : Config.Config :=
  Config.mkConfig 30 false
    ["keepassxc"; "bitwarden"; "1password"; "gnome-keyring"]
    ["password"; "private"; "incognito"; "secret"].

Definition x11_monitor : Monitor.WindowMonitor :=
  Monitor.mkWindowMonitor "x11" "gnome" None.

Definition good_start (now : Z) : StartEnv :=
  mkStartEnv now x11_monitor (Ok tt) (Ok tt).

Definition good_stop : StopEnv := mkStopEnv (Ok tt) (Ok tt) (Ok tt).

(** A tick on which the editor window is in front and the capture works. *)
Definition editor_tick (now : Z) : TickEnv :=
  mkTickEnv (Some Spec.vscode_window) (Some (PILImage 0)) now now (Ok 1%Z).

(** A daemon started on the given configuration. *)
Definition started_daemon (cfg : Config.Config) : Daemon :=
  Spec.exec (start (good_start 1000)) (__init__ cfg).

(** A daemon that was started, ran one tick and was stopped. *)
Definition stopped_after_one_tick : Daemon :=
  Spec.exec (stop good_stop)
    (_main_loop [editor_tick 1030] (started_daemon capture_every_tick_config)).

(** C8 as the specification states it: [start] from the stopped state zeroes
    the counters. *)
Definition start_resets_counters (env : StartEnv) (d : Daemon) : Prop :=
  is_running (state d) = false ->
  counters (Spec.exec (start env) d) = (0, 0, 0)%nat.

(** The events of one run of [_cleanup] on a daemon with all components. *)
Definition is_database_closed (e : Event) : bool :=
  match e with DatabaseClosed => true | _ => false end.

Definition cleanups (d : Daemon) : nat :=
  length (filter is_database_closed (events d)).

(** The event records the insertion of an idle activity. *)
Definition inserts_idle (e : Event) : bool :=
  match e with
  | ActivityInserted a => Models.is_idle a
  | _ => false
  end.

(** The item a tick puts on the queue. *)
Definition tick_item (env : TickEnv) (w : Monitor.WindowInfo) (img : Image) : QueueItem :=
  mkQueueItem w img (now_enqueue env).

(** Offering the items one after the other to a queue nobody drains, as the
    scheduler does: an item that meets [queue.Full] is dropped. The second
    component counts the drops. *)
Fixpoint offer_all (xs : list QueueItem) (q : Queue) : Queue * nat :=
  match xs with
  | [] => (q, 0%nat)
  | x :: rest =>
      match put_nowait x q with
      | Ok q' => offer_all rest q'
      | Raise _ => let (q', dropped) := offer_all rest q in (q', S dropped)
      end
  end.

(** The daemon after the part of a tick that follows a successful capture,
    up to the call of [update_last_window]. *)
Definition after_capture (env : TickEnv) (w : Monitor.WindowInfo) (img : Image)
    (d : Daemon) : Daemon :=
  let d1 :=
    set_state (set_last_capture_time (Some (now_capture env)))
      (set_state (fun s => set_total_captures (total_captures s + 1) s)
         (emit CaptureCalled d)) in
  if full (_analysis_queue d)
  then emit (Warning "Analysis queue full, dropping capture") d1
  else set_queue (mkQueue (maxsize (_analysis_queue d))
                    (items (_analysis_queue d) ++ [tick_item env w img])) d1.

(** The events a computation adds contain no insertion of an idle record. *)
Definition adds_no_idle (d d' : Daemon) : Prop :=
  exists new, events d' = (events d ++ new)%list /\ existsb inserts_idle new = false.

End DaemonSpec.

(** * Vocabulary of the further properties *)

Module SchedulerSpec.

Import Daemon.

(** The window matches a privacy setting: an excluded application name
    occurs, whatever the case, in its application or process name, or an
    excluded keyword occurs in its title. *)
Definition matches_exclusion (cfg : Config.Config) (w : Monitor.WindowInfo) : Prop :=
  (exists exc, In exc (Config.excluded_apps cfg) /\
               (Py.is_substring (Py.lower exc) (Py.lower (Monitor.app_name w)) = true \/
                Py.is_substring (Py.lower exc) (Py.lower (Monitor.process_name w)) = true)) \/
  (exists kw, In kw (Config.excluded_title_keywords cfg) /\
              Py.is_substring (Py.lower kw) (Py.lower (Monitor.window_title w)) = true).

(** What a tick of the scheduler never touches. *)
Definition scheduler_frame (d d' : Daemon) : Prop :=
  config d' = config d /\
  screenshot_capture d' = screenshot_capture d /\
  window_monitor d' = window_monitor d /\
  database d' = database d /\
  _stop_event d' = _stop_event d /\
  is_running (state d') = is_running (state d) /\
  is_paused (state d') = is_paused (state d) /\
  total_analyses (state d') = total_analyses (state d) /\
  start_time (state d') = start_time (state d) /\
  maxsize (_analysis_queue d') = maxsize (_analysis_queue d).

(** A password manager in front. *)
Definition keepass_window : Monitor.WindowInfo :=
  Monitor.mkWindowInfo 7 "Passwords - KeePassXC" "KeePassXC" "keepassxc" 77 "KeePassXC"
    false "".

Definition keepass_tick (now : Z) : TickEnv :=
  mkTickEnv (Some keepass_window) (Some (PILImage 1)) now now (Ok 1%Z).

(** A tick on which the capture fails. *)
Definition blind_tick (now : Z) : TickEnv :=
  mkTickEnv (Some Spec.vscode_window) None now now (Ok 1%Z).

Definition sample_item (n : nat) : QueueItem :=
  mkQueueItem Spec.vscode_window (PILImage n) (Z.of_nat n).

End SchedulerSpec.

Module WorkerSpec.

Import Daemon Worker.

(** A pass on which the insert succeeds and no screenshot is saved. *)
Definition healthy (env : WorkerEnv) : bool :=
  negb (save_screenshots env) && Spec.returns (insert_activity env).

(** The window title an item was captured on. *)
Definition item_title (x : QueueItem) : string :=
  Monitor.window_title (item_window_info x).

Definition offline_pass (now : Z) : WorkerEnv :=
  mkWorkerEnv Spec.offline_analyzers false (Ok None) (Ok 1%Z) now.

(** A pass on which the database rejects the insert. *)
Definition failing_pass (now : Z) : WorkerEnv :=
  mkWorkerEnv Spec.offline_analyzers false (Ok None)
    (Raise (Exception "database is locked")) now.

Definition browser_window : Monitor.WindowInfo :=
  Monitor.mkWindowInfo 3 "rocq - GitHub" "firefox" "firefox" 33 "firefox" true "github.com".

(** A started daemon with two captures waiting. *)
Definition daemon_with_two_items : Daemon :=
  set_queue (mkQueue 100 [mkQueueItem Spec.vscode_window (PILImage 1) 1030;
                          mkQueueItem browser_window (PILImage 2) 1060])
    (DaemonSpec.started_daemon DaemonSpec.capture_every_tick_config).

(** A daemon whose classifier could not be constructed at start. *)
Definition daemon_without_classifier : Daemon :=
  Spec.exec (start (mkStartEnv 1000 DaemonSpec.x11_monitor (Ok tt)
                      (Raise (Exception "No module named 'torch'"))))
    (__init__ DaemonSpec.default_config).

End WorkerSpec.

Module PipelineSpec.

Import Classifier.

(** A computation keeps a property of the state, whether it returns or
    raises. *)
Definition keeps {S A : Type} (P : S -> Prop) (c : M S A) : Prop :=
  forall s, P s -> P (fst (c s)).

(** What holds of the merged result at every point of [classify]. *)
Definition well_formed (r : Result) : Prop :=
  is_productive r = Py.gt (productivity_score r) 0 /\
  (- (1) <= productivity_score r)%Q /\
  (productivity_score r <= 1)%Q /\
  (0 <= confidence r)%Q /\
  (String.length (extracted_text r) <= 500)%nat.

(** The NSFW flag and score of the result are the detector's. *)
Definition nsfw_from_detector (an : Analyzers) (screenshot : option Image)
    (r : Result) : Prop :=
  (is_nsfw r = false /\ nsfw_score r = 0) \/
  exists img n, screenshot = Some img /\ nsfw_detect an img = Ok n /\
                is_nsfw r = Py.get (nsfw_result_is_nsfw n) false /\
                nsfw_score r = Py.get (nsfw_result_score n) 0.

(** The confidence is at most one. *)
Definition confident_at_most_one (r : Result) : Prop := (confidence r <= 1)%Q.

(** The offline analyzers with a CLIP model that is sure of a tutorial. *)
Definition tutorial_analyzers : Analyzers :=
  mkAnalyzers Spec.unknown_site (fun _ => Ok "")
    (fun _ => Ok (mkOCRResult None None)) (fun _ => Ok (mkImageResult None))
    (fun _ => Ok (mkCLIPResult (Some "tutorial") (Some (95 # 100))))
    (fun _ => Ok nsfw_fallback_result).

End PipelineSpec.

Module NSFWSpec.

Import NSFWDetector.

Definition label (d : Detection) : string := Py.get (det_class d) "".

Definition score (d : Detection) : Q := Py.get (det_score d) 0.

(** The detection counts: its label is one of the NSFW labels and its score
    exceeds 0.5. *)
Definition counts (d : Detection) : bool :=
  Py.mem (label d) nsfw_labels && Py.gt (score d) (5 # 10).

(** A library that is installed and reports the given regions. *)
Definition nudenet_reporting (results : list Detection) : NudeNet :=
  mkNudeNet true (Ok tt) (fun _ => Ok results).

Definition beach_photo : list Detection :=
  [ mkDetection (Some "FACE_FEMALE") (Some (97 # 100));
    mkDetection (Some "BELLY_EXPOSED") (Some (62 # 100));
    mkDetection (Some "ARMPITS_EXPOSED") (Some (71 # 100));
    mkDetection (Some "BUTTOCKS_EXPOSED") (Some (40 # 100)) ].

(** What a report says about the image it was made for. *)
Definition sound_report (lib : NudeNet) (image : option Image) (report : Report) : Prop :=
  (safe_score report == 1 - nsfw_score report)%Q /\
  (is_nsfw report = false -> nsfw_score report = 0 /\ detected_parts report = []) /\
  (is_nsfw report = true ->
   exists img results,
     image = Some img /\ run_detector lib img = Ok results /\
     existsb counts results = true /\
     detected_parts report = map label (filter counts results) /\
     (5 # 10 < nsfw_score report)%Q /\
     (exists d, In d results /\ counts d = true /\ nsfw_score report = score d) /\
     (forall d, In d results -> counts d = true -> (score d <= nsfw_score report)%Q)).

(** The offline analyzers with the NSFW detector of the repository on a
    library that reports the given regions. *)
Definition analyzers_with_detector (results : list Detection) : Classifier.Analyzers :=
  Classifier.mkAnalyzers Spec.unknown_site (fun _ => Ok "")
    (fun _ => Ok (Classifier.mkOCRResult None None))
    (fun _ => Ok (Classifier.mkImageResult None))
    (fun _ => Ok Classifier.clip_fallback_classification)
    (as_analyzer (nudenet_reporting results) false).

End NSFWSpec.

Module CLIPSpec.

Import CLIPAnalyzer.

(** The labels [_parse_category] yields on the default categories, in their
    order. *)
Definition default_labels : list string :=
  [ "cartoon"; "anime"; "music_video"; "gaming"; "tutorial"; "movie_series";
    "documentary"; "comedy"; "news"; "sports"; "vlog"; "live_stream"; "coding";
    "social_medifeed"; "article"; "video_player"; "desktop"; "adult" ].

(** A library whose model ranks the social-media category first. *)
Definition clip_seeing_feed : OpenCLIP :=
  mkOpenCLIP true (Ok tt)
    (fun _ => Ok [(13, 91 # 100); (14, 4 # 100); (15, 2 # 100); (16, 1 # 100);
                  (0, 1 # 100)]%nat).

End CLIPSpec.

Module URLSpec.

Import URLAnalyzer.

(** The keys of [SITE_RULES] that come before ["x.com"]. *)
Definition keys_before_x : list string :=
  ["youtube.com"; "youtu.be"; "netflix.com"; "twitch.tv"; "vimeo.com";
   "facebook.com"; "twitter.com"].

(** No upper-case letter occurs in the string. *)
Fixpoint no_upper (s : string) : bool :=
  match s with
  | EmptyString => true
  | String c s' => negb (Py.is_upper c) && no_upper s'
  end.

(** A parser that finds the host of a Dropbox address. *)
Definition dropbox_netloc : string -> outcome string := fun _ => Ok "www.Dropbox.com:443".

(** A parser that rejects the address. *)
Definition failing_netloc : string -> outcome string :=
  fun _ => Raise (Exception "Invalid IPv6 URL").

End URLSpec.

Module AnalyzersSpec.

(** Everything outside the repository that its five analyzers lean on. *)
Record Libraries : Type := mkLibraries {
  netloc : string -> outcome string;
  clean_text : string -> string;
  tesseract : OCRAnalyzer.Tesseract;
  vision : ImageAnalyzer.Vision;
  open_clip : CLIPAnalyzer.OpenCLIP;
  clip_initialized : bool;
  nudenet : NSFWDetector.NudeNet;
  nsfw_initialized : bool
}.

(** The analyzers [ContentClassifier.__init__] and its two lazy properties
    create. *)
Definition repository_analyzers (libs : Libraries) : Classifier.Analyzers :=
  Classifier.mkAnalyzers
    (URLAnalyzer.as_analyzer (netloc libs))
    (fun img => Ok (OCRAnalyzer.extract_text (clean_text libs) (tesseract libs) (Some img)))
    (fun text =>
       Ok (OCRAnalyzer.as_result (OCRAnalyzer.analyze_text (clean_text libs) text)))
    (fun img =>
       Ok (ImageAnalyzer.as_result (ImageAnalyzer.analyze_image (vision libs) (Some img))))
    (CLIPAnalyzer.as_analyzer (open_clip libs) (clip_initialized libs))
    (NSFWDetector.as_analyzer (nudenet libs) (nsfw_initialized libs)).


(** The image merge marks a video: OpenCV is there, the layout analysis
    went through with at most 5% edge pixels, and nothing has named the
    content type yet. *)
Definition marks_video (lib : ImageAnalyzer.Vision) (img : Image)
    (r : Classifier.Result) : bool :=
  ImageAnalyzer.HAS_OPENCV lib
  && match ImageAnalyzer.edge_share lib img with
     | Ok share => negb (Py.gt share (5 # 100))
     | Raise _ => false
     end
  && String.eqb (Classifier.content_type r) "unknown".


End AnalyzersSpec.

Module TitleSpec.

(** [urlparse] finds the host of a bare domain put behind "https://". *)
Definition parses_bare_domains (netloc : string -> outcome string) : Prop :=
  forall d, In d (map snd WindowTitles.known_sites) -> netloc ("https://" ++ d) = Ok d.

(** A parser that takes what follows "https://" for the host. *)
Definition rest_after_scheme : string -> outcome string :=
  fun u => Ok (URLAnalyzer.drop 8 u).

Definition mail_title : string := "Inbox (3) - Gmail - Mozilla Firefox".

End TitleSpec.

Module StatsSpec.

(** The seconds of a list of activities. *)
Definition seconds (activities : list Models.Activity) : Z :=
  fold_right (fun a acc => (Models.duration a + acc)%Z) 0%Z activities.

(** The seconds of the activities of one type. *)
Definition seconds_of (key : string) (activities : list Models.Activity) : Z :=
  seconds (filter (fun a => String.eqb (Models.activity_type a) key) activities).

(** The ten activity types a summary has a time field for. *)
Definition summary_types : list string :=
  ["productive"; "educational"; "entertainment"; "social_media"; "gaming";
   "shopping"; "news"; "adult"; "neutral"; "idle"].

(** The ten time fields of a summary added up. *)
Definition time_fields (s : Stats.Summary) : Z :=
  (Stats.productive_time s + Stats.educational_time s + Stats.entertainment_time s
   + Stats.social_media_time s + Stats.gaming_time s + Stats.shopping_time s
   + Stats.news_time s + Stats.adult_content_time s + Stats.neutral_time s
   + Stats.idle_time s)%Z.

(** A record of the given type and duration. *)
Definition activity_of (activity_type : string) (duration : Z) : Models.Activity :=
  Models.mkActivity None 0 "" "" "" None "" "" "unknown" "" "" "" activity_type
    false 0 "rules" 0 0 false duration "" false false "".

(** Half a minute of work, half a minute of video. *)
Definition mixed_minute : list Models.Activity :=
  [activity_of "productive" 30; activity_of "entertainment" 30].

End StatsSpec.

(** * Properties *)

(** ** Comparisons *)

Lemma gt_true_iff (a b : Q) : Py.gt a b = true <-> (b < a)%Q.
Proof.
  unfold Py.gt. rewrite negb_true_iff. split; intros H.
  - apply Qnot_le_lt. intros Hle. apply Qle_bool_iff in Hle. congruence.
  - destruct (Qle_bool a b) eqn:E; [| reflexivity].
    apply Qle_bool_iff in E. exfalso. exact (Qlt_not_le _ _ H E).
Qed.

Lemma gt_false_iff (a b : Q) : Py.gt a b = false <-> (a <= b)%Q.
Proof.
  unfold Py.gt. rewrite negb_false_iff. apply Qle_bool_iff.
Qed.

Lemma max_ge_left (a b : Q) : (a <= Py.max a b)%Q.
Proof.
  unfold Py.max. destruct (Py.gt b a) eqn:E.
  - apply gt_true_iff in E. apply Qlt_le_weak. exact E.
  - apply Qle_refl.
Qed.

Lemma max_ge_right (a b : Q) : (b <= Py.max a b)%Q.
Proof.
  unfold Py.max. destruct (Py.gt b a) eqn:E.
  - apply Qle_refl.
  - apply gt_false_iff in E. exact E.
Qed.

(** ** The embedding stage *)

Section ClipStage.

Import Classifier Spec.

Lemma clip_frame_refl (r : Result) : clip_frame r r.
Proof. repeat split. Qed.

(** C6. For every merged result [r] and every behaviour of the CLIP analyzer,
    the embedding stage returns normally, never lowers the confidence and
    never touches the other fields; it either leaves [r] as it is, or the
    analyzer returned a result whose confidence exceeds 0.3 and strictly
    exceeds the confidence of [r], and then content_category, confidence,
    detection_method and activity_type are the ones derived from that
    result. *)
Theorem clip_stage_monotonic_merge (an : Analyzers) (img : Image) (r : Result) :
  let r' := fst (clip_stage an (Some img) r) in
  snd (clip_stage an (Some img) r) = Ok tt /\
  (confidence r <= confidence r')%Q /\
  clip_frame r r' /\
  (r' = r \/
   exists c, clip_classify an img = Ok c /\
             (3 # 10 < clip_conf c)%Q /\
             (confidence r < clip_conf c)%Q /\
             clip_written c r r').
Proof.
  unfold clip_stage, try_except, bind, call, ret.
  destruct (clip_classify an img) as [c | e] eqn:Hc; cbn.
  2: { repeat split; [apply Qle_refl | now left]. }
  destruct (Py.gt (Py.get (clip_confidence c) 0) (3 # 10)) eqn:H03; cbn.
  2: { repeat split; [apply Qle_refl | now left]. }
  unfold _merge_clip_result, bind, gets, modify, call, ret; cbn.
  destruct (Py.gt (Py.get (clip_confidence c) 0) (confidence r)) eqn:Hgt; cbn.
  2: { repeat split; [apply Qle_refl | now left]. }
  destruct (Py.truthy (Py.get (clip_classification c) "")) eqn:Hcl; cbn.
  2: { repeat split; [apply Qle_refl | now left]. }
  apply gt_true_iff in H03. apply gt_true_iff in Hgt.
  destruct (clip_confidence c) as [q |] eqn:Hq; cbn in *.
  - split; [reflexivity |]. split; [apply Qlt_le_weak; exact Hgt |].
    split; [repeat split |].
    right. exists c. unfold clip_written, clip_conf. rewrite Hq. cbn.
    repeat split; (assumption || reflexivity).
  - exfalso. apply (Qlt_irrefl 0). apply Qlt_trans with (3 # 10); [reflexivity | exact H03].
Qed.

End ClipStage.

(** ** Running the pipeline *)

Lemma bind_returns {S A B : Type} (c : M S A) (k : A -> M S B) (s : S) (a : A) :
  snd (c s) = Ok a -> bind c k s = k a (Spec.exec c s).
Proof.
  unfold bind, Spec.exec. destruct (c s) as [s' [a' | e]]; cbn; intros H.
  - now inversion H.
  - discriminate.
Qed.

Lemma bind_raises {S A B : Type} (c : M S A) (k : A -> M S B) (s : S) (e : exn) :
  snd (c s) = Raise e -> bind c k s = (Spec.exec c s, Raise e).
Proof.
  unfold bind, Spec.exec. destruct (c s) as [s' [a' | e']]; cbn; intros H.
  - discriminate.
  - now inversion H.
Qed.

Section Pipeline.

Import Classifier Spec.

Variable an : Analyzers.
Variable screenshot : option Image.
Variable window_info : option Monitor.WindowInfo.

Lemma clip_stage_returns (r : Result) : snd (clip_stage an screenshot r) = Ok tt.
Proof.
  unfold clip_stage, try_except, bind, call, ret.
  destruct screenshot as [img |]; [| reflexivity].
  destruct (clip_classify an img) as [c | e]; cbn; [| reflexivity].
  destruct (Py.gt _ (3 # 10)); cbn; [| reflexivity].
  unfold _merge_clip_result, bind, gets, modify, call, ret; cbn.
  destruct (Py.gt _ (confidence r)); cbn; [| reflexivity].
  destruct (Py.truthy _); cbn; [| reflexivity].
  destruct (clip_confidence c); reflexivity.
Qed.

Lemma nsfw_stage_returns (r : Result) : snd (nsfw_stage an screenshot r) = Ok tt.
Proof.
  unfold nsfw_stage, try_except, bind, call, ret, modify, gets, when.
  destruct screenshot as [img |]; [| reflexivity].
  destruct (nsfw_detect an img) as [n | e]; cbn; [| reflexivity].
  destruct (Py.get (nsfw_result_is_nsfw n) false); reflexivity.
Qed.

Lemma rules_stage_returns (a t : string) (b : bool) (r : Result) :
  snd (rules_stage a t b r) = Ok tt.
Proof. reflexivity. Qed.

Lemma productivity_stage_returns (r : Result) : snd (productivity_stage r) = Ok tt.
Proof. reflexivity. Qed.

Lemma description_stage_returns (a t : string) (r : Result) :
  snd (description_stage a t r) = Ok tt.
Proof.
  unfold description_stage, bind, gets, when, modify, ret; cbn.
  destruct (Py.truthy (content_description r)); reflexivity.
Qed.

Hypothesis unguarded : unguarded_calls_return an screenshot window_info = true.

Lemma url_stage_returns (r : Result) :
  snd (url_stage an (win_url window_info) r) = Ok tt.
Proof.
  unfold unguarded_calls_return in unguarded.
  apply andb_prop in unguarded as [Hurl _].
  unfold url_stage, when, bind, call, ret, modify.
  destruct (Py.truthy (win_url window_info)); [| reflexivity].
  cbn in Hurl. destruct (url_analyze an (win_url window_info)) as [[u |] | e];
    cbn in *; try reflexivity; discriminate.
Qed.

Lemma ocr_stage_returns (r : Result) : snd (ocr_stage an screenshot r) = Ok tt.
Proof.
  unfold unguarded_calls_return in unguarded.
  apply andb_prop in unguarded as [_ Hs].
  unfold ocr_stage, when, bind, call, ret, modify.
  destruct screenshot as [img |]; [| reflexivity].
  apply andb_prop in Hs as [Hocr _].
  destruct (ocr_extract_text an img) as [text | e]; cbn; [| discriminate].
  destruct (Py.truthy text); cbn in *; [| reflexivity].
  destruct (ocr_analyze_text an text); cbn in *; [reflexivity | discriminate].
Qed.

Lemma image_stage_returns (r : Result) : snd (image_stage an screenshot r) = Ok tt.
Proof.
  unfold unguarded_calls_return in unguarded.
  apply andb_prop in unguarded as [_ Hs].
  unfold image_stage, bind, call, ret, modify.
  destruct screenshot as [img |]; [| reflexivity].
  apply andb_prop in Hs as [_ Himg].
  destruct (image_analyze an img); cbn in *; [reflexivity | discriminate].
Qed.

(** When the unguarded calls return, [classify] is the composition of its
    eight steps. *)
Lemma classify_runs_all_stages :
  classify an screenshot window_info = all_stages an screenshot window_info.
Proof.
  unfold all_stages, classify, classify_body, try_except.
  fold (win_app_name window_info) (win_title window_info) (win_url window_info)
       (win_is_browser window_info).
  rewrite (bind_returns _ _ _ tt (url_stage_returns _)).
  rewrite (bind_returns _ _ _ tt (ocr_stage_returns _)).
  rewrite (bind_returns _ _ _ tt (image_stage_returns _)).
  rewrite (bind_returns _ _ _ tt (clip_stage_returns _)).
  rewrite (bind_returns _ _ _ tt (nsfw_stage_returns _)).
  rewrite (bind_returns _ _ _ tt (rules_stage_returns _ _ _ _)).
  rewrite (bind_returns _ _ _ tt (productivity_stage_returns _)).
  set (r7 := exec productivity_stage _).
  unfold exec at 1.
  destruct (description_stage _ _ r7) as [r8 [[] | e]] eqn:E; reflexivity.
Qed.

End Pipeline.

(** ** The productivity score *)

Section Productivity.

Import Classifier Spec.

Lemma dict_get_missing {A : Type} (d : list (string * A)) (key : string) (default : A) :
  ~ In key (map fst d) -> Py.dict_get d key default = default.
Proof.
  induction d as [| [k v] d IH]; cbn; intros Hnot; [reflexivity |].
  destruct (String.eqb k key) eqn:E.
  - apply String.eqb_eq in E. exfalso. apply Hnot. now left.
  - apply IH. intros Hin. apply Hnot. now right.
Qed.

Lemma calculate_productivity_table : weight_table _calculate_productivity.
Proof.
  unfold weight_table. repeat (split; [reflexivity |]).
  intros a Hnot. unfold _calculate_productivity.
  apply dict_get_missing. exact Hnot.
Qed.

Lemma description_stage_keeps (a t : string) (r : Result) :
  let r' := exec (description_stage a t) r in
  activity_type r' = activity_type r /\
  productivity_score r' = productivity_score r /\
  is_productive r' = is_productive r /\
  content_type r' = content_type r /\
  content_category r' = content_category r /\
  confidence r' = confidence r /\
  is_nsfw r' = is_nsfw r.
Proof.
  unfold exec, description_stage, bind, gets, when, modify, ret; cbn.
  destruct (Py.truthy (content_description r)); cbn; repeat split.
Qed.

Lemma productivity_stage_sets (r : Result) :
  let r' := exec productivity_stage r in
  activity_type r' = activity_type r /\
  productivity_score r' = _calculate_productivity (activity_type r) /\
  is_productive r' = Py.gt (_calculate_productivity (activity_type r)) 0.
Proof. repeat split. Qed.

(** C7, as amended. Whenever the analyzer calls that [classify] makes
    outside an inner [try] (URL, OCR, image) return, the steps that compute
    the two fields are reached: the result carries the productivity score
    that the fixed
    weight table (productive 1.0, educational 0.8, neutral 0.0, news -0.1,
    shopping -0.2, entertainment -0.3, social_media -0.4, gaming -0.3,
    adult -1.0, anything else 0.0) gives for its final activity type, and
    is_productive is true exactly when that score is positive. *)
Theorem classify_productivity_from_table (an : Analyzers) (screenshot : option Image)
    (window_info : option Monitor.WindowInfo) :
  unguarded_calls_return an screenshot window_info = true ->
  let r := classify an screenshot window_info in
  weight_table _calculate_productivity /\
  productivity_score r = _calculate_productivity (activity_type r) /\
  (is_productive r = true <-> (0 < productivity_score r)%Q).
Proof.
  intros Hret r. split; [exact calculate_productivity_table |].
  subst r. rewrite (classify_runs_all_stages _ _ _ Hret). unfold all_stages.
  set (r6 := exec (rules_stage _ _ _) _).
  destruct (description_stage_keeps (win_app_name window_info) (win_title window_info)
              (exec productivity_stage r6)) as (Ha & Hs & Hp & _).
  destruct (productivity_stage_sets r6) as (Ha' & Hs' & Hp').
  rewrite Ha, Hs, Hp, Ha', Hs', Hp'. split; [reflexivity |].
  apply gt_true_iff.
Qed.

Lemma classify_productivity_from_table_witness :
  unguarded_calls_return offline_analyzers None (Some vscode_window) = true /\
  productivity_score (classify offline_analyzers None (Some vscode_window)) = 1 /\
  is_productive (classify offline_analyzers None (Some vscode_window)) = true.
Proof.
  split; [reflexivity |].
  destruct (classify_productivity_from_table offline_analyzers None (Some vscode_window)
              eq_refl) as (_ & Hs & Hp).
  split; [rewrite Hs; reflexivity | apply Hp; rewrite Hs; reflexivity].
Defined.

(** C7 as stated fails: when the OCR stage has made the activity
    "productive" and the image analyzer then raises, the outer handler
    returns before the score is computed, so the result is "productive"
    with the initial score 0 where the table says 1. *)
Lemma productivity_follows_table_counterexample :
  ~ productivity_follows_table code_then_broken_image_analyzers (Some (PILImage 0)) None.
Proof.
  unfold productivity_follows_table. intros [H _].
  vm_compute in H. discriminate H.
Qed.

Example code_then_broken_image_result :
  let r := classify code_then_broken_image_analyzers (Some (PILImage 0)) None in
  activity_type r = "productive" /\ productivity_score r = 0 /\
  is_productive r = false /\ _calculate_productivity "productive" = 1.
Proof. repeat split. Qed.

End Productivity.

(** ** The rule stage *)

Section Rules.

Import Classifier Spec.

Lemma apply_rules_no_match (a t : string) (b : bool) (r : Result) :
  rule_matches a t b = false -> _apply_rules a t b r = r.
Proof.
  unfold rule_matches, recognized_app, recognized_site, _apply_rules.
  fold (lowered a) (lowered t).
  intros H. apply orb_false_elim in H as [Happ Hsite].
  apply orb_false_elim in Happ as [Happ Hplayer].
  apply orb_false_elim in Happ as [Heditor Hterminal].
  rewrite Heditor, Hterminal, Hplayer.
  destruct b; [| reflexivity]. cbn [andb] in Hsite.
  apply orb_false_elim in Hsite as [Hsite Hsocial].
  apply orb_false_elim in Hsite as [Hyoutube Hgithub].
  now rewrite Hyoutube, Hgithub, Hsocial.
Qed.

Lemma apply_rules_frame (a t : string) (b : bool) (r : Result) :
  rules_frame r (_apply_rules a t b r).
Proof.
  unfold _apply_rules, rules_frame.
  repeat match goal with
         | |- context [if ?c then _ else _] => destruct c
         end; repeat split.
Qed.

Lemma apply_rules_confidence (a t : string) (b : bool) (r : Result) :
  (confidence r <= confidence (_apply_rules a t b r))%Q.
Proof.
  unfold _apply_rules.
  repeat match goal with
         | |- context [if ?c then _ else _] => destruct c
         end; cbn; try apply max_ge_left; apply Qle_refl.
Qed.

Lemma apply_rules_forgets (a t : string) (b : bool) (r r0 : Result) :
  rule_matches a t b = true ->
  content_type (_apply_rules a t b r) = content_type (_apply_rules a t b r0) /\
  activity_type (_apply_rules a t b r) = activity_type (_apply_rules a t b r0).
Proof.
  unfold rule_matches, recognized_app, recognized_site, _apply_rules.
  fold (lowered a) (lowered t).
  destruct (Py.any_in code_editors (lowered a)); [now split |].
  destruct (Py.any_in terminals (lowered a)); [now split |].
  destruct (Py.any_in video_players (lowered a)); [now split |].
  destruct b; cbn [andb orb]; [| discriminate].
  destruct (Py.is_substring "youtube" (lowered t)).
  - destruct (Py.any_in tutorial_words (lowered t)); now split.
  - destruct (Py.is_substring "github" (lowered t)); [now split |].
    destruct (Py.any_in social_sites (lowered t)); [now split | discriminate].
Qed.

Lemma apply_rules_category (a t : string) (b : bool) (r : Result) :
  content_category (_apply_rules a t b r) = content_category r \/
  content_category (_apply_rules a t b r) = "youtube".
Proof.
  unfold _apply_rules.
  repeat match goal with
         | |- context [if ?c then _ else _] => destruct c
         end; cbn; auto.
Qed.

(** C3, as amended. The rule stage never writes the description, title,
    productivity, detection method, NSFW or text fields and never lowers the
    confidence; content_category is kept or becomes "youtube"; when no rule
    matches the window the result is unchanged; when a rule matches and the
    result carries no NSFW flag, content_type and activity_type are the
    rule's values whatever the earlier stages had set. *)
Theorem apply_rules_overwrites (a t : string) (b : bool) (r : Result) :
  let r' := _apply_rules a t b r in
  rules_frame r r' /\
  (confidence r <= confidence r')%Q /\
  (content_category r' = content_category r \/ content_category r' = "youtube") /\
  (rule_matches a t b = false -> r' = r) /\
  (rule_matches a t b = true -> is_nsfw r = false ->
   forall r0, is_nsfw r0 = false ->
              content_type r' = content_type (_apply_rules a t b r0) /\
              activity_type r' = activity_type (_apply_rules a t b r0)).
Proof.
  cbn. split; [apply apply_rules_frame |].
  split; [apply apply_rules_confidence |].
  split; [apply apply_rules_category |].
  split; [apply apply_rules_no_match |].
  intros Hm _ r0 _. now apply apply_rules_forgets.
Qed.

Lemma apply_rules_overwrites_witness :
  rule_matches "firefox" "Python Tutorial - YouTube" true = true /\
  is_nsfw after_youtube_url = false /\
  content_type (_apply_rules "firefox" "Python Tutorial - YouTube" true after_youtube_url)
  = "video" /\
  activity_type (_apply_rules "firefox" "Python Tutorial - YouTube" true after_youtube_url)
  = "educational" /\
  rule_matches "nautilus" "Home" false = false /\
  _apply_rules "nautilus" "Home" false after_youtube_url = after_youtube_url.
Proof.
  destruct (apply_rules_overwrites "firefox" "Python Tutorial - YouTube" true
              after_youtube_url) as (_ & _ & _ & _ & Hyes).
  destruct (apply_rules_overwrites "nautilus" "Home" false after_youtube_url)
    as (_ & _ & _ & Hno & _).
  split; [reflexivity |]. split; [reflexivity |].
  destruct (Hyes eq_refl eq_refl initial_result eq_refl) as [Hct Hat].
  split; [rewrite Hct; reflexivity |].
  split; [rewrite Hat; reflexivity |].
  split; [reflexivity | exact (Hno eq_refl)].
Defined.

(** C3 as stated fails: the URL stage has set browser / video_streaming /
    entertainment, and the rule stage replaces all three for a browser window
    whose title names YouTube. *)
Lemma rules_fill_only_unset_counterexample :
  ~ rules_fill_only_unset "firefox" "Python Tutorial - YouTube" true after_youtube_url.
Proof.
  unfold rules_fill_only_unset. intros (Hct & _ & _).
  assert (H : content_type after_youtube_url <> "unknown") by (cbn; discriminate).
  specialize (Hct H). cbn in Hct. discriminate.
Qed.

End Rules.

(** ** The NSFW stage against the rule stage *)

Section NsfwAndRules.

Import Classifier Spec.

Lemma nsfw_stage_flags (an : Analyzers) (img : Image) (n : NSFWResult) (r : Result) :
  nsfw_detect an img = Ok n ->
  Py.get (nsfw_result_is_nsfw n) false = true ->
  let r' := exec (nsfw_stage an (Some img)) r in
  activity_type r' = "adult" /\ content_category r' = "adult_content" /\
  is_nsfw r' = true /\ nsfw_score r' = Py.get (nsfw_result_score n) 0.
Proof.
  intros Hn Hflag.
  unfold exec, nsfw_stage, try_except, bind, call, modify, gets, when, ret.
  rewrite Hn. cbn. rewrite Hflag. cbn. repeat split.
Qed.

Lemma nsfw_stage_skipped (an : Analyzers) (img : Image) (e : exn) (r : Result) :
  nsfw_detect an img = Raise e -> exec (nsfw_stage an (Some img)) r = r.
Proof.
  intros Hn. unfold exec, nsfw_stage, try_except, bind, call, ret. now rewrite Hn.
Qed.

Lemma clip_stage_skipped (an : Analyzers) (img : Image) (e : exn) (r : Result) :
  clip_classify an img = Raise e -> exec (clip_stage an (Some img)) r = r.
Proof.
  intros Hc. unfold exec, clip_stage, try_except, bind, call, ret. now rewrite Hc.
Qed.

Lemma apply_rules_recognized_app (a t : string) (b : bool) (r : Result) :
  recognized_app a = true ->
  activity_type (_apply_rules a t b r) = "productive" \/
  activity_type (_apply_rules a t b r) = "entertainment".
Proof.
  unfold recognized_app, _apply_rules. fold (lowered a) (lowered t).
  destruct (Py.any_in code_editors (lowered a)); [now left |].
  destruct (Py.any_in terminals (lowered a)); [now left |].
  destruct (Py.any_in video_players (lowered a)); [now right | discriminate].
Qed.

(** The activity type and the NSFW flag of the final result are those left
    by the rule stage. *)
Lemma all_stages_after_rules (an : Analyzers) (screenshot : option Image)
    (window_info : option Monitor.WindowInfo) :
  let before :=
    exec (nsfw_stage an screenshot)
      (exec (clip_stage an screenshot)
         (exec (image_stage an screenshot)
            (exec (ocr_stage an screenshot)
               (exec (url_stage an (win_url window_info)) initial_result)))) in
  let ruled :=
    _apply_rules (win_app_name window_info) (win_title window_info)
      (win_is_browser window_info) before in
  activity_type (all_stages an screenshot window_info) = activity_type ruled /\
  content_category (all_stages an screenshot window_info) = content_category ruled /\
  is_nsfw (all_stages an screenshot window_info) = is_nsfw ruled.
Proof.
  cbn. unfold all_stages.
  set (before := exec (nsfw_stage an screenshot) _).
  destruct (description_stage_keeps (win_app_name window_info) (win_title window_info)
              (exec productivity_stage
                 (exec (rules_stage (win_app_name window_info) (win_title window_info)
                          (win_is_browser window_info)) before)))
    as (Ha & _ & _ & _ & Hc & _ & Hn).
  rewrite Ha, Hc, Hn. repeat split.
Qed.

(** C1, the divergence. Whenever the NSFW detector flags the screenshot of a
    window whose application name matches an editor, terminal or player
    rule, the result keeps is_nsfw = true but its final activity type is the
    rule's ("productive" or "entertainment"), not "adult". *)
Theorem nsfw_verdict_lost_to_app_rule (an : Analyzers) (img : Image)
    (w : Monitor.WindowInfo) (n : NSFWResult) :
  unguarded_calls_return an (Some img) (Some w) = true ->
  nsfw_detect an img = Ok n ->
  Py.get (nsfw_result_is_nsfw n) false = true ->
  recognized_app (Monitor.app_name w) = true ->
  let r := classify an (Some img) (Some w) in
  is_nsfw r = true /\
  activity_type r <> "adult" /\
  (activity_type r = "productive" \/ activity_type r = "entertainment").
Proof.
  intros Hret Hn Hflag Happ r. subst r.
  rewrite (classify_runs_all_stages _ _ _ Hret).
  destruct (all_stages_after_rules an (Some img) (Some w)) as (Ha & _ & Hnsfw).
  rewrite Ha, Hnsfw. clear Ha Hnsfw.
  set (before := exec (nsfw_stage an (Some img)) _).
  destruct (apply_rules_frame (win_app_name (Some w)) (win_title (Some w))
              (win_is_browser (Some w)) before) as (_ & _ & _ & _ & _ & _ & Hkeep & _).
  rewrite Hkeep.
  destruct (nsfw_stage_flags an img n
              (exec (clip_stage an (Some img))
                 (exec (image_stage an (Some img))
                    (exec (ocr_stage an (Some img))
                       (exec (url_stage an (win_url (Some w))) initial_result))))
              Hn Hflag) as (_ & _ & Hflagged & _).
  split; [exact Hflagged |].
  destruct (apply_rules_recognized_app (win_app_name (Some w)) (win_title (Some w))
              (win_is_browser (Some w)) before Happ) as [H | H];
    rewrite H; split; auto; discriminate.
Qed.

Lemma nsfw_verdict_lost_to_app_rule_witness :
  unguarded_calls_return flagging_analyzers (Some (PILImage 0)) (Some vscode_window) = true /\
  is_nsfw (classify flagging_analyzers (Some (PILImage 0)) (Some vscode_window)) = true /\
  activity_type (classify flagging_analyzers (Some (PILImage 0)) (Some vscode_window))
  <> "adult".
Proof.
  split; [reflexivity |].
  destruct (nsfw_verdict_lost_to_app_rule flagging_analyzers (PILImage 0) vscode_window
              (mkNSFWResult (Some (9 # 10)) (Some true)) eq_refl eq_refl eq_refl eq_refl)
    as (Hflag & Hnot & _).
  split; assumption.
Defined.

(** At that input the result is a productive activity with score 1. *)
Example nsfw_in_editor_is_productive :
  let r := classify flagging_analyzers (Some (PILImage 0)) (Some vscode_window) in
  is_nsfw r = true /\ activity_type r = "productive" /\
  content_category r = "adult_content" /\ productivity_score r = 1 /\
  is_productive r = true.
Proof. cbn. repeat split. Qed.

(** So C1 as stated fails at that input. *)
Lemma nsfw_decides_fails_in_editor :
  ~ nsfw_decides flagging_analyzers (PILImage 0) (Some vscode_window).
Proof.
  unfold nsfw_decides. intros H.
  destruct (H (mkNSFWResult (Some (9 # 10)) (Some true)) eq_refl eq_refl) as [Hact _].
  discriminate Hact.
Qed.

(** Where no rule matches the window, the NSFW verdict does decide. *)
Lemma nsfw_verdict_kept_without_rule (an : Analyzers) (img : Image)
    (window_info : option Monitor.WindowInfo) (n : NSFWResult) :
  unguarded_calls_return an (Some img) window_info = true ->
  nsfw_detect an img = Ok n ->
  Py.get (nsfw_result_is_nsfw n) false = true ->
  rule_matches (win_app_name window_info) (win_title window_info)
    (win_is_browser window_info) = false ->
  activity_type (classify an (Some img) window_info) = "adult" /\
  content_category (classify an (Some img) window_info) = "adult_content".
Proof.
  intros Hret Hn Hflag Hno.
  rewrite (classify_runs_all_stages _ _ _ Hret).
  destruct (all_stages_after_rules an (Some img) window_info) as (Ha & Hc & _).
  rewrite Ha, Hc. rewrite (apply_rules_no_match _ _ _ _ Hno).
  destruct (nsfw_stage_flags an img n
              (exec (clip_stage an (Some img))
                 (exec (image_stage an (Some img))
                    (exec (ocr_stage an (Some img))
                       (exec (url_stage an (win_url window_info)) initial_result))))
              Hn Hflag) as (H1 & H2 & _).
  split; assumption.
Qed.

End NsfwAndRules.

(** ** Degradation when analyzers fail *)

Section Degradation.

Import Classifier Spec.

Lemma generate_description_nonempty (r : Result) (a t : string) :
  _generate_description r a t <> "".
Proof.
  unfold _generate_description.
  repeat match goal with
         | |- context [if ?c then _ else _] => destruct c
         end; cbn; discriminate.
Qed.

Lemma description_stage_nonempty (a t : string) (r : Result) :
  content_description (exec (description_stage a t) r) <> "".
Proof.
  unfold exec, description_stage, bind, gets, when, modify, ret; cbn.
  destruct (Py.truthy (content_description r)) eqn:E; cbn.
  - destruct (content_description r); [discriminate E | discriminate].
  - apply generate_description_nonempty.
Qed.

(** C2, as amended. Provided the URL, OCR and image analyzer calls return,
    [classify] runs every one of its steps in order, the rule stage after all
    analyzer stages; an embedding or NSFW analyzer that raises leaves the
    merged result as it was and the later steps still run; the result has a
    description, and for a recognized application its activity type is not
    the default. *)
Theorem classify_skips_failed_guarded_stages (an : Analyzers)
    (screenshot : option Image) (window_info : option Monitor.WindowInfo) :
  unguarded_calls_return an screenshot window_info = true ->
  let r := classify an screenshot window_info in
  r = all_stages an screenshot window_info /\
  (forall img e r0, clip_classify an img = Raise e ->
                    (clip_stage an (Some img) r0) = (r0, Ok tt)) /\
  (forall img e r0, nsfw_detect an img = Raise e ->
                    (nsfw_stage an (Some img) r0) = (r0, Ok tt)) /\
  content_description r <> "" /\
  (recognized_app (win_app_name window_info) = true ->
   activity_type r <> "neutral").
Proof.
  intros Hret r. subst r.
  rewrite (classify_runs_all_stages _ _ _ Hret).
  split; [reflexivity |].
  split.
  { intros img e r0 H. unfold clip_stage, try_except, bind, call, ret. now rewrite H. }
  split.
  { intros img e r0 H. unfold nsfw_stage, try_except, bind, call, ret. now rewrite H. }
  split.
  { unfold all_stages. apply description_stage_nonempty. }
  intros Happ.
  destruct (all_stages_after_rules an screenshot window_info) as (Ha & _).
  rewrite Ha.
  match goal with
  | |- context [_apply_rules ?a ?t ?b ?r0] =>
      destruct (apply_rules_recognized_app a t b r0 Happ) as [H | H]
  end; rewrite H; discriminate.
Qed.

Lemma classify_skips_failed_guarded_stages_witness :
  unguarded_calls_return offline_analyzers (Some (PILImage 0)) (Some vscode_window) = true /\
  recognized_app (Monitor.app_name vscode_window) = true /\
  activity_type (classify offline_analyzers (Some (PILImage 0)) (Some vscode_window))
  <> "neutral" /\
  content_description (classify offline_analyzers (Some (PILImage 0)) (Some vscode_window))
  <> "".
Proof.
  destruct (classify_skips_failed_guarded_stages offline_analyzers (Some (PILImage 0))
              (Some vscode_window) eq_refl) as (_ & _ & _ & Hdesc & Happ).
  split; [reflexivity |]. split; [reflexivity |].
  split; [exact (Happ eq_refl) | exact Hdesc].
Defined.

(** C2 as stated fails: with an image analyzer that raises, the editor
    window gets the initial result, the rule stage never having run. *)
Lemma always_classifies_counterexample :
  ~ always_classifies broken_image_analyzers (Some (PILImage 0)) (Some vscode_window).
Proof.
  unfold always_classifies. intros H.
  destruct (H eq_refl) as [Hact _]. apply Hact. reflexivity.
Qed.

Example broken_image_gives_initial_result :
  classify broken_image_analyzers (Some (PILImage 0)) (Some vscode_window)
  = initial_result.
Proof. reflexivity. Qed.

End Degradation.

(** ** The scheduler *)

Section Scheduler.

Import Daemon DaemonSpec.

(** Neither method the scheduler calls on the monitor is an attribute of
    [WindowMonitor]. *)
Example window_monitor_lacks_methods :
  Py.mem "has_window_changed" Monitor.WindowMonitor_attributes = false /\
  Py.mem "update_last_window" Monitor.WindowMonitor_attributes = false /\
  Py.mem "is_user_idle" Monitor.WindowMonitor_attributes = true.
Proof. repeat split. Qed.

(** C4, the divergence. With the skip-unchanged flag on, a tick that finds a
    window which is not excluded raises [AttributeError] at
    [has_window_changed], whether or not the window is the one processed
    before: nothing is captured, queued or written, and the main loop counts
    one error. *)
Theorem skip_unchanged_tick_counts_error (env : TickEnv) (d : Daemon)
    (m : Monitor.WindowMonitor) (w : Monitor.WindowInfo) :
  window_monitor d = Some m ->
  is_paused (state d) = false ->
  Config.skip_unchanged (config d) = true ->
  get_active_window env = Some w ->
  _should_exclude_window (config d) w = false ->
  _do_capture_cycle env d
  = (d, Raise (AttributeError "WindowMonitor" "has_window_changed")) /\
  _main_loop_iteration env d
  = (emit (Error "Error in main loop")
       (set_state (fun s => set_errors (errors s + 1) s) d), Ok tt).
Proof.
  intros Hm Hp Hskip Hw Hex.
  assert (Hcycle : _do_capture_cycle env d
                   = (d, Raise (AttributeError "WindowMonitor" "has_window_changed"))).
  { unfold _do_capture_cycle, monitor_object, has_window_changed, bind, gets, raise, ret.
    rewrite Hm. cbn. rewrite Hw. cbn. rewrite Hex, Hskip. cbn. rewrite Hm. reflexivity. }
  split; [exact Hcycle |].
  unfold _main_loop_iteration, try_except, bind, gets, when, modify.
  rewrite Hp. cbn. rewrite Hcycle. reflexivity.
Qed.

Lemma skip_unchanged_tick_counts_error_witness :
  errors (state (fst (_main_loop_iteration (editor_tick 1030)
                        (started_daemon default_config)))) = 1%nat /\
  events (fst (_main_loop_iteration (editor_tick 1030) (started_daemon default_config)))
  = [Error "Error in main loop"].
Proof.
  destruct (skip_unchanged_tick_counts_error (editor_tick 1030)
              (started_daemon default_config) x11_monitor Spec.vscode_window
              eq_refl eq_refl eq_refl eq_refl eq_refl) as [_ H].
  rewrite H. split; reflexivity.
Defined.

Lemma capture_cycle_raises (env : TickEnv) (d : Daemon)
    (m : Monitor.WindowMonitor) (w : Monitor.WindowInfo) (img : Image) :
  window_monitor d = Some m ->
  screenshot_capture d = true ->
  Config.skip_unchanged (config d) = false ->
  get_active_window env = Some w ->
  _should_exclude_window (config d) w = false ->
  capture env = Some img ->
  _do_capture_cycle env d
  = (after_capture env w img d,
     Raise (AttributeError "WindowMonitor" "update_last_window")).
Proof.
  intros Hm Hcap Hskip Hw Hex Himg.
  unfold after_capture, _do_capture_cycle, monitor_object, update_last_window, enqueue,
    put_nowait, try_except, bind, gets, raise, ret, modify, call, tick_item.
  rewrite Hm. cbn. rewrite Hw. cbn. rewrite Hex, Hskip. cbn. rewrite Hcap. cbn.
  rewrite Himg.
  cbn. destruct (full (_analysis_queue d)); cbn; rewrite Hm; reflexivity.
Qed.

(** C5, the divergence. A tick whose capture succeeds counts the capture,
    records its time and offers the item to the queue without blocking, and
    then raises [AttributeError] at [update_last_window]: last_window is
    never recorded and the main loop counts one error. *)
Theorem capture_tick_never_records_last_window (env : TickEnv) (d : Daemon)
    (m : Monitor.WindowMonitor) (w : Monitor.WindowInfo) (img : Image) :
  window_monitor d = Some m ->
  screenshot_capture d = true ->
  is_paused (state d) = false ->
  Config.skip_unchanged (config d) = false ->
  get_active_window env = Some w ->
  _should_exclude_window (config d) w = false ->
  capture env = Some img ->
  let d' := fst (_main_loop_iteration env d) in
  snd (_do_capture_cycle env d)
  = Raise (AttributeError "WindowMonitor" "update_last_window") /\
  total_captures (state d') = (total_captures (state d) + 1)%nat /\
  last_capture_time (state d') = Some (now_capture env) /\
  _analysis_queue d'
  = (if full (_analysis_queue d) then _analysis_queue d
     else mkQueue (maxsize (_analysis_queue d))
            (items (_analysis_queue d) ++ [tick_item env w img])) /\
  last_window (state d') = last_window (state d) /\
  errors (state d') = (errors (state d) + 1)%nat.
Proof.
  intros Hm Hcap Hp Hskip Hw Hex Himg d'.
  pose proof (capture_cycle_raises env d m w img Hm Hcap Hskip Hw Hex Himg) as Hcycle.
  assert (Hd' : d' = emit (Error "Error in main loop")
                       (set_state (fun s => set_errors (errors s + 1) s)
                          (after_capture env w img d))).
  { subst d'. unfold _main_loop_iteration, try_except, bind, gets, when, modify.
    rewrite Hp. cbn [negb]. rewrite Hcycle. reflexivity. }
  rewrite Hd', Hcycle. unfold after_capture.
  destruct (full (_analysis_queue d)); cbn; repeat split.
Qed.

Lemma capture_tick_never_records_last_window_witness :
  let d' := fst (_main_loop_iteration (editor_tick 1030)
                   (started_daemon capture_every_tick_config)) in
  total_captures (state d') = 1%nat /\
  qsize (_analysis_queue d') = 1%nat /\
  last_window (state d') = None /\
  errors (state d') = 1%nat.
Proof.
  destruct (capture_tick_never_records_last_window (editor_tick 1030)
              (started_daemon capture_every_tick_config) x11_monitor Spec.vscode_window
              (PILImage 0) eq_refl eq_refl eq_refl eq_refl eq_refl eq_refl eq_refl)
    as (_ & Hc & _ & Hq & Hw & He).
  cbn zeta. rewrite Hc, Hq, Hw, He. repeat split.
Defined.

End Scheduler.

(** ** The bounded queue *)

Section BoundedQueue.

Import Daemon DaemonSpec.

Lemma offer_all_spec (xs : list QueueItem) (q : Queue) :
  (0 < maxsize q)%nat ->
  (qsize q <= maxsize q)%nat ->
  offer_all xs q
  = (mkQueue (maxsize q) (items q ++ firstn (maxsize q - qsize q) xs),
     (length xs - (maxsize q - qsize q))%nat).
Proof.
  revert q. induction xs as [| x xs IH]; intros [C its] Hpos Hle;
    unfold qsize in *; cbn [maxsize items] in *.
  - rewrite firstn_nil, app_nil_r. reflexivity.
  - cbn [offer_all]. unfold put_nowait, full, qsize. cbn [maxsize items].
    destruct (Nat.ltb_spec 0 C) as [_ | Hc]; [| lia].
    destruct (Nat.leb_spec C (length its)) as [Hfull | Hroom]; cbn [andb].
    + rewrite (IH (mkQueue C its) Hpos Hle). unfold qsize. cbn [maxsize items].
      replace (C - length its)%nat with 0%nat by lia.
      cbn [firstn length]. f_equal. lia.
    + assert (Hlen : (length (its ++ [x]) <= C)%nat) by (rewrite length_app; cbn; lia).
      rewrite (IH (mkQueue C (its ++ [x])) Hpos Hlen). unfold qsize. cbn [maxsize items].
      rewrite length_app. cbn [length].
      replace (C - length its)%nat with (S (C - (length its + 1))) by lia.
      cbn [firstn length]. rewrite <- app_assoc. cbn [app]. f_equal; lia.
Qed.

(** With capacity [C] and nobody draining, offering [C + 1] items keeps the
    first [C] in their order and drops exactly one. *)
Lemma offer_one_too_many (C : nat) (xs : list QueueItem) :
  (0 < C)%nat ->
  length xs = (C + 1)%nat ->
  offer_all xs (mkQueue C []) = (mkQueue C (firstn C xs), 1%nat).
Proof.
  intros Hpos Hlen.
  rewrite offer_all_spec by (unfold qsize; cbn; lia).
  unfold qsize; cbn. rewrite Nat.sub_0_r, Hlen. f_equal. lia.
Qed.

End BoundedQueue.

(** ** Lifecycle *)

Section Lifecycle.

Import Daemon DaemonSpec.

Lemma stop_when_stopped (env : StopEnv) (d : Daemon) :
  is_running (state d) = false -> stop env d = (d, Ok tt).
Proof.
  intros H. unfold stop, bind, gets, ret. rewrite H. reflexivity.
Qed.

Lemma cleanup_returns (env : StopEnv) (d : Daemon) :
  snd (_cleanup env d) = Ok tt /\
  state (fst (_cleanup env d)) = state d /\
  (database d = true -> cleanups (fst (_cleanup env d)) = S (cleanups d)).
Proof.
  unfold _cleanup, try_except, bind, gets, modify, call, ret, when, cleanups.
  destruct d as [cfg st cap mon db cls mt q at_ ev evs]; cbn.
  destruct cap, mon as [m |], db; cbn;
    destruct (update_daily_stats env) as [[] | e1]; cbn;
    destruct (update_app_usage env) as [[] | e2]; cbn;
    destruct (update_website_usage env) as [[] | e3]; cbn;
    (split; [reflexivity |]); (split; [reflexivity |]);
    intros Hdb; try discriminate Hdb;
    repeat rewrite filter_app; repeat rewrite length_app; cbn; lia.
Qed.

Lemma stop_when_running (env : StopEnv) (d : Daemon) :
  is_running (state d) = true ->
  stop env d
  = _cleanup env (set_stop_event true (set_state (set_is_running false) d)).
Proof.
  intros H. unfold stop, bind, gets, modify, ret. rewrite H. reflexivity.
Qed.

Lemma stop_stops (env : StopEnv) (d : Daemon) :
  snd (stop env d) = Ok tt /\ is_running (state (fst (stop env d))) = false.
Proof.
  destruct (is_running (state d)) eqn:Hrun.
  - rewrite (stop_when_running env d Hrun).
    destruct (cleanup_returns env
                (set_stop_event true (set_state (set_is_running false) d)))
      as (Hok & Hst & _).
    split; [exact Hok |]. rewrite Hst. reflexivity.
  - rewrite (stop_when_stopped env d Hrun). split; [reflexivity | exact Hrun].
Qed.

Lemma start_counters (env : StartEnv) (d : Daemon) :
  counters (Spec.exec (start env) d) = counters d.
Proof.
  unfold Spec.exec, start, _initialize_components, _init_content_classifier,
    try_except, bind, gets, modify, call, ret.
  destruct (is_running (state d)); [reflexivity |].
  destruct (get_database env) as [[] | e]; [| reflexivity].
  destruct (new_classifier env) as [[] | e]; reflexivity.
Qed.

Lemma stop_daemon_forgets (env : StopEnv) (g : option Daemon) :
  stop_daemon env g = (None, Ok tt).
Proof.
  unfold stop_daemon. destruct g as [d |]; [| reflexivity].
  destruct (stop env d) as [d' o] eqn:E.
  pose proof (stop_stops env d) as [Hok _]. rewrite E in Hok. cbn in Hok.
  now rewrite Hok.
Qed.

(** C8, as amended. [start] never changes total_captures, total_analyses or
    errors; from the stopped state, when the database opens, it returns with
    is_running set, start_time set to the current time and the stop event
    cleared. The counters are zero after the first start of a newly
    constructed daemon, which is what [start_daemon] starts after
    [stop_daemon] has dropped the previous instance. *)
Theorem start_keeps_counters (env : StartEnv) (d : Daemon) :
  counters (Spec.exec (start env) d) = counters d /\
  (is_running (state d) = false ->
   get_database env = Ok tt ->
   snd (start env d) = Ok tt /\
   is_running (state (Spec.exec (start env) d)) = true /\
   start_time (state (Spec.exec (start env) d)) = Some (start_now env) /\
   _stop_event (Spec.exec (start env) d) = false) /\
  (forall cfg, counters (Spec.exec (start env) (__init__ cfg)) = (0, 0, 0)%nat) /\
  (forall cfg stop_env g,
     exists d', Spec.exec (start_daemon cfg env) (Spec.exec (stop_daemon stop_env) g)
                = Some d' /\
                counters d' = (0, 0, 0)%nat).
Proof.
  split; [apply start_counters |]. split; [| split].
  - intros Hstopped Hdb.
    unfold Spec.exec, start, _initialize_components, _init_content_classifier,
      try_except, bind, gets, modify, call, ret.
    rewrite Hstopped, Hdb.
    destruct (new_classifier env) as [[] | e]; repeat split.
  - intros cfg. rewrite start_counters. reflexivity.
  - intros cfg stop_env g. unfold Spec.exec at 2. rewrite stop_daemon_forgets.
    unfold Spec.exec at 1, start_daemon, get_daemon. cbn [fst].
    destruct (start env (__init__ cfg)) as [d' o] eqn:E. cbn [fst].
    exists d'. split; [reflexivity |].
    pose proof (start_counters env (__init__ cfg)) as Hc.
    unfold Spec.exec in Hc. rewrite E in Hc. exact Hc.
Qed.

Lemma start_keeps_counters_witness :
  is_running (state stopped_after_one_tick) = false /\
  get_database (good_start 2000) = Ok tt /\
  is_running (state (Spec.exec (start (good_start 2000)) stopped_after_one_tick)) = true /\
  counters (Spec.exec (start (good_start 2000)) stopped_after_one_tick) = (1, 0, 1)%nat.
Proof.
  destruct (start_keeps_counters (good_start 2000) stopped_after_one_tick)
    as (Hc & Hrun & _).
  split; [reflexivity |]. split; [reflexivity |].
  destruct (Hrun eq_refl eq_refl) as (_ & Hr & _).
  split; [exact Hr | rewrite Hc; reflexivity].
Defined.

(** C8 as stated fails: a daemon that captured once, counted one error and
    was stopped starts again with both counts. *)
Lemma start_resets_counters_counterexample :
  ~ start_resets_counters (good_start 2000) stopped_after_one_tick.
Proof.
  unfold start_resets_counters. intros H.
  specialize (H eq_refl). rewrite start_counters in H. discriminate H.
Qed.

(** C9. [stop] returns normally and leaves is_running false, which is what
    [get_status] then reports; a second [stop] returns normally and leaves
    the daemon, its event history included, exactly as the first left it; so
    for a running daemon with its components the cleanup has run once after
    both calls. *)
Theorem stop_twice (env1 env2 : StopEnv) (now : Z) (d : Daemon) :
  let d1 := fst (stop env1 d) in
  snd (stop env1 d) = Ok tt /\
  stop env2 d1 = (d1, Ok tt) /\
  status_is_running (get_status now d1) = false /\
  (is_running (state d) = true -> database d = true ->
   cleanups (fst (stop env2 d1)) = S (cleanups d)).
Proof.
  cbn zeta. destruct (stop_stops env1 d) as [Hok Hstopped].
  split; [exact Hok |].
  split; [apply stop_when_stopped; exact Hstopped |].
  split; [exact Hstopped |].
  intros Hrun Hdb. rewrite (stop_when_stopped env2 _ Hstopped). cbn [fst].
  rewrite (stop_when_running env1 d Hrun).
  destruct (cleanup_returns env1
              (set_stop_event true (set_state (set_is_running false) d)))
    as (_ & _ & Hclean).
  rewrite Hclean; [reflexivity | exact Hdb].
Qed.

Lemma stop_twice_witness :
  let d := started_daemon default_config in
  let d1 := fst (stop good_stop d) in
  is_running (state d) = true /\ database d = true /\
  stop good_stop d1 = (d1, Ok tt) /\
  cleanups (fst (stop good_stop d1)) = 1%nat.
Proof.
  cbn zeta.
  destruct (stop_twice good_stop good_stop 0 (started_daemon default_config))
    as (_ & Hsame & _ & Hclean).
  split; [reflexivity |]. split; [reflexivity |].
  split; [exact Hsame | exact (Hclean eq_refl eq_refl)].
Defined.

End Lifecycle.

(** ** Idle ticks *)

Section Idle.

Import Daemon DaemonSpec.

Lemma adds_no_idle_refl (d : Daemon) : adds_no_idle d d.
Proof. exists []. split; [now rewrite app_nil_r | reflexivity]. Qed.

Lemma adds_no_idle_trans (d1 d2 d3 : Daemon) :
  adds_no_idle d1 d2 -> adds_no_idle d2 d3 -> adds_no_idle d1 d3.
Proof.
  intros (n1 & H1 & F1) (n2 & H2 & F2). exists (n1 ++ n2)%list. split.
  - rewrite H2, H1. now rewrite app_assoc.
  - rewrite existsb_app, F1, F2. reflexivity.
Qed.

Ltac close_no_idle :=
  first [ exists []; split; [now rewrite app_nil_r | reflexivity]
        | repeat rewrite <- app_assoc; eexists; split; [reflexivity | reflexivity] ].

Lemma tick_adds_no_idle (env : TickEnv) (d : Daemon) :
  adds_no_idle d (fst (_main_loop_iteration env d)).
Proof.
  unfold adds_no_idle, _main_loop_iteration, _do_capture_cycle, monitor_object,
    has_window_changed, update_last_window, enqueue, put_nowait, _extend_last_activity,
    _record_idle_activity, try_except, bind, gets, raise, ret, modify, call, when.
  destruct d as [cfg st cap mon db cls mt q at_ ev evs]; cbn.
  destruct (is_paused st); cbn; [close_no_idle |].
  destruct mon as [m |]; cbn; [| close_no_idle].
  destruct (get_active_window env) as [w |]; cbn; [| close_no_idle].
  destruct (_should_exclude_window cfg w); cbn; [close_no_idle |].
  destruct (Config.skip_unchanged cfg); cbn; [close_no_idle |].
  destruct cap; cbn; [| close_no_idle].
  destruct (capture env) as [img |]; cbn; [| close_no_idle].
  destruct (full q); cbn; close_no_idle.
Qed.

(** C10. The idle probe answers false for every monitor and threshold, and
    over any sequence of scheduler ticks, from any daemon, the events the
    scheduler adds contain no insertion of a record with is_idle = true. *)
Theorem scheduler_never_records_idle :
  (forall m threshold, Monitor.is_user_idle m threshold = false) /\
  (forall envs d,
     exists new, events (_main_loop envs d) = (events d ++ new)%list /\
                 existsb inserts_idle new = false).
Proof.
  split; [reflexivity |].
  intros envs. induction envs as [| env rest IH]; intros d; cbn [_main_loop].
  - apply adds_no_idle_refl.
  - destruct (is_running (state d) && negb (_stop_event d)).
    + apply adds_no_idle_trans with (fst (_main_loop_iteration env d)).
      * apply tick_adds_no_idle.
      * apply IH.
    + apply adds_no_idle_refl.
Qed.

End Idle.

(** * Further properties of the scheduler *)

Section SchedulerMore.

Import Daemon DaemonSpec SchedulerSpec.

Lemma should_exclude_iff (cfg : Config.Config) (w : Monitor.WindowInfo) :
  _should_exclude_window cfg w = true <-> matches_exclusion cfg w.
Proof.
  unfold _should_exclude_window, matches_exclusion, Config.is_app_excluded,
    Config.is_title_excluded.
  split.
  - destruct (existsb _ (Config.excluded_apps cfg)) eqn:Eapp.
    { intros _. apply existsb_exists in Eapp as (exc & Hin & Hsub). left. eauto. }
    destruct (existsb (fun exc => Py.is_substring (Py.lower exc)
                                    (Py.lower (Monitor.process_name w)))
                (Config.excluded_apps cfg)) eqn:Eproc.
    { intros _. apply existsb_exists in Eproc as (exc & Hin & Hsub). left. eauto. }
    destruct (existsb _ (Config.excluded_title_keywords cfg)) eqn:Etitle;
      [| discriminate].
    intros _. apply existsb_exists in Etitle as (kw & Hin & Hsub). right. eauto.
  - intros [(exc & Hin & [Hsub | Hsub]) | (kw & Hin & Hsub)].
    + assert (E : existsb (fun exc => Py.is_substring (Py.lower exc)
                                        (Py.lower (Monitor.app_name w)))
                    (Config.excluded_apps cfg) = true)
        by (apply existsb_exists; eauto).
      now rewrite E.
    + assert (E : existsb (fun exc => Py.is_substring (Py.lower exc)
                                        (Py.lower (Monitor.process_name w)))
                    (Config.excluded_apps cfg) = true)
        by (apply existsb_exists; eauto).
      rewrite E.
      match goal with |- (if ?c then _ else _) = _ => destruct c end; reflexivity.
    + assert (E : existsb (fun kw => Py.is_substring (Py.lower kw)
                                       (Py.lower (Monitor.window_title w)))
                    (Config.excluded_title_keywords cfg) = true)
        by (apply existsb_exists; eauto).
      rewrite E.
      repeat match goal with
             | |- (if ?c then _ else _) = _ => destruct c; try reflexivity
             end.
Qed.

(** X1. A tick that finds a window matching a privacy exclusion (application
    or process name containing an excluded name, title containing an
    excluded keyword, case ignored) leaves the daemon exactly as it was:
    nothing is captured, queued, written or counted. *)
Theorem excluded_window_tick_is_silent (env : TickEnv) (d : Daemon)
    (m : Monitor.WindowMonitor) (w : Monitor.WindowInfo) :
  window_monitor d = Some m ->
  get_active_window env = Some w ->
  matches_exclusion (config d) w ->
  _main_loop_iteration env d = (d, Ok tt).
Proof.
  intros Hm Hw Hex. apply should_exclude_iff in Hex.
  unfold _main_loop_iteration, _do_capture_cycle, monitor_object, try_except, bind,
    gets, when, ret.
  destruct (is_paused (state d)); cbn; [reflexivity |].
  rewrite Hm. cbn. rewrite Hw. cbn. rewrite Hex. reflexivity.
Qed.

Lemma excluded_window_tick_is_silent_witness :
  matches_exclusion default_config keepass_window /\
  _main_loop_iteration (keepass_tick 1030) (started_daemon default_config)
  = (started_daemon default_config, Ok tt).
Proof.
  assert (H : matches_exclusion default_config keepass_window).
  { left. exists "keepassxc". split; [cbn; tauto | left; reflexivity]. }
  split; [exact H |].
  exact (excluded_window_tick_is_silent (keepass_tick 1030)
           (started_daemon default_config) x11_monitor keepass_window
           eq_refl eq_refl H).
Defined.

Lemma paused_tick (env : TickEnv) (d : Daemon) :
  is_paused (state d) = true -> _main_loop_iteration env d = (d, Ok tt).
Proof.
  intros Hp. unfold _main_loop_iteration, try_except, bind, gets, when, ret.
  rewrite Hp. reflexivity.
Qed.

(** X2. While the daemon is paused the scheduler does nothing, however many
    ticks go by; and [resume] after [pause] gives back the daemon that was
    running. *)
Theorem paused_scheduler_does_nothing (envs : list TickEnv) (d : Daemon) :
  is_paused (state d) = false ->
  _main_loop envs (Spec.exec pause d) = Spec.exec pause d /\
  Spec.exec resume (_main_loop envs (Spec.exec pause d)) = d.
Proof.
  intros Hp.
  assert (Hloop : forall d0, is_paused (state d0) = true -> _main_loop envs d0 = d0).
  { induction envs as [| env rest IH]; intros d0 H0; cbn [_main_loop]; [reflexivity |].
    destruct (is_running (state d0) && negb (_stop_event d0)); [| reflexivity].
    rewrite (paused_tick env d0 H0). cbn [fst]. now apply IH. }
  rewrite Hloop by reflexivity. split; [reflexivity |].
  destruct d as [cfg [run pa lc la lw tc ta er st] cap mon db cls mt q at_ ev evs].
  cbn in Hp. subst pa. reflexivity.
Qed.

Lemma paused_scheduler_does_nothing_witness :
  _main_loop [editor_tick 1030; editor_tick 1060]
    (Spec.exec pause (started_daemon default_config))
  = Spec.exec pause (started_daemon default_config).
Proof.
  exact (proj1 (paused_scheduler_does_nothing [editor_tick 1030; editor_tick 1060]
                  (started_daemon default_config) eq_refl)).
Defined.

(** X3. A probe that fails is not an error. When no window is found the tick
    leaves the daemon unchanged; when the capture returns nothing the tick
    logs one warning and changes neither the counters nor the queue. *)
Theorem probe_failures_are_skipped (env : TickEnv) (d : Daemon)
    (m : Monitor.WindowMonitor) :
  window_monitor d = Some m ->
  is_paused (state d) = false ->
  (get_active_window env = None -> _main_loop_iteration env d = (d, Ok tt)) /\
  (forall w,
     get_active_window env = Some w ->
     _should_exclude_window (config d) w = false ->
     Config.skip_unchanged (config d) = false ->
     screenshot_capture d = true ->
     capture env = None ->
     _main_loop_iteration env d
     = (emit (Warning "Failed to capture screenshot") (emit CaptureCalled d), Ok tt)).
Proof.
  intros Hm Hp. split.
  - intros Hw.
    unfold _main_loop_iteration, _do_capture_cycle, monitor_object, try_except, bind,
      gets, when, ret.
    rewrite Hp. cbn. rewrite Hm. cbn. rewrite Hw. reflexivity.
  - intros w Hw Hex Hskip Hcap Hnone.
    unfold _main_loop_iteration, _do_capture_cycle, monitor_object, try_except, bind,
      gets, when, ret, modify, raise.
    rewrite Hp. cbn. rewrite Hm. cbn. rewrite Hw. cbn. rewrite Hex, Hskip. cbn.
    rewrite Hcap. cbn. rewrite Hnone. reflexivity.
Qed.

Lemma probe_failures_are_skipped_witness :
  let d := started_daemon capture_every_tick_config in
  counters (fst (_main_loop_iteration (blind_tick 1030) d)) = (0, 0, 0)%nat /\
  qsize (_analysis_queue (fst (_main_loop_iteration (blind_tick 1030) d))) = 0%nat.
Proof.
  cbn zeta.
  destruct (probe_failures_are_skipped (blind_tick 1030)
              (started_daemon capture_every_tick_config) x11_monitor eq_refl eq_refl)
    as [_ H].
  rewrite (H Spec.vscode_window eq_refl eq_refl eq_refl eq_refl eq_refl).
  split; reflexivity.
Defined.

End SchedulerMore.

(** ** What the scheduler keeps *)

Section SchedulerInvariants.

Import Daemon DaemonSpec SchedulerSpec.

Lemma scheduler_frame_refl (d : Daemon) : scheduler_frame d d.
Proof. repeat split. Qed.

Lemma scheduler_frame_trans (d1 d2 d3 : Daemon) :
  scheduler_frame d1 d2 -> scheduler_frame d2 d3 -> scheduler_frame d1 d3.
Proof.
  unfold scheduler_frame.
  intros (A1 & A2 & A3 & A4 & A5 & A6 & A7 & A8 & A9 & A10)
         (B1 & B2 & B3 & B4 & B5 & B6 & B7 & B8 & B9 & B10).
  repeat split; congruence.
Qed.

(** One tick: the frame, at most one capture and one error more, and the
    queue either untouched or longer by one item, which happens only when
    it was not full. *)
Lemma tick_shape (env : TickEnv) (d : Daemon) :
  let d' := fst (_main_loop_iteration env d) in
  scheduler_frame d d' /\
  (total_captures (state d) <= total_captures (state d') <= S (total_captures (state d)))%nat /\
  (errors (state d) <= errors (state d') <= S (errors (state d)))%nat /\
  (items (_analysis_queue d') = items (_analysis_queue d) \/
   full (_analysis_queue d) = false /\
   exists x, items (_analysis_queue d') = (items (_analysis_queue d) ++ [x])%list).
Proof.
  unfold scheduler_frame, _main_loop_iteration, _do_capture_cycle, monitor_object,
    has_window_changed, update_last_window, enqueue, put_nowait, _extend_last_activity,
    _record_idle_activity, try_except, bind, gets, raise, ret, modify, call, when.
  destruct d as [cfg st cap mon db cls mt q at_ ev evs]; cbn.
  destruct (is_paused st) eqn:Hp; cbn; [repeat split; auto; lia |].
  destruct mon as [m |]; cbn; [| repeat split; auto; lia].
  destruct (get_active_window env) as [w |]; cbn; [| repeat split; auto; lia].
  destruct (_should_exclude_window cfg w); cbn; [repeat split; auto; lia |].
  destruct (Config.skip_unchanged cfg); cbn; [repeat split; auto; lia |].
  destruct cap; cbn; [| repeat split; auto; lia].
  destruct (capture env) as [img |]; cbn; [| repeat split; auto; lia].
  destruct (full q) eqn:Hfull; cbn.
  - repeat split; auto; lia.
  - repeat split; auto; try lia. right. split; [reflexivity |]. eexists. reflexivity.
Qed.

(** X4. Over any run of the main loop the scheduler only appends to the
    analysis queue, so items already queued keep their place, and a queue
    within its capacity stays within it. *)
Theorem scheduler_respects_queue_bound (envs : list TickEnv) (d : Daemon) :
  (0 < maxsize (_analysis_queue d))%nat ->
  (qsize (_analysis_queue d) <= maxsize (_analysis_queue d))%nat ->
  let q' := _analysis_queue (_main_loop envs d) in
  maxsize q' = maxsize (_analysis_queue d) /\
  (qsize q' <= maxsize q')%nat /\
  exists added, items q' = (items (_analysis_queue d) ++ added)%list /\
                (length added <= length envs)%nat.
Proof.
  revert d. induction envs as [| env rest IH]; intros d Hpos Hle; cbn [_main_loop].
  - split; [reflexivity |]. split; [exact Hle |].
    exists []. split; [now rewrite app_nil_r | cbn; lia].
  - destruct (is_running (state d) && negb (_stop_event d)).
    2: { split; [reflexivity |]. split; [exact Hle |].
         exists []. split; [now rewrite app_nil_r | cbn; lia]. }
    destruct (tick_shape env d) as (Hframe & _ & _ & Hq).
    set (d1 := fst (_main_loop_iteration env d)) in *.
    destruct Hframe as (_ & _ & _ & _ & _ & _ & _ & _ & _ & Hmax).
    assert (Hle1 : (qsize (_analysis_queue d1) <= maxsize (_analysis_queue d1))%nat).
    { rewrite Hmax. unfold qsize in *. destruct Hq as [Hsame | (Hfull & x & Hx)].
      - now rewrite Hsame.
      - rewrite Hx, length_app. cbn. unfold full, qsize in Hfull.
        apply andb_false_iff in Hfull as [H0 | H1].
        + apply Nat.ltb_ge in H0. lia.
        + apply Nat.leb_gt in H1. lia. }
    assert (Hpos1 : (0 < maxsize (_analysis_queue d1))%nat) by now rewrite Hmax.
    destruct (IH d1 Hpos1 Hle1) as (Hm' & Hb' & added & Ha & Hl). cbn zeta.
    split; [now rewrite Hm' |]. split; [exact Hb' |].
    destruct Hq as [Hsame | (_ & x & Hx)].
    + exists added. split; [now rewrite Ha, Hsame | cbn; lia].
    + exists (x :: added). split; [| cbn; lia].
      rewrite Ha, Hx, <- app_assoc. reflexivity.
Qed.

Lemma scheduler_respects_queue_bound_witness :
  let d := started_daemon capture_every_tick_config in
  maxsize (_analysis_queue (_main_loop [editor_tick 1030; editor_tick 1060] d)) = 100%nat /\
  (qsize (_analysis_queue (_main_loop [editor_tick 1030; editor_tick 1060] d)) <= 100)%nat.
Proof.
  cbn zeta.
  destruct (scheduler_respects_queue_bound [editor_tick 1030; editor_tick 1060]
              (started_daemon capture_every_tick_config))
    as (Hm & Hb & _).
  - cbn. lia.
  - cbn. lia.
  - split; [exact Hm | rewrite Hm in Hb; exact Hb].
Defined.

(** X5. Over any run of the main loop the scheduler leaves the
    configuration, the components, the stop event, is_running, is_paused,
    total_analyses and start_time alone, and adds at most one capture and at
    most one error per tick. *)
Theorem scheduler_counts_at_most_one_per_tick (envs : list TickEnv) (d : Daemon) :
  let d' := _main_loop envs d in
  scheduler_frame d d' /\
  (total_captures (state d) <= total_captures (state d')
   <= total_captures (state d) + length envs)%nat /\
  (errors (state d) <= errors (state d') <= errors (state d) + length envs)%nat.
Proof.
  revert d. induction envs as [| env rest IH]; intros d; cbn [_main_loop].
  - cbn. split; [apply scheduler_frame_refl | lia].
  - destruct (is_running (state d) && negb (_stop_event d)).
    2: { cbn. split; [apply scheduler_frame_refl | lia]. }
    destruct (tick_shape env d) as (Hframe & Hc & He & _).
    set (d1 := fst (_main_loop_iteration env d)) in *.
    destruct (IH d1) as (Hframe' & Hc' & He'). cbn zeta in *.
    split; [eapply scheduler_frame_trans; eassumption |].
    cbn [length]. lia.
Qed.

End SchedulerInvariants.

(** * Properties of the analysis worker *)

Section WorkerProperties.

Import Daemon Worker DaemonSpec WorkerSpec.

Lemma from_classification_keeps (c : Classifier.Result) (a : Models.Activity) :
  let a' := from_classification c a in
  Models.timestamp a' = Models.timestamp a /\
  Models.window_title a' = Models.window_title a /\
  Models.app_name a' = Models.app_name a /\
  Models.duration a' = Models.duration a /\
  Models.is_idle a' = Models.is_idle a.
Proof. repeat split. Qed.

Lemma basic_classify_keeps (a : Models.Activity) (w : Monitor.WindowInfo) :
  let a' := _basic_classify a w in
  Models.timestamp a' = Models.timestamp a /\
  Models.window_title a' = Models.window_title a /\
  Models.app_name a' = Models.app_name a /\
  Models.duration a' = Models.duration a /\
  Models.is_idle a' = Models.is_idle a.
Proof.
  unfold _basic_classify.
  repeat match goal with
         | |- context [if ?c then _ else _] => destruct c
         end; repeat split.
Qed.

(** Without the saving of screenshots, [_analyze_content] returns, leaves the
    daemon alone, and the record carries the item's time and window and the
    sampling interval. *)
Lemma analyze_content_returns (env : WorkerEnv) (w : Monitor.WindowInfo) (img : Image)
    (ts : Z) (d : Daemon) :
  save_screenshots env = false ->
  exists a, _analyze_content env w img ts d = (d, Ok a) /\
            Models.timestamp a = ts /\
            Models.window_title a = Monitor.window_title w /\
            Models.app_name a = Monitor.app_name w /\
            Models.duration a = Config.screenshot_interval (config d) /\
            Models.is_idle a = false.
Proof.
  intros Hsave. unfold _analyze_content, bind, gets, ret. rewrite Hsave.
  destruct (_content_classifier d).
  - eexists. split; [reflexivity |].
    match goal with
    | |- context [from_classification ?c ?a] =>
        destruct (from_classification_keeps c a) as (H1 & H2 & H3 & H4 & H5)
    end.
    rewrite H1, H2, H3, H4, H5. repeat split.
  - eexists. split; [reflexivity |].
    match goal with
    | |- context [_basic_classify ?a ?w0] =>
        destruct (basic_classify_keeps a w0) as (H1 & H2 & H3 & H4 & H5)
    end.
    rewrite H1, H2, H3, H4, H5. repeat split.
Qed.

Lemma worker_pass_empty (env : WorkerEnv) (d : Daemon) :
  items (_analysis_queue d) = [] -> _analysis_worker_iteration env d = (d, Ok tt).
Proof.
  intros H. unfold _analysis_worker_iteration, try_except, bind, gets, ret.
  rewrite H. reflexivity.
Qed.

(** A healthy pass on a non-empty queue: the head is taken, analysed and
    written. *)
Lemma worker_pass_writes (env : WorkerEnv) (d : Daemon) (x : QueueItem)
    (rest : list QueueItem) :
  healthy env = true ->
  database d = true ->
  items (_analysis_queue d) = x :: rest ->
  exists a,
    Models.timestamp a = item_timestamp x /\
    Models.window_title a = item_title x /\
    Models.is_idle a = false /\
    fst (_analysis_worker_iteration env d)
    = set_state (set_last_analysis_time (Some (now env)))
        (set_state (fun s => set_total_analyses (total_analyses s + 1) s)
           (emit (ActivityInserted a)
              (set_queue (mkQueue (maxsize (_analysis_queue d)) rest) d))).
Proof.
  intros Hh Hdb Hq. unfold healthy in Hh. apply andb_prop in Hh as [Hsave Hins].
  apply negb_true_iff in Hsave.
  destruct (analyze_content_returns env (item_window_info x) (item_screenshot x)
              (item_timestamp x)
              (set_queue (mkQueue (maxsize (_analysis_queue d)) rest) d) Hsave)
    as (a & Ha & Hts & Htitle & _ & _ & Hidle).
  exists a. split; [exact Hts |]. split; [exact Htitle |]. split; [exact Hidle |].
  unfold _analysis_worker_iteration, try_except, bind at 1, gets at 1. rewrite Hq.
  unfold bind at 1, modify at 1. unfold bind at 1. rewrite Ha.
  unfold bind, gets, modify, call, ret. cbn. rewrite Hdb.
  destruct (insert_activity env) as [z | e]; [reflexivity | discriminate Hins].
Qed.

(** X6. The worker writes in capture order. On passes where the insert
    succeeds, a running daemon's worker takes the queued items from the head,
    one per pass, and writes one record per item in the same order, each
    with the time and window of its item; the items not yet reached stay
    queued in their order, and no error is counted. *)
Theorem worker_writes_in_capture_order (envs : list WorkerEnv) (d : Daemon) :
  is_running (state d) = true ->
  _stop_event d = false ->
  database d = true ->
  forallb healthy envs = true ->
  let d' := _analysis_worker envs d in
  let done := firstn (length envs) (items (_analysis_queue d)) in
  exists written,
    events d' = (events d ++ map ActivityInserted written)%list /\
    map Models.timestamp written = map item_timestamp done /\
    map Models.window_title written = map item_title done /\
    items (_analysis_queue d') = skipn (length envs) (items (_analysis_queue d)) /\
    total_analyses (state d') = (total_analyses (state d) + length done)%nat /\
    errors (state d') = errors (state d).
Proof.
  revert d. induction envs as [| env rest IH]; intros d Hrun Hstop Hdb Hh; cbn zeta.
  - exists []. cbn. rewrite app_nil_r. repeat split. lia.
  - cbn [forallb] in Hh. apply andb_prop in Hh as [Hh Hrest].
    cbn [_analysis_worker]. rewrite Hrun, Hstop. cbn [andb negb].
    destruct (items (_analysis_queue d)) as [| x xs] eqn:Hq.
    + rewrite (worker_pass_empty env d Hq). cbn [fst].
      destruct (IH d Hrun Hstop Hdb Hrest) as (written & He & Hts & Ht & Hi & Ha & Herr).
      rewrite Hq in *. rewrite firstn_nil in *. rewrite skipn_nil in *.
      exists written. cbn [length firstn skipn]. repeat split; assumption.
    + destruct (worker_pass_writes env d x xs Hh Hdb Hq) as (a & Hts & Ht & _ & Hd1).
      rewrite Hd1.
      set (d1 := set_state _ _) in *.
      assert (Hrun1 : is_running (state d1) = true) by exact Hrun.
      assert (Hstop1 : _stop_event d1 = false) by exact Hstop.
      assert (Hdb1 : database d1 = true) by exact Hdb.
      assert (Hq1 : items (_analysis_queue d1) = xs) by reflexivity.
      destruct (IH d1 Hrun1 Hstop1 Hdb1 Hrest)
        as (written & He & Hts' & Ht' & Hi & Ha & Herr).
      rewrite Hq1 in *.
      exists (a :: written). cbn [length firstn skipn map].
      split; [rewrite He; subst d1; cbn; rewrite <- app_assoc; reflexivity |].
      split; [rewrite Hts, Hts'; reflexivity |].
      split; [rewrite Ht, Ht'; reflexivity |].
      split; [exact Hi |].
      split; [rewrite Ha; subst d1; cbn; lia | exact Herr].
Qed.

Lemma worker_writes_in_capture_order_witness :
  let d' := _analysis_worker [offline_pass 1100; offline_pass 1101; offline_pass 1102]
              daemon_with_two_items in
  total_analyses (state d') = 2%nat /\
  errors (state d') = 0%nat /\
  items (_analysis_queue d') = [].
Proof.
  cbn zeta.
  destruct (worker_writes_in_capture_order
              [offline_pass 1100; offline_pass 1101; offline_pass 1102]
              daemon_with_two_items eq_refl eq_refl eq_refl eq_refl)
    as (written & _ & _ & _ & Hi & Ha & Herr).
  rewrite Ha, Herr, Hi. repeat split.
Defined.

(** X7. A rejected insert loses the item. When the database raises on the
    insert, the pass has already taken the item off the queue; it counts one
    error, writes nothing and counts no analysis, and the item is not
    queued again. *)
Theorem worker_drops_item_on_write_failure (env : WorkerEnv) (d : Daemon)
    (x : QueueItem) (rest : list QueueItem) (e : exn) :
  save_screenshots env = false ->
  database d = true ->
  items (_analysis_queue d) = x :: rest ->
  insert_activity env = Raise e ->
  _analysis_worker_iteration env d
  = (emit (Error "Analysis error")
       (set_state (fun s => set_errors (errors s + 1) s)
          (set_queue (mkQueue (maxsize (_analysis_queue d)) rest) d)), Ok tt).
Proof.
  intros Hsave Hdb Hq Hins.
  destruct (analyze_content_returns env (item_window_info x) (item_screenshot x)
              (item_timestamp x)
              (set_queue (mkQueue (maxsize (_analysis_queue d)) rest) d) Hsave)
    as (a & Ha & _).
  unfold _analysis_worker_iteration, try_except, bind at 1, gets at 1. rewrite Hq.
  unfold bind at 1, modify at 1. unfold bind at 1. rewrite Ha.
  unfold bind, gets, modify, call, ret. cbn. rewrite Hdb, Hins. reflexivity.
Qed.

Lemma worker_drops_item_on_write_failure_witness :
  let d' := fst (_analysis_worker_iteration (failing_pass 1100) daemon_with_two_items) in
  qsize (_analysis_queue d') = 1%nat /\
  errors (state d') = 1%nat /\
  total_analyses (state d') = 0%nat /\
  events d' = [Error "Analysis error"].
Proof.
  cbn zeta.
  rewrite (worker_drops_item_on_write_failure (failing_pass 1100) daemon_with_two_items
             (mkQueueItem Spec.vscode_window (PILImage 1) 1030)
             [mkQueueItem browser_window (PILImage 2) 1060]
             (Exception "database is locked") eq_refl eq_refl eq_refl eq_refl).
  repeat split.
Defined.

Lemma loop_stopped (d : Daemon) :
  is_running (state d) = false ->
  (forall envs, _main_loop envs d = d) /\ (forall envs, _analysis_worker envs d = d).
Proof.
  intros H. split; intros [| env rest]; cbn; try reflexivity; now rewrite H.
Qed.

(** X8. After [stop] neither loop does anything: further scheduler ticks and
    worker passes leave the daemon as [stop] left it, so captures still
    queued at that moment are never analysed. *)
Theorem nothing_runs_after_stop (env : StopEnv) (ticks : list TickEnv)
    (passes : list WorkerEnv) (d : Daemon) :
  let d1 := fst (stop env d) in
  _main_loop ticks d1 = d1 /\
  _analysis_worker passes d1 = d1 /\
  items (_analysis_queue (_analysis_worker passes (_main_loop ticks d1)))
  = items (_analysis_queue d).
Proof.
  cbn zeta.
  assert (Hstopped : is_running (state (fst (stop env d))) = false).
  { destruct (is_running (state d)) eqn:Hrun.
    - rewrite (stop_when_running env d Hrun).
      destruct (cleanup_returns env
                  (set_stop_event true (set_state (set_is_running false) d)))
        as (_ & Hst & _).
      rewrite Hst. reflexivity.
    - rewrite (stop_when_stopped env d Hrun). exact Hrun. }
  destruct (loop_stopped _ Hstopped) as [Hm Hw].
  rewrite Hm, Hw. repeat split.
  destruct (is_running (state d)) eqn:Hrun.
  - rewrite (stop_when_running env d Hrun).
    unfold _cleanup, try_except, bind, gets, modify, call, ret, when.
    destruct d as [cfg st cap mon db cls mt q at_ ev evs]; cbn.
    destruct cap, mon as [m |], db; cbn;
      destruct (update_daily_stats env) as [[] | e1]; cbn;
      destruct (update_app_usage env) as [[] | e2]; cbn;
      destruct (update_website_usage env) as [[] | e3]; reflexivity.
  - rewrite (stop_when_stopped env d Hrun). reflexivity.
Qed.

(** X9. With a classifier, the stored record takes its type, category,
    activity, productivity, confidence, method and NSFW fields from the
    classification, but never its description: [_analyze_content] reads the
    keys 'description' and 'title', which [classify] does not produce, so
    content_description and content_title are stored empty although the
    classification carries a description. *)
Theorem stored_record_loses_description (env : WorkerEnv) (w : Monitor.WindowInfo)
    (img : Image) (ts : Z) (d : Daemon) :
  _content_classifier d = true ->
  save_screenshots env = false ->
  let c := Classifier.classify (analyzers env) (Some img) (Some w) in
  exists a,
    _analyze_content env w img ts d = (d, Ok a) /\
    Models.content_description a = "" /\
    Models.content_title a = "" /\
    Models.content_type a = Classifier.content_type c /\
    Models.content_category a = Classifier.content_category c /\
    Models.activity_type a = Classifier.activity_type c /\
    Models.is_productive a = Classifier.is_productive c /\
    Models.productivity_score a = Classifier.productivity_score c /\
    Models.detection_method a = Classifier.detection_method c /\
    Models.confidence a = Classifier.confidence c /\
    Models.is_nsfw a = Classifier.is_nsfw c /\
    Models.nsfw_score a = Classifier.nsfw_score c /\
    (Spec.unguarded_calls_return (analyzers env) (Some img) (Some w) = true ->
     Classifier.content_description c <> "").
Proof.
  intros Hcls Hsave c.
  unfold _analyze_content, bind, gets, ret. rewrite Hsave, Hcls.
  eexists. split; [reflexivity |].
  repeat (split; [reflexivity |]).
  intros Hret. subst c. rewrite (classify_runs_all_stages _ _ _ Hret).
  unfold Spec.all_stages. apply description_stage_nonempty.
Qed.

Lemma stored_record_loses_description_witness :
  exists a,
    _analyze_content (offline_pass 1100) Spec.vscode_window (PILImage 1) 1030
      (started_daemon default_config)
    = (started_daemon default_config, Ok a) /\
    Models.content_description a = "" /\
    Models.activity_type a = "productive" /\
    Classifier.content_description
      (Classifier.classify Spec.offline_analyzers (Some (PILImage 1))
         (Some Spec.vscode_window)) = "Working in code".
Proof.
  destruct (stored_record_loses_description (offline_pass 1100) Spec.vscode_window
              (PILImage 1) 1030 (started_daemon default_config) eq_refl eq_refl)
    as (a & Ha & Hd & _ & _ & _ & Hact & _).
  exists a. split; [exact Ha |]. split; [exact Hd |].
  split; [rewrite Hact; reflexivity | reflexivity].
Defined.

Lemma basic_classify_consistent (a0 : Models.Activity) (w : Monitor.WindowInfo) :
  Models.is_productive a0 = false ->
  Models.productivity_score a0 = 0 ->
  let a := _basic_classify a0 w in
  Models.confidence a = 5 # 10 /\
  Models.detection_method a = "rules" /\
  (Models.is_productive a = true <-> Models.activity_type a = "productive") /\
  (Models.is_productive a = true <-> (0 < Models.productivity_score a)%Q) /\
  (Monitor.is_browser w = true -> Models.content_type a = "browser") /\
  In (Models.activity_type a) ["neutral"; "entertainment"; "productive"; "social_media"].
Proof.
  intros Hp Hs. unfold _basic_classify.
  repeat match goal with
         | |- context [if ?c then _ else _] => destruct c
         end; cbn; rewrite ?Hp, ?Hs;
    (split; [reflexivity |]); (split; [reflexivity |]);
    (split; [split; intros H; (reflexivity || discriminate H) |]);
    (split; [split; intros H;
             first [ reflexivity | discriminate H
                   | exfalso; exact (Qlt_irrefl 0 H) ] |]);
    (split; [intros H; (reflexivity || discriminate H) |]); tauto.
Qed.

(** X10. Without a classifier the worker falls back on [_basic_classify]:
    the record then always has confidence 0.5 and method "rules", an
    activity among neutral, entertainment, productive and social_media, and
    is marked productive exactly when its activity is "productive", which is
    exactly when its score is positive; a browser window gets content type
    "browser" whatever its application name. *)
Theorem fallback_classification_is_consistent (env : WorkerEnv)
    (w : Monitor.WindowInfo) (img : Image) (ts : Z) (d : Daemon) :
  _content_classifier d = false ->
  save_screenshots env = false ->
  exists a,
    _analyze_content env w img ts d = (d, Ok a) /\
    Models.confidence a = 5 # 10 /\
    Models.detection_method a = "rules" /\
    (Models.is_productive a = true <-> Models.activity_type a = "productive") /\
    (Models.is_productive a = true <-> (0 < Models.productivity_score a)%Q) /\
    (Monitor.is_browser w = true -> Models.content_type a = "browser") /\
    In (Models.activity_type a) ["neutral"; "entertainment"; "productive"; "social_media"].
Proof.
  intros Hcls Hsave.
  unfold _analyze_content, bind, gets, ret. rewrite Hsave, Hcls.
  eexists. split; [reflexivity |].
  apply basic_classify_consistent; reflexivity.
Qed.

Lemma fallback_classification_is_consistent_witness :
  exists a,
    _analyze_content (offline_pass 1100) browser_window (PILImage 2) 1060
      daemon_without_classifier
    = (daemon_without_classifier, Ok a) /\
    Models.content_type a = "browser" /\
    Models.is_productive a = true.
Proof.
  destruct (fallback_classification_is_consistent (offline_pass 1100) browser_window
              (PILImage 2) 1060 daemon_without_classifier eq_refl eq_refl)
    as (a & Ha & _ & _ & Hprod & _ & Hbrowser & _).
  exists a. split; [exact Ha |]. split; [exact (Hbrowser eq_refl) |].
  apply Hprod.
  assert (E : a = _basic_classify
                    (new_Activity 1060 "firefox" "rocq - GitHub" "firefox" 33
                       "github.com" "github.com" 30) browser_window).
  { cbv in Ha. inversion Ha. reflexivity. }
  rewrite E. reflexivity.
Defined.

End WorkerProperties.

(** * Properties of every classification *)

Section PipelineInvariants.

Import Classifier Spec PipelineSpec.

Lemma keeps_bind {S A B : Type} (P : S -> Prop) (c : M S A) (k : A -> M S B) :
  keeps P c -> (forall a, keeps P (k a)) -> keeps P (bind c k).
Proof.
  intros Hc Hk s Hs. unfold bind. specialize (Hc s Hs).
  destruct (c s) as [s' [a | e]]; cbn in *; [apply Hk; exact Hc | exact Hc].
Qed.

Lemma keeps_try {S A : Type} (P : S -> Prop) (c : M S A) (h : exn -> M S A) :
  keeps P c -> (forall e, keeps P (h e)) -> keeps P (try_except c h).
Proof.
  intros Hc Hh s Hs. unfold try_except. specialize (Hc s Hs).
  destruct (c s) as [s' [a | e]]; cbn in *; [exact Hc | apply Hh; exact Hc].
Qed.

Lemma keeps_ret {S A : Type} (P : S -> Prop) (a : A) : keeps P (@ret S A a).
Proof. intros s Hs. exact Hs. Qed.

Lemma keeps_call {S A : Type} (P : S -> Prop) (o : outcome A) : keeps P (@call S A o).
Proof. intros s Hs. exact Hs. Qed.

Lemma keeps_gets {S A : Type} (P : S -> Prop) (f : S -> A) : keeps P (gets f).
Proof. intros s Hs. exact Hs. Qed.

Lemma keeps_modify {S : Type} (P : S -> Prop) (f : S -> S) :
  (forall s, P s -> P (f s)) -> keeps P (modify f).
Proof. intros Hf s Hs. apply Hf. exact Hs. Qed.

Lemma keeps_when {S : Type} (P : S -> Prop) (b : bool) (c : M S unit) :
  keeps P c -> keeps P (when b c).
Proof. intros Hc. destruct b; [exact Hc | apply keeps_ret]. Qed.

(** The result of [classify] has every property that the initial result has
    and that each of the eight steps keeps. *)
Lemma classify_keeps (P : Result -> Prop) (an : Analyzers) (screenshot : option Image)
    (window_info : option Monitor.WindowInfo) :
  P initial_result ->
  keeps P (url_stage an (win_url window_info)) ->
  keeps P (ocr_stage an screenshot) ->
  keeps P (image_stage an screenshot) ->
  keeps P (clip_stage an screenshot) ->
  keeps P (nsfw_stage an screenshot) ->
  keeps P (rules_stage (win_app_name window_info) (win_title window_info)
             (win_is_browser window_info)) ->
  keeps P productivity_stage ->
  keeps P (description_stage (win_app_name window_info) (win_title window_info)) ->
  P (classify an screenshot window_info).
Proof.
  intros H0 H1 H2 H3 H4 H5 H6 H7 H8. unfold classify.
  apply keeps_try; [| intros e; apply keeps_ret | exact H0].
  unfold classify_body.
  fold (win_app_name window_info) (win_title window_info) (win_url window_info)
       (win_is_browser window_info).
  repeat (apply keeps_bind; [assumption | intros _]). assumption.
Qed.

Lemma take_length (n : nat) (s : string) : (String.length (Py.take n s) <= n)%nat.
Proof.
  unfold Py.take. revert s. induction n as [| n IH]; intros s.
  - destruct s; cbn; lia.
  - destruct s as [| c s]; cbn; [lia |]. specialize (IH s). lia.
Qed.

Lemma dict_get_between (d : list (string * Q)) (key : string) (default lo hi : Q) :
  Forall (fun kv => (lo <= snd kv)%Q /\ (snd kv <= hi)%Q) d ->
  (lo <= default)%Q -> (default <= hi)%Q ->
  (lo <= Py.dict_get d key default)%Q /\ (Py.dict_get d key default <= hi)%Q.
Proof.
  intros Hd Hlo Hhi. induction Hd as [| [k v] d [Hv1 Hv2] _ IH]; cbn; [now split |].
  destruct (String.eqb k key); [now split | exact IH].
Qed.

Lemma calculate_productivity_range (a : string) :
  (- (1) <= _calculate_productivity a)%Q /\ (_calculate_productivity a <= 1)%Q.
Proof.
  unfold _calculate_productivity. apply dict_get_between.
  - unfold scores. repeat constructor; cbn; discriminate.
  - discriminate.
  - discriminate.
Qed.

(** The embedding stage leaves the result alone or writes four fields from a
    CLIP result that is more confident than the result was. *)
Lemma clip_stage_cases (an : Analyzers) (screenshot : option Image) (r : Result) :
  fst (clip_stage an screenshot r) = r \/
  exists img c,
    screenshot = Some img /\ clip_classify an img = Ok c /\
    (confidence r < clip_conf c)%Q /\
    fst (clip_stage an screenshot r)
    = set_activity_type
        (Py.dict_get activity_map (Py.get (clip_classification c) "") (activity_type r))
        (set_detection_method "clip"
           (set_confidence (clip_conf c)
              (set_content_category (Py.get (clip_classification c) "") r))).
Proof.
  unfold clip_stage, try_except, bind, call, ret.
  destruct screenshot as [img |]; [| now left].
  destruct (clip_classify an img) as [c | e] eqn:Hc; cbn; [| now left].
  destruct (Py.gt (Py.get (clip_confidence c) 0) (3 # 10)) eqn:H03; cbn; [| now left].
  unfold _merge_clip_result, bind, gets, modify, call, ret; cbn.
  destruct (Py.gt (Py.get (clip_confidence c) 0) (confidence r)) eqn:Hgt; cbn;
    [| now left].
  destruct (Py.truthy (Py.get (clip_classification c) "")); cbn; [| now left].
  apply gt_true_iff in Hgt. apply gt_true_iff in H03.
  destruct (clip_confidence c) as [q |] eqn:Hq; cbn in *.
  - right. exists img, c. unfold clip_conf. rewrite Hq. cbn. repeat split; assumption.
  - exfalso. apply (Qlt_irrefl 0).
    apply Qlt_trans with (3 # 10); [reflexivity | exact H03].
Qed.

Ltac raised H4 :=
  cbn; repeat split; auto;
  try (eapply Qle_trans; [exact H4 | apply max_ge_left]).

Lemma well_formed_url (u : URLResult) (r : Result) :
  well_formed r -> well_formed (_merge_url_result u r).
Proof.
  unfold well_formed, _merge_url_result. intros (H1 & H2 & H3 & H4 & H5).
  destruct (Py.truthy (url_website u)), (Py.truthy (url_content_type u)),
    (Py.truthy (url_activity u)); raised H4.
Qed.

Lemma well_formed_ocr (o : OCRResult) (r : Result) :
  well_formed r -> well_formed (_merge_ocr_result o r).
Proof.
  unfold well_formed, _merge_ocr_result. intros (H1 & H2 & H3 & H4 & H5).
  repeat match goal with
         | |- context [match ?c with _ => _ end] => destruct c
         end; raised H4.
Qed.

Lemma well_formed_image (i : ImageResult) (r : Result) :
  well_formed r -> well_formed (_merge_image_result i r).
Proof.
  unfold well_formed, _merge_image_result. intros (H1 & H2 & H3 & H4 & H5).
  destruct (layout_type i) as [l |]; [| now repeat split].
  destruct (String.eqb l "simple"), (String.eqb (content_type r) "unknown");
    now repeat split.
Qed.

Lemma url_stage_keeps (P : Result -> Prop) (an : Analyzers) (url : string) :
  (forall u r, P r -> P (_merge_url_result u r)) -> keeps P (url_stage an url).
Proof.
  intros H. unfold url_stage. apply keeps_when.
  apply keeps_bind; [apply keeps_call |]. intros [u |].
  - apply keeps_modify. apply H.
  - apply keeps_ret.
Qed.

Lemma ocr_stage_keeps (P : Result -> Prop) (an : Analyzers) (screenshot : option Image) :
  (forall t r, P r -> P (set_extracted_text (Py.take 500 t) r)) ->
  (forall o r, P r -> P (_merge_ocr_result o r)) ->
  keeps P (ocr_stage an screenshot).
Proof.
  intros Ht Ho. unfold ocr_stage. destruct screenshot as [img |]; [| apply keeps_ret].
  apply keeps_bind; [apply keeps_call |]. intros text. apply keeps_when.
  apply keeps_bind; [apply keeps_modify; apply Ht |]. intros _.
  apply keeps_bind; [apply keeps_call |]. intros o. apply keeps_modify. apply Ho.
Qed.

Lemma image_stage_keeps (P : Result -> Prop) (an : Analyzers)
    (screenshot : option Image) :
  (forall i r, P r -> P (_merge_image_result i r)) -> keeps P (image_stage an screenshot).
Proof.
  intros H. unfold image_stage. destruct screenshot as [img |]; [| apply keeps_ret].
  apply keeps_bind; [apply keeps_call |]. intros i. apply keeps_modify. apply H.
Qed.

Lemma nsfw_stage_cases (an : Analyzers) (screenshot : option Image) (r : Result) :
  fst (nsfw_stage an screenshot r) = r \/
  exists img n,
    screenshot = Some img /\ nsfw_detect an img = Ok n /\
    let flagged := Py.get (nsfw_result_is_nsfw n) false in
    let r1 := set_is_nsfw flagged (set_nsfw_score (Py.get (nsfw_result_score n) 0) r) in
    fst (nsfw_stage an screenshot r)
    = if flagged
      then set_content_category "adult_content" (set_activity_type "adult" r1)
      else r1.
Proof.
  unfold nsfw_stage, try_except, bind, call, ret, modify, gets, when.
  destruct screenshot as [img |]; [| now left].
  destruct (nsfw_detect an img) as [n | e] eqn:Hn; cbn; [| now left].
  right. exists img, n. split; [reflexivity |]. split; [exact Hn |]. cbn.
  destruct (Py.get (nsfw_result_is_nsfw n) false); reflexivity.
Qed.

(** X11. Whatever the analyzers return or raise, the result of [classify]
    is well formed: is_productive is true exactly when productivity_score is
    positive, the score lies between -1 and 1, the confidence is not
    negative and the extracted text has at most 500 characters. *)
Theorem classify_result_is_well_formed (an : Analyzers) (screenshot : option Image)
    (window_info : option Monitor.WindowInfo) :
  let r := classify an screenshot window_info in
  (is_productive r = true <-> (0 < productivity_score r)%Q) /\
  (- (1) <= productivity_score r <= 1)%Q /\
  (0 <= confidence r)%Q /\
  (String.length (extracted_text r) <= 500)%nat.
Proof.
  assert (H : well_formed (classify an screenshot window_info)).
  { apply classify_keeps.
    - unfold well_formed, initial_result; cbn. repeat split; try discriminate. lia.
    - apply url_stage_keeps. intros u r. apply well_formed_url.
    - apply ocr_stage_keeps.
      + intros t r (H1 & H2 & H3 & H4 & _). repeat split; auto. cbn. apply take_length.
      + intros o r. apply well_formed_ocr.
    - apply image_stage_keeps. intros i r. apply well_formed_image.
    - intros r (H1 & H2 & H3 & H4 & H5).
      destruct (clip_stage_cases an screenshot r) as [E | (img & c & _ & _ & Hlt & E)];
        rewrite E; [now repeat split |].
      repeat split; auto. cbn. apply Qlt_le_weak.
      apply Qle_lt_trans with (confidence r); assumption.
    - intros r (H1 & H2 & H3 & H4 & H5).
      destruct (nsfw_stage_cases an screenshot r) as [E | (img & n & _ & _ & E)];
        rewrite E; [now repeat split |].
      cbn. destruct (Py.get (nsfw_result_is_nsfw n) false); now repeat split.
    - apply keeps_modify. intros r (H1 & H2 & H3 & H4 & H5).
      destruct (apply_rules_frame (win_app_name window_info) (win_title window_info)
                  (win_is_browser window_info) r)
        as (_ & _ & Hp & Hs & _ & _ & _ & Ht).
      unfold well_formed. rewrite Hp, Hs, Ht. repeat split; auto.
      eapply Qle_trans; [exact H4 | apply apply_rules_confidence].
    - intros r (H1 & H2 & H3 & H4 & H5). unfold productivity_stage, bind, modify; cbn.
      destruct (calculate_productivity_range (activity_type r)) as [Hlo Hhi].
      repeat split; assumption.
    - intros r (H1 & H2 & H3 & H4 & H5).
      unfold description_stage, bind, gets, when, modify, ret; cbn.
      destruct (Py.truthy (content_description r)); now repeat split. }
  destruct H as (H1 & H2 & H3 & H4 & H5). cbn zeta.
  split; [rewrite H1; apply gt_true_iff |]. repeat split; assumption.
Qed.

Lemma nsfw_from_detector_frame (an : Analyzers) (screenshot : option Image)
    (r r' : Result) :
  is_nsfw r' = is_nsfw r -> nsfw_score r' = nsfw_score r ->
  nsfw_from_detector an screenshot r -> nsfw_from_detector an screenshot r'.
Proof.
  unfold nsfw_from_detector. intros Hf Hs [[H1 H2] | (img & n & H1 & H2 & H3 & H4)].
  - left. split; congruence.
  - right. exists img, n. repeat split; congruence.
Qed.

Lemma merges_keep_nsfw :
  (forall u r, is_nsfw (_merge_url_result u r) = is_nsfw r /\
               nsfw_score (_merge_url_result u r) = nsfw_score r) /\
  (forall o r, is_nsfw (_merge_ocr_result o r) = is_nsfw r /\
               nsfw_score (_merge_ocr_result o r) = nsfw_score r) /\
  (forall i r, is_nsfw (_merge_image_result i r) = is_nsfw r /\
               nsfw_score (_merge_image_result i r) = nsfw_score r).
Proof.
  split; [| split].
  - intros u r. unfold _merge_url_result.
    destruct (Py.truthy (url_website u)), (Py.truthy (url_content_type u)),
      (Py.truthy (url_activity u)); now split.
  - intros o r. unfold _merge_ocr_result.
    repeat match goal with
           | |- context [match ?c with _ => _ end] => destruct c
           end; now split.
  - intros i r. unfold _merge_image_result.
    repeat match goal with
           | |- context [match ?c with _ => _ end] => destruct c
           end; now split.
Qed.

Lemma classify_nsfw_from_detector (an : Analyzers) (screenshot : option Image)
    (window_info : option Monitor.WindowInfo) :
  nsfw_from_detector an screenshot (classify an screenshot window_info).
Proof.
  destruct merges_keep_nsfw as (Hurl & Hocr & Himg).
  apply classify_keeps.
  - left. split; reflexivity.
  - apply url_stage_keeps. intros u r.
    apply nsfw_from_detector_frame; apply Hurl.
  - apply ocr_stage_keeps.
    + intros t r. apply nsfw_from_detector_frame; reflexivity.
    + intros o r. apply nsfw_from_detector_frame; apply Hocr.
  - apply image_stage_keeps. intros i r.
    apply nsfw_from_detector_frame; apply Himg.
  - intros r Hr.
    destruct (clip_stage_cases an screenshot r) as [E | (img & c & _ & _ & _ & E)];
      rewrite E; [exact Hr |].
    revert Hr. apply nsfw_from_detector_frame; reflexivity.
  - intros r Hr.
    destruct (nsfw_stage_cases an screenshot r) as [E | (img & n & Hs & Hn & E)];
      rewrite E; [exact Hr |].
    right. exists img, n. split; [exact Hs |]. split; [exact Hn |].
    cbn. destruct (Py.get (nsfw_result_is_nsfw n) false); split; reflexivity.
  - apply keeps_modify. intros r.
    destruct (apply_rules_frame (win_app_name window_info) (win_title window_info)
                (win_is_browser window_info) r)
      as (_ & _ & _ & _ & _ & Hs & Hf & _).
    apply nsfw_from_detector_frame; assumption.
  - intros r. unfold productivity_stage, bind, modify; cbn.
    apply nsfw_from_detector_frame; reflexivity.
  - intros r. unfold description_stage, bind, gets, when, modify, ret; cbn.
    destruct (Py.truthy (content_description r)); cbn;
      apply nsfw_from_detector_frame; reflexivity.
Qed.

(** X12. The NSFW flag of a classification comes from the NSFW detector
    alone: the result is flagged only if the detector returned a flagged
    verdict for the screenshot, and then carries the detector's score; no
    other stage sets the flag (a CLIP label "adult" does not), and without
    a screenshot the result is never flagged. *)
Theorem nsfw_flag_comes_only_from_detector (an : Analyzers)
    (screenshot : option Image) (window_info : option Monitor.WindowInfo) :
  let r := classify an screenshot window_info in
  (is_nsfw r = true ->
   exists img n, screenshot = Some img /\ nsfw_detect an img = Ok n /\
                 Py.get (nsfw_result_is_nsfw n) false = true /\
                 nsfw_score r = Py.get (nsfw_result_score n) 0) /\
  (screenshot = None -> is_nsfw r = false /\ nsfw_score r = 0).
Proof.
  pose proof (classify_nsfw_from_detector an screenshot window_info) as H.
  cbn zeta. split.
  - intros Hflag. destruct H as [[Hno _] | (img & n & Hs & Hn & Hf & Hsc)].
    + rewrite Hno in Hflag. discriminate.
    + exists img, n. repeat split; try assumption. now rewrite <- Hf.
  - intros Hnone. destruct H as [H | (img & n & Hs & _)]; [exact H |].
    rewrite Hnone in Hs. discriminate.
Qed.

Lemma nsfw_flag_comes_only_from_detector_witness :
  is_nsfw (classify flagging_analyzers (Some (PILImage 0)) (Some vscode_window)) = true /\
  nsfw_score (classify flagging_analyzers (Some (PILImage 0)) (Some vscode_window))
  = 9 # 10 /\
  is_nsfw (classify flagging_analyzers None (Some vscode_window)) = false.
Proof.
  destruct (nsfw_flag_comes_only_from_detector flagging_analyzers (Some (PILImage 0))
              (Some vscode_window)) as [Hyes _].
  destruct (nsfw_flag_comes_only_from_detector flagging_analyzers None
              (Some vscode_window)) as [_ Hno].
  split; [reflexivity |].
  destruct (Hyes eq_refl) as (img & n & _ & Hn & _ & Hs).
  split; [| exact (proj1 (Hno eq_refl))].
  rewrite Hs. cbn in Hn. inversion Hn. reflexivity.
Defined.

(** X13. When the CLIP analyzer reports confidences of at most one, the
    confidence of every classification is at most one, whatever else the
    analyzers do. *)
Theorem classify_confidence_at_most_one (an : Analyzers) (screenshot : option Image)
    (window_info : option Monitor.WindowInfo) :
  (forall img c, clip_classify an img = Ok c -> (clip_conf c <= 1)%Q) ->
  (confidence (classify an screenshot window_info) <= 1)%Q.
Proof.
  intros Hclip.
  assert (Hmax : forall a b, (a <= 1)%Q -> (b <= 1)%Q -> (Py.max a b <= 1)%Q).
  { intros a b Ha Hb. unfold Py.max. now destruct (Py.gt b a). }
  change (confident_at_most_one (classify an screenshot window_info)).
  apply classify_keeps; unfold confident_at_most_one.
  - discriminate.
  - apply url_stage_keeps. intros u r Hr. unfold _merge_url_result.
    destruct (Py.truthy (url_website u)), (Py.truthy (url_content_type u)),
      (Py.truthy (url_activity u)); cbn; auto; apply Hmax; auto; discriminate.
  - apply ocr_stage_keeps; [intros t r Hr; exact Hr |].
    intros o r Hr. unfold _merge_ocr_result.
    repeat match goal with
           | |- context [match ?c with _ => _ end] => destruct c
           end; cbn; auto; apply Hmax; auto; discriminate.
  - apply image_stage_keeps. intros i r Hr. unfold _merge_image_result.
    repeat match goal with
           | |- context [match ?c with _ => _ end] => destruct c
           end; cbn; auto.
  - intros r Hr.
    destruct (clip_stage_cases an screenshot r) as [E | (img & c & _ & Hc & _ & E)];
      rewrite E; [exact Hr |].
    cbn. exact (Hclip img c Hc).
  - intros r Hr.
    destruct (nsfw_stage_cases an screenshot r) as [E | (img & n & _ & _ & E)];
      rewrite E; [exact Hr |].
    cbn. now destruct (Py.get (nsfw_result_is_nsfw n) false).
  - apply keeps_modify. intros r Hr. unfold _apply_rules.
    repeat match goal with
           | |- context [if ?c then _ else _] => destruct c
           end; cbn; auto; apply Hmax; auto; discriminate.
  - intros r Hr. exact Hr.
  - intros r Hr. unfold description_stage, bind, gets, when, modify, ret; cbn.
    now destruct (Py.truthy (content_description r)).
Qed.

Lemma classify_confidence_at_most_one_witness :
  (confidence (classify tutorial_analyzers (Some (PILImage 0)) None) <= 1)%Q /\
  confidence (classify tutorial_analyzers (Some (PILImage 0)) None) = 95 # 100.
Proof.
  split; [| reflexivity].
  apply classify_confidence_at_most_one.
  intros img c Hc. cbn in Hc. inversion Hc. discriminate.
Defined.

(** X14. Without a screenshot only the URL analyzer is consulted: two sets
    of analyzers that answer alike on the window's URL give the same
    classification, whatever their OCR, image, CLIP and NSFW parts do. *)
Theorem classify_without_screenshot (an an' : Analyzers)
    (window_info : option Monitor.WindowInfo) :
  url_analyze an (win_url window_info) = url_analyze an' (win_url window_info) ->
  classify an None window_info = classify an' None window_info.
Proof.
  intros Hurl. unfold classify, classify_body.
  fold (win_app_name window_info) (win_title window_info) (win_url window_info)
       (win_is_browser window_info).
  unfold url_stage, ocr_stage, image_stage, clip_stage, nsfw_stage.
  rewrite Hurl. reflexivity.
Qed.

Lemma classify_without_screenshot_witness :
  classify broken_image_analyzers None (Some vscode_window)
  = classify offline_analyzers None (Some vscode_window).
Proof.
  exact (classify_without_screenshot broken_image_analyzers offline_analyzers
           (Some vscode_window) eq_refl).
Defined.

End PipelineInvariants.

(** * Properties of the NSFW detector *)

Section NSFWProperties.

Import NSFWDetector NSFWSpec.

Lemma max_cases (a b : Q) : Py.max a b = a \/ Py.max a b = b.
Proof. unfold Py.max. destruct (Py.gt b a); auto. Qed.

Lemma scan_step_counts (acc : Scan) (d : Detection) :
  scan_step acc d
  = if counts d
    then mkScan true (Py.max (scan_score acc) (score d)) (scan_parts acc ++ [label d])
    else acc.
Proof. reflexivity. Qed.

(** The loop, from any values of its three variables. *)
Lemma scan_from (results : list Detection) (acc : Scan) :
  let s := fold_left scan_step results acc in
  scan_is_nsfw s = scan_is_nsfw acc || existsb counts results /\
  scan_parts s = (scan_parts acc ++ map label (filter counts results))%list /\
  (scan_score acc <= scan_score s)%Q /\
  (forall d, In d results -> counts d = true -> (score d <= scan_score s)%Q) /\
  (scan_score s = scan_score acc \/
   exists d, In d results /\ counts d = true /\ scan_score s = score d).
Proof.
  revert acc. induction results as [| d rest IH]; intros acc; cbn [fold_left].
  - cbn. rewrite orb_false_r, app_nil_r.
    repeat split; [apply Qle_refl | intros d [] | now left].
  - rewrite scan_step_counts. cbn [existsb filter In].
    destruct (counts d) eqn:Hd.
    + destruct (IH (mkScan true (Py.max (scan_score acc) (score d))
                      (scan_parts acc ++ [label d])))
        as (H1 & H2 & H3 & H4 & H5). cbn [scan_is_nsfw scan_score scan_parts] in *.
      split; [rewrite H1; cbn; now rewrite orb_true_r |].
      split; [rewrite H2; cbn; now rewrite <- app_assoc |].
      split; [eapply Qle_trans; [apply max_ge_left | exact H3] |].
      split.
      * intros d' [-> | Hin] Hc; [| now apply H4].
        eapply Qle_trans; [apply max_ge_right | exact H3].
      * destruct H5 as [E | (d' & Hin & Hc & E)].
        -- destruct (max_cases (scan_score acc) (score d)) as [M | M].
           ++ left. etransitivity; [exact E | exact M].
           ++ right. exists d. split; [now left |]. split; [exact Hd |].
              etransitivity; [exact E | exact M].
        -- right. exists d'. split; [now right | split; assumption].
    + destruct (IH acc) as (H1 & H2 & H3 & H4 & H5).
      split; [exact H1 |]. split; [exact H2 |]. split; [exact H3 |].
      split.
      * intros d' [-> | Hin] Hc; [congruence | now apply H4].
      * destruct H5 as [E | (d' & Hin & Hc & E)]; [now left |].
        right. exists d'. split; [now right | split; assumption].
Qed.

Lemma counts_above_half (d : Detection) : counts d = true -> (5 # 10 < score d)%Q.
Proof.
  unfold counts. intros H. apply andb_prop in H as [_ H]. now apply gt_true_iff.
Qed.

Lemma filter_none {A : Type} (f : A -> bool) (l : list A) :
  existsb f l = false -> filter f l = [].
Proof.
  induction l as [| x l IH]; cbn; [reflexivity |].
  intros H. apply orb_false_elim in H as [Hx Hl]. rewrite Hx. now apply IH.
Qed.

Lemma fallback_sound (lib : NudeNet) (image : option Image) :
  sound_report lib image _fallback_result.
Proof.
  split; [reflexivity |].
  split; [intros _; split; reflexivity | intros H; discriminate H].
Qed.

Lemma scanned_sound (lib : NudeNet) (img : Image) (results : list Detection) :
  run_detector lib img = Ok results ->
  sound_report lib (Some img)
    (mkReport (scan_is_nsfw (scan results)) (scan_score (scan results))
       (1 - scan_score (scan results)) (scan_parts (scan results)) "nudenet").
Proof.
  intros Hrun.
  destruct (scan_from results (mkScan false 0 [])) as (H1 & H2 & _ & H4 & H5).
  fold (scan results) in *. cbn in H1, H2, H5.
  unfold sound_report. cbn [is_nsfw nsfw_score safe_score detected_parts].
  split; [reflexivity |]. rewrite H1, H2. split.
  - intros Hno. rewrite (filter_none _ _ Hno). split; [| reflexivity].
    destruct H5 as [E | (d & Hin & Hc & _)]; [exact E |].
    exfalso. assert (existsb counts results = true)
      by (apply existsb_exists; eauto).
    congruence.
  - intros Hyes. exists img, results.
    split; [reflexivity |]. split; [exact Hrun |]. split; [exact Hyes |].
    split; [reflexivity |].
    apply existsb_exists in Hyes as (d0 & Hin0 & Hc0).
    pose proof (counts_above_half d0 Hc0) as Habove.
    pose proof (H4 d0 Hin0 Hc0) as Hle.
    split; [eapply Qlt_le_trans; eassumption |].
    split; [| exact H4].
    destruct H5 as [E | H5]; [| exact H5].
    exfalso. rewrite E in Hle. apply (Qlt_irrefl 0).
    apply Qlt_trans with (5 # 10); [reflexivity |].
    eapply Qlt_le_trans; eassumption.
Qed.

(** X15. [NSFWDetector.detect] always returns a report, whatever the library
    does. The report is flagged exactly when the detector ran and found a
    region with one of the eight NSFW labels and a score above 0.5; its
    score is then the highest score among those regions, hence above 0.5,
    and is 0 when it is not flagged; safe_score is 1 minus the score and
    detected_parts lists the labels of those regions in order. *)
Theorem detect_reports_highest_counting_region (lib : NudeNet) (image : option Image)
    (initialized : bool) :
  exists report,
    snd (detect lib image initialized) = Ok report /\
    sound_report lib image report /\
    (forall img results,
       image = Some img -> run_detector lib img = Ok results ->
       HAS_NUDENET lib = true -> (initialized = true \/ NudeDetector lib = Ok tt) ->
       is_nsfw report = existsb counts results).
Proof.
  unfold detect, _initialize.
  destruct (HAS_NUDENET lib); cbn.
  2: { exists _fallback_result. split; [reflexivity |].
       split; [apply fallback_sound |]. intros img results _ _ H. discriminate H. }
  destruct initialized; cbn.
  - destruct image as [img |].
    2: { exists _fallback_result. split; [reflexivity |].
         split; [apply fallback_sound |]. intros img results H. discriminate H. }
    destruct (run_detector lib img) as [results | e] eqn:Hrun.
    + eexists. split; [reflexivity |]. split; [now apply scanned_sound |].
      intros img' results' Himg Hres _ _. inversion Himg; subst img'.
      rewrite Hrun in Hres. inversion Hres; subst results'. cbn.
      destruct (scan_from results (mkScan false 0 [])) as (H1 & _). exact H1.
    + exists _fallback_result. split; [reflexivity |].
      split; [apply fallback_sound |].
      intros img' results' Himg Hres. inversion Himg; subst img'. congruence.
  - destruct (NudeDetector lib) as [[] | e0] eqn:Hnew; cbn.
    2: { exists _fallback_result. split; [reflexivity |].
         split; [apply fallback_sound |].
         intros img results _ _ _ [H | H]; discriminate H. }
    destruct image as [img |].
    2: { exists _fallback_result. split; [reflexivity |].
         split; [apply fallback_sound |]. intros img results H. discriminate H. }
    destruct (run_detector lib img) as [results | e] eqn:Hrun.
    + eexists. split; [reflexivity |]. split; [now apply scanned_sound |].
      intros img' results' Himg Hres _ _. inversion Himg; subst img'.
      rewrite Hrun in Hres. inversion Hres; subst results'. cbn.
      destruct (scan_from results (mkScan false 0 [])) as (H1 & _). exact H1.
    + exists _fallback_result. split; [reflexivity |].
      split; [apply fallback_sound |].
      intros img' results' Himg Hres. inversion Himg; subst img'. congruence.
Qed.

Lemma detect_reports_highest_counting_region_witness :
  exists report,
    snd (detect (nudenet_reporting beach_photo) (Some (PILImage 0)) false) = Ok report /\
    is_nsfw report = true /\
    nsfw_score report = 71 # 100 /\
    detected_parts report = ["BELLY_EXPOSED"; "ARMPITS_EXPOSED"].
Proof.
  destruct (detect_reports_highest_counting_region (nudenet_reporting beach_photo)
              (Some (PILImage 0)) false) as (report & Hr & _ & Hflag).
  exists report. split; [exact Hr |].
  split; [exact (Hflag (PILImage 0) beach_photo eq_refl eq_refl eq_refl
                   (or_intror eq_refl)) |].
  cbv in Hr. inversion Hr. split; reflexivity.
Defined.

End NSFWProperties.

(** ** The detector behind the classifier *)

Section DetectorInPipeline.

Import NSFWSpec.

Lemma as_analyzer_sound (lib : NSFWDetector.NudeNet) (initialized : bool) (img : Image) :
  exists report,
    NSFWDetector.as_analyzer lib initialized img
    = Ok (Classifier.mkNSFWResult (Some (NSFWDetector.nsfw_score report))
            (Some (NSFWDetector.is_nsfw report))) /\
    sound_report lib (Some img) report.
Proof.
  assert (Hfb : exists report,
             Ok (Classifier.mkNSFWResult (Some 0) (Some false))
             = Ok (Classifier.mkNSFWResult (Some (NSFWDetector.nsfw_score report))
                     (Some (NSFWDetector.is_nsfw report))) /\
             sound_report lib (Some img) report).
  { exists NSFWDetector._fallback_result. split; [reflexivity | apply fallback_sound]. }
  assert (Hscan : forall results,
             NSFWDetector.run_detector lib img = Ok results ->
             exists report,
               Ok (Classifier.mkNSFWResult
                     (Some (NSFWDetector.scan_score (NSFWDetector.scan results)))
                     (Some (NSFWDetector.scan_is_nsfw (NSFWDetector.scan results))))
               = Ok (Classifier.mkNSFWResult (Some (NSFWDetector.nsfw_score report))
                       (Some (NSFWDetector.is_nsfw report))) /\
               sound_report lib (Some img) report).
  { intros results Hrun. eexists. split; [| exact (scanned_sound lib img results Hrun)].
    reflexivity. }
  unfold NSFWDetector.as_analyzer, NSFWDetector.detect, NSFWDetector._initialize.
  destruct (NSFWDetector.HAS_NUDENET lib); cbn; [| exact Hfb].
  destruct initialized; cbn.
  - destruct (NSFWDetector.run_detector lib img) as [results | e] eqn:Hrun;
      [exact (Hscan results eq_refl) | exact Hfb].
  - destruct (NSFWDetector.NudeDetector lib) as [[] | e0]; cbn; [| exact Hfb].
    destruct (NSFWDetector.run_detector lib img) as [results | e] eqn:Hrun;
      [exact (Hscan results eq_refl) | exact Hfb].
Qed.

(** X16. With the repository's NSFW detector behind the classifier, a
    classification is flagged only on a screenshot where the detector found
    a region with an NSFW label and a score above 0.5, and then its
    nsfw_score is above 0.5; an unflagged classification has nsfw_score 0. *)
Theorem flagged_classification_scores_above_half (an : Classifier.Analyzers)
    (lib : NSFWDetector.NudeNet) (initialized : bool) (screenshot : option Image)
    (window_info : option Monitor.WindowInfo) :
  Classifier.nsfw_detect an = NSFWDetector.as_analyzer lib initialized ->
  let r := Classifier.classify an screenshot window_info in
  (Classifier.is_nsfw r = true ->
   (5 # 10 < Classifier.nsfw_score r)%Q /\
   exists img results,
     screenshot = Some img /\ NSFWDetector.run_detector lib img = Ok results /\
     existsb counts results = true) /\
  (Classifier.is_nsfw r = false -> Classifier.nsfw_score r = 0).
Proof.
  intros Hdet. cbn zeta.
  destruct (classify_nsfw_from_detector an screenshot window_info)
    as [[Hno Hzero] | (img & n & Hs & Hn & Hf & Hsc)].
  - split; [intros H; congruence | intros _; exact Hzero].
  - rewrite Hdet in Hn.
    destruct (as_analyzer_sound lib initialized img) as (report & Hr & _ & Hoff & Hon).
    rewrite Hr in Hn. inversion Hn; subst n. cbn in Hf, Hsc.
    rewrite Hf, Hsc. split.
    + intros Hflag. destruct (Hon Hflag)
        as (img' & results & Himg & Hrun & Hex & _ & Habove & _).
      inversion Himg; subst img'.
      split; [exact Habove |]. exists img, results. auto.
    + intros Hflag. exact (proj1 (Hoff Hflag)).
Qed.

Lemma flagged_classification_scores_above_half_witness :
  let r := Classifier.classify (analyzers_with_detector beach_photo)
             (Some (PILImage 0)) None in
  Classifier.is_nsfw r = true /\ (5 # 10 < Classifier.nsfw_score r)%Q /\
  Classifier.activity_type r = "adult".
Proof.
  cbn zeta.
  destruct (flagged_classification_scores_above_half
              (analyzers_with_detector beach_photo) (nudenet_reporting beach_photo)
              false (Some (PILImage 0)) None eq_refl) as [Hon _].
  assert (Hflag : Classifier.is_nsfw
                    (Classifier.classify (analyzers_with_detector beach_photo)
                       (Some (PILImage 0)) None) = true) by reflexivity.
  split; [exact Hflag |]. split; [exact (proj1 (Hon Hflag)) | reflexivity].
Defined.

End DetectorInPipeline.

(** * Properties of the CLIP analyzer *)

Section CLIPProperties.

Import CLIPAnalyzer CLIPSpec.

Example default_categories_parse :
  map _parse_category CONTENT_CATEGORIES = default_labels.
Proof. vm_compute. reflexivity. Qed.

Lemma lookup_all_in (categories : list string) (answer : list (nat * Q))
    (named : list (string * Q)) :
  lookup_all categories answer = Some named ->
  forall cv, In cv named -> In (fst cv) categories.
Proof.
  revert named. induction answer as [| [idx value] rest IH]; intros named H; cbn in H.
  - inversion H. intros cv [].
  - destruct (nth_error categories idx) as [c |] eqn:Hc; [| discriminate].
    destruct (lookup_all categories rest) as [l |]; [| discriminate].
    inversion H; subst named. intros cv [<- | Hin].
    + cbn. eapply nth_error_In. exact Hc.
    + now apply (IH l).
Qed.

(** The activity map gives "social_media" for the label "social_feed" only. *)
Lemma activity_map_social (label current : string) :
  Py.dict_get Classifier.activity_map label current = "social_media" ->
  label = "social_feed" \/ current = "social_media".
Proof.
  unfold Classifier.activity_map. cbn [Py.dict_get].
  repeat match goal with
         | |- context [String.eqb ?k label] =>
             destruct (String.eqb k label) eqn:?E;
             [ apply String.eqb_eq in E; intros H;
               first [ discriminate H | left; symmetry; exact E ] | clear E ]
         end.
  intros H. now right.
Qed.

(** What [classify] can return. *)
Lemma classify_cases (lib : OpenCLIP) (image : option Image) (initialized : bool) :
  snd (classify lib image initialized) = Ok None \/
  snd (classify lib image initialized) = Ok (Some _fallback_classification) \/
  exists top value named,
    In top CONTENT_CATEGORIES /\
    snd (classify lib image initialized)
    = Ok (Some (mkReport (_parse_category top) value named
                  (Py.is_substring "adult" (Py.lower top)
                   || Py.is_substring "inappropriate" (Py.lower top))
                  "clip")).
Proof.
  unfold classify, _initialize.
  destruct (HAS_CLIP lib); cbn [negb orb]; [| right; left; reflexivity].
  assert (Hfb : forall i : bool,
             snd (i, @Ok (option Report) (Some _fallback_classification))
             = Ok (Some _fallback_classification)) by reflexivity.
  destruct initialized; cbn [negb orb];
    [| destruct (load_model lib) as [[] | e0]; cbn [negb];
       [| right; left; reflexivity]];
    (destruct image as [img |]; [| now left]);
    (destruct (top_k lib img) as [answer | e]; [| right; left; reflexivity]);
    (destruct (lookup_all CONTENT_CATEGORIES answer)
       as [[| [top value] named] |] eqn:Hl;
     [right; left; reflexivity | | right; left; reflexivity]);
    right; right; exists top, value; eexists;
    (split; [exact (lookup_all_in _ _ _ Hl (top, value) (or_introl eq_refl))
            | reflexivity]).
Qed.

(** X17. Whatever the model answers, [CLIPAnalyzer.classify] on the default
    categories never yields the label "social_feed": the category "a social
    media feed" loses the "a " inside "media feed" as well and parses to
    "social_medifeed". So a CLIP result never turns an activity into
    "social_media" through the activity map; and the report's own is_nsfw is
    set exactly when its label is "adult". *)
Theorem clip_never_reports_social_feed (lib : OpenCLIP) (image : option Image)
    (initialized : bool) (report : Report) :
  snd (classify lib image initialized) = Ok (Some report) ->
  In (classification report) ("unknown" :: default_labels) /\
  classification report <> "social_feed" /\
  (forall current,
     Py.dict_get Classifier.activity_map (classification report) current = "social_media" ->
     current = "social_media") /\
  (is_nsfw report = true <-> classification report = "adult").
Proof.
  intros Hr.
  assert (Hall : forallb
                   (fun c =>
                      Py.mem (_parse_category c) default_labels
                      && negb (String.eqb (_parse_category c) "social_feed")
                      && Bool.eqb (Py.is_substring "adult" (Py.lower c)
                                   || Py.is_substring "inappropriate" (Py.lower c))
                                  (String.eqb (_parse_category c) "adult"))
                   CONTENT_CATEGORIES = true) by (vm_compute; reflexivity).
  assert (Hlabel : In (classification report) ("unknown" :: default_labels) /\
                   classification report <> "social_feed" /\
                   (is_nsfw report = true <-> classification report = "adult")).
  { destruct (classify_cases lib image initialized)
      as [E | [E | (top & value & named & Hin & E)]]; rewrite E in Hr.
    - discriminate Hr.
    - inversion Hr; subst report. cbn.
      split; [now left |]. split; [discriminate |]. split; discriminate.
    - inversion Hr; subst report. cbn [classification is_nsfw].
      rewrite forallb_forall in Hall. specialize (Hall top Hin).
      apply andb_prop in Hall as [Hall Hnsfw]. apply andb_prop in Hall as [Hmem Hne].
      split.
      + right. unfold Py.mem in Hmem. apply existsb_exists in Hmem as (l & Hl & He).
        apply String.eqb_eq in He. now rewrite He.
      + split.
        * intros Heq. rewrite Heq in Hne. discriminate Hne.
        * apply Bool.eqb_prop in Hnsfw. rewrite Hnsfw. apply String.eqb_eq. }
  destruct Hlabel as (H1 & H2 & H3).
  split; [exact H1 |]. split; [exact H2 |]. split; [| exact H3].
  intros current Hmap. destruct (activity_map_social _ _ Hmap); [contradiction | assumption].
Qed.

Lemma clip_never_reports_social_feed_witness :
  exists report,
    snd (classify clip_seeing_feed (Some (PILImage 0)) false) = Ok (Some report) /\
    classification report = "social_medifeed" /\
    Py.dict_get Classifier.activity_map (classification report) "neutral" = "neutral".
Proof.
  eexists. split; [vm_compute; reflexivity |].
  match goal with
  | |- classification ?r = _ /\ _ =>
      destruct (clip_never_reports_social_feed clip_seeing_feed (Some (PILImage 0))
                  false r ltac:(vm_compute; reflexivity)) as (_ & _ & _ & _)
  end.
  split; vm_compute; reflexivity.
Defined.

End CLIPProperties.

(** * Properties of the URL analyzer *)

Section URLProperties.

Import URLAnalyzer URLSpec.

Lemma site_rules_nonempty :
  forallb (fun kv => Py.truthy (category (snd kv)) && Py.truthy (site_activity (snd kv)))
    SITE_RULES = true.
Proof. vm_compute. reflexivity. Qed.

Lemma match_site_in (rules : list (string * SiteInfo)) (d : string) (info : SiteInfo) :
  match_site rules d = Some info ->
  exists key, In (key, info) rules /\ Py.is_substring key d = true.
Proof.
  induction rules as [| [key i] rest IH]; cbn; [discriminate |].
  destruct (Py.is_substring key d) eqn:E.
  - intros H. inversion H; subst i. exists key. auto.
  - intros H. destruct (IH H) as (k & Hin & Hk). exists k. auto.
Qed.

(** X18. Every non-empty URL gets an analysis, whether the parser accepts it
    or not and whether a site rule matches or not, and its content type and
    activity are never empty ("other" and "neutral" at the least). So the
    URL stage of the classifier always overwrites content_category and
    activity_type and lifts the confidence to at least 0.7, also for a site
    nobody knows. *)
Theorem every_url_lifts_confidence (netloc : string -> outcome string) (u : string)
    (r : Classifier.Result) :
  u <> "" ->
  exists a,
    analyze netloc u = Some a /\
    content_type a <> "" /\ activity a <> "" /\
    let r' := Classifier._merge_url_result
                (Classifier.mkURLResult (website a) (content_type a) (activity a)) r in
    Classifier.content_category r' = content_type a /\
    Classifier.activity_type r' = activity a /\
    (7 # 10 <= Classifier.confidence r')%Q /\
    (Classifier.confidence r <= Classifier.confidence r')%Q.
Proof.
  intros Hu. unfold analyze.
  destruct u as [| c u']; [contradiction |]. cbn [Py.truthy negb].
  set (d := _extract_domain netloc (String c u')).
  assert (Hmerge : forall a,
             Py.truthy (content_type a) = true -> Py.truthy (activity a) = true ->
             content_type a <> "" /\ activity a <> "" /\
             let r' := Classifier._merge_url_result
                         (Classifier.mkURLResult (website a) (content_type a)
                            (activity a)) r in
             Classifier.content_category r' = content_type a /\
             Classifier.activity_type r' = activity a /\
             (7 # 10 <= Classifier.confidence r')%Q /\
             (Classifier.confidence r <= Classifier.confidence r')%Q).
  { intros a Hc Ha.
    split; [intros E; rewrite E in Hc; discriminate |].
    split; [intros E; rewrite E in Ha; discriminate |].
    unfold Classifier._merge_url_result. cbn. rewrite Hc, Ha.
    destruct (Py.truthy (website a)); cbn;
      (split; [reflexivity |]); (split; [reflexivity |]);
      (split; [apply max_ge_right | apply max_ge_left]). }
  destruct (match_site SITE_RULES d) as [info |] eqn:Hm.
  - eexists. split; [reflexivity |].
    destruct (match_site_in _ _ _ Hm) as (key & Hin & _).
    pose proof site_rules_nonempty as Hall. rewrite forallb_forall in Hall.
    specialize (Hall _ Hin). cbn in Hall. apply andb_prop in Hall as [Hc Ha].
    apply Hmerge; assumption.
  - eexists. split; [reflexivity |]. apply Hmerge; reflexivity.
Qed.

Lemma every_url_lifts_confidence_witness :
  exists a,
    analyze failing_netloc "http://[::1" = Some a /\
    domain a = "" /\ content_type a = "other" /\
    Classifier.confidence
      (Classifier._merge_url_result
         (Classifier.mkURLResult (website a) (content_type a) (activity a))
         Classifier.initial_result) = 7 # 10.
Proof.
  destruct (every_url_lifts_confidence failing_netloc "http://[::1"
              Classifier.initial_result ltac:(discriminate)) as (a & Ha & _).
  exists a. split; [exact Ha |].
  cbv in Ha. inversion Ha. repeat split.
Defined.

(** X19. Site rules match by substring, in table order. A domain that
    contains "x.com" and none of the seven keys listed before it is analysed
    as the social network X, whatever site it is. *)
Theorem domain_containing_x_com_is_social (netloc : string -> outcome string)
    (u : string) :
  u <> "" ->
  Py.is_substring "x.com" (_extract_domain netloc u) = true ->
  Py.any_in keys_before_x (_extract_domain netloc u) = false ->
  exists a,
    analyze netloc u = Some a /\
    name a = "X" /\ content_type a = "social_media" /\ activity a = "social_media".
Proof.
  intros Hu Hx Hbefore. unfold analyze.
  destruct u as [| c u']; [contradiction |]. cbn [Py.truthy negb].
  set (d := _extract_domain netloc (String c u')) in *.
  unfold Py.any_in, keys_before_x in Hbefore. cbn [existsb] in Hbefore.
  repeat (apply orb_false_elim in Hbefore as [?H Hbefore]).
  unfold SITE_RULES. cbn [match_site].
  repeat match goal with
         | H : Py.is_substring _ d = false |- _ => rewrite H; clear H
         end.
  rewrite Hx. eexists. split; [reflexivity |]. repeat split.
Qed.

Lemma domain_containing_x_com_is_social_witness :
  exists a,
    analyze dropbox_netloc "https://www.Dropbox.com:443/home" = Some a /\
    domain a = "dropbox.com" /\ name a = "X" /\ activity a = "social_media".
Proof.
  destruct (domain_containing_x_com_is_social dropbox_netloc
              "https://www.Dropbox.com:443/home" ltac:(discriminate) eq_refl eq_refl)
    as (a & Ha & Hn & _ & Hact).
  exists a. split; [exact Ha |].
  split; [cbv in Ha; inversion Ha; reflexivity | split; assumption].
Defined.

Lemma before_has_no (c : ascii) (s : string) :
  Py.is_substring (String c "") (before c s) = false.
Proof.
  induction s as [| c0 s IH]; cbn; [reflexivity |].
  destruct (Ascii.eqb c0 c) eqn:E; [reflexivity |].
  cbn. rewrite IH.
  destruct (ascii_dec c c0) as [-> | _]; [| reflexivity].
  rewrite Ascii.eqb_refl in E. discriminate.
Qed.

Lemma lower_no_upper (s : string) : no_upper (Py.lower s) = true.
Proof.
  induction s as [| c s IH]; cbn; [reflexivity |]. rewrite IH, andb_true_r.
  unfold Py.lower_char.
  destruct (Py.is_upper c) eqn:E; [| now rewrite E].
  unfold Py.is_upper in *.
  apply andb_prop in E as [E1 E2].
  apply Nat.leb_le in E1. apply Nat.leb_le in E2.
  rewrite nat_ascii_embedding by lia.
  apply negb_true_iff. apply andb_false_iff. right. apply Nat.leb_gt. lia.
Qed.

Lemma drop_no_upper (n : nat) (s : string) :
  no_upper s = true -> no_upper (drop n s) = true.
Proof.
  revert s. induction n as [| n IH]; intros s H; [exact H |].
  destruct s as [| c s]; [reflexivity |]. cbn in *.
  apply andb_prop in H as [_ H]. now apply IH.
Qed.

Lemma before_no_upper (c : ascii) (s : string) :
  no_upper s = true -> no_upper (before c s) = true.
Proof.
  induction s as [| c0 s IH]; cbn; [reflexivity |]. intros H.
  apply andb_prop in H as [H0 H]. destruct (Ascii.eqb c0 c); [reflexivity |].
  cbn. rewrite H0. now apply IH.
Qed.

(** X20. The domain [_extract_domain] returns never contains a colon (a port
    is cut off) nor an upper-case letter, whatever the parser answers for
    whatever URL, and it is empty when the parser raises. *)
Theorem extracted_domain_is_normalised (netloc : string -> outcome string)
    (u : string) :
  Py.is_substring ":" (_extract_domain netloc u) = false /\
  no_upper (_extract_domain netloc u) = true /\
  forall e, _extract_domain (fun _ => Raise e) u = "".
Proof.
  unfold _extract_domain.
  destruct (negb (Py.truthy u)); [repeat split |].
  split; [| split; [| reflexivity]].
  - destruct (netloc _) as [parsed | e]; [| reflexivity].
    match goal with
    | |- Py.is_substring _ (if Py.is_substring _ ?d then _ else _) = _ =>
        destruct (Py.is_substring ":" d) eqn:E; [apply before_has_no | exact E]
    end.
  - destruct (netloc _) as [parsed | e]; [| reflexivity].
    assert (H : no_upper (if String.prefix "www." (Py.lower parsed)
                          then drop 4 (Py.lower parsed) else Py.lower parsed) = true).
    { destruct (String.prefix "www." (Py.lower parsed));
        [apply drop_no_upper |]; apply lower_no_upper. }
    match goal with
    | |- no_upper (if ?c then _ else _) = _ => destruct c
    end; [apply before_no_upper |]; exact H.
Qed.

End URLProperties.

(** * Properties of the OCR and image analyzers *)

Section OCRProperties.

Import Classifier OCRAnalyzer AnalyzersSpec.

Variable clean : string -> string.




End OCRProperties.

Section OCRExample.

Import Classifier OCRAnalyzer AnalyzersSpec.


End OCRExample.

Section ImageProperties.

Import Classifier ImageAnalyzer AnalyzersSpec.

(** X22. The image stage changes a result in one case only: OpenCV is
    installed, the layout analysis went through and found at most 5% edge
    pixels, and the content type is still "unknown"; then the content type
    becomes "video". Without OpenCV, or when the layout analysis raises, the
    result is left as it is. In the analysis itself layout_type and
    ui_complexity always agree and "simple" means at most 5% edge pixels. *)
Theorem image_merge_marks_video_only (lib : Vision) (img : Image) (r : Result) :
  _merge_image_result (as_result (analyze_image lib (Some img))) r
  = (if marks_video lib img r then set_content_type "video" r else r) /\
  forall results l,
    analyze_image lib (Some img) = Some results -> layout results = Some l ->
    HAS_OPENCV lib = true /\ edge_share lib img = Ok (edge_density l) /\
    (layout_type l = "simple" <-> (edge_density l <= 5 # 100)%Q) /\
    (layout_type l = "simple" <-> ui_complexity l = "low") /\
    (layout_type l = "moderate" <-> ui_complexity l = "medium") /\
    (layout_type l = "complex" <-> ui_complexity l = "high").
Proof.
  unfold marks_video, analyze_image, analyze_layout, as_result, _merge_image_result.
  cbn [layout Classifier.layout_type].
  destruct (HAS_OPENCV lib); cbn [negb andb].
  2: { split; [reflexivity |]. intros results l H. inversion H. discriminate. }
  destruct (edge_share lib img) as [share | e].
  2: { split; [reflexivity |]. intros results l H. inversion H. discriminate. }
  split.
  - destruct (Py.gt share (15 # 100)) eqn:E15; cbn [layout_type].
    + assert (E5 : Py.gt share (5 # 100) = true).
      { apply gt_true_iff. apply gt_true_iff in E15.
        eapply Qlt_trans; [| exact E15]. reflexivity. }
      rewrite E5. reflexivity.
    + destruct (Py.gt share (5 # 100)); cbn; [reflexivity |].
      destruct (String.eqb (content_type r) "unknown"); reflexivity.
  - intros results l H Hl. inversion H; subst results. cbn in Hl.
    inversion Hl; subst l. cbn.
    split; [reflexivity |]. split; [reflexivity |].
    destruct (Py.gt share (15 # 100)) eqn:E15.
    + assert (E5 : (5 # 100 < share)%Q).
      { apply gt_true_iff in E15. eapply Qlt_trans; [| exact E15]. reflexivity. }
      repeat split; try discriminate; try reflexivity.
      intros Hle. exfalso. apply (Qlt_irrefl share).
      eapply Qle_lt_trans; eassumption.
    + destruct (Py.gt share (5 # 100)) eqn:E5.
      * apply gt_true_iff in E5.
        repeat split; try discriminate; try reflexivity.
        intros Hle. exfalso. apply (Qlt_irrefl share).
        eapply Qle_lt_trans; eassumption.
      * apply gt_false_iff in E5.
        repeat split; try discriminate; try reflexivity. intros _. exact E5.
Qed.

End ImageProperties.

Section RepositoryAnalyzers.

Import Classifier Spec AnalyzersSpec.

Lemma repository_calls_return (libs : Libraries) (screenshot : option Image)
    (window_info : option Monitor.WindowInfo) :
  unguarded_calls_return (repository_analyzers libs) screenshot window_info = true.
Proof.
  unfold unguarded_calls_return, repository_analyzers, URLAnalyzer.as_analyzer.
  cbn [url_analyze ocr_extract_text ocr_analyze_text image_analyze returns].
  rewrite orb_true_r. destruct screenshot; [| reflexivity].
  cbn. rewrite orb_true_r. reflexivity.
Qed.

(** X23. With the repository's own five analyzers, [classify] never takes
    its outer except branch, whatever the libraries behind them do (missing,
    raising, answering anything): every analyzer catches its own failures.
    So all eight steps always run, the result always has a non-empty
    description, and its productivity score is always the table value of
    its final activity. *)
Theorem classify_with_repository_analyzers_completes (libs : Libraries)
    (screenshot : option Image) (window_info : option Monitor.WindowInfo) :
  let r := classify (repository_analyzers libs) screenshot window_info in
  r = all_stages (repository_analyzers libs) screenshot window_info /\
  content_description r <> "" /\
  productivity_score r = _calculate_productivity (activity_type r) /\
  is_productive r = Py.gt (_calculate_productivity (activity_type r)) 0.
Proof.
  cbn zeta.
  rewrite (classify_runs_all_stages _ _ _ (repository_calls_return libs _ _)).
  split; [reflexivity |]. unfold all_stages.
  split; [apply description_stage_nonempty |].
  match goal with
  | |- context [exec (description_stage ?a ?t) (exec productivity_stage ?r0)] =>
      destruct (description_stage_keeps a t (exec productivity_stage r0))
        as (Ha & Hs & Hp & _);
      destruct (productivity_stage_sets r0) as (Ha0 & Hs0 & Hp0)
  end.
  cbn zeta in *. rewrite Ha, Hs, Hp, Ha0, Hs0, Hp0. split; reflexivity.
Qed.

End RepositoryAnalyzers.

(** * Properties of the URLs read off window titles *)

Section TitleProperties.

Import WindowTitles TitleSpec.

Lemma first_site_in (sites : list (string * string)) (title_lower : string) :
  first_site sites title_lower = "" \/ In (first_site sites title_lower) (map snd sites).
Proof.
  induction sites as [| [name domain] rest IH]; cbn; [now left |].
  destruct (Py.is_substring name title_lower).
  - right. now left.
  - destruct IH as [IH | IH]; [now left | right; now right].
Qed.

Lemma analyze_title_domain (netloc : string -> outcome string) (d : string) :
  parses_bare_domains netloc -> In d (map snd known_sites) ->
  URLAnalyzer.analyze netloc d = URLAnalyzer.analyze rest_after_scheme d.
Proof.
  intros Hnet Hin. pose proof (Hnet d Hin) as H.
  cbn in Hin.
  repeat (destruct Hin as [<- | Hin];
          [ unfold URLAnalyzer.analyze, URLAnalyzer._extract_domain;
            cbn [Py.truthy negb];
            match goal with
            | |- context [netloc (if ?c then _ else _)] => change c with false
            end;
            cbv iota; rewrite H; reflexivity |]).
  contradiction.
Qed.

Lemma mem_in (x : string) (xs : list string) : Py.mem x xs = true <-> In x xs.
Proof.
  unfold Py.mem. rewrite existsb_exists. split.
  - intros (y & Hy & E). apply String.eqb_eq in E. now subst.
  - intros H. exists x. split; [exact H | apply String.eqb_refl].
Qed.

(** The analysis of each of the twelve domains, checked by evaluation. *)
Lemma title_domains_analysed :
  forallb
    (fun d =>
       match URLAnalyzer.analyze rest_after_scheme d with
       | Some a =>
           String.eqb (URLAnalyzer.domain a) d
           && Py.mem (URLAnalyzer.activity a)
                ["entertainment"; "productive"; "social_media"; "shopping"; "neutral"]
           && Bool.eqb (Py.mem d ["google.com"; "gmail.com"])
                (String.eqb (URLAnalyzer.name a) ""
                 && String.eqb (URLAnalyzer.content_type a) "other"
                 && String.eqb (URLAnalyzer.activity a) "neutral")
       | None => false
       end)
    (map snd known_sites) = true.
Proof. vm_compute. reflexivity. Qed.

(** X24. The URL of a window is read off its title, so it is empty for an
    application that is not a browser and otherwise empty or one of twelve
    bare domains. Analysed by [URLAnalyzer.analyze] (with a parser that
    finds the host of such a domain), these reach ten site rules only: the
    activity is entertainment, productive, social_media or shopping, never
    educational or news; and for google.com and gmail.com no rule matches
    (the rules for Google Docs and Gmail want docs.google.com and
    mail.google.com), so they are analysed as "other" and "neutral". *)
Theorem title_urls_reach_ten_site_rules (netloc : string -> outcome string)
    (app_name title : string) :
  parses_bare_domains netloc ->
  let u := window_url app_name title in
  (is_browser app_name = false -> u = "") /\
  ((u = "" /\ URLAnalyzer.analyze netloc u = None) \/
   exists a,
     URLAnalyzer.analyze netloc u = Some a /\
     URLAnalyzer.domain a = u /\
     In (URLAnalyzer.activity a)
        ["entertainment"; "productive"; "social_media"; "shopping"; "neutral"] /\
     (In u ["google.com"; "gmail.com"] <->
      URLAnalyzer.name a = "" /\ URLAnalyzer.content_type a = "other" /\
      URLAnalyzer.activity a = "neutral")).
Proof.
  intros Hnet. cbn zeta. unfold window_url.
  destruct (is_browser app_name); [| split; [reflexivity | left; split; reflexivity]].
  split; [discriminate |].
  unfold _extract_url_from_title.
  destruct (negb (Py.truthy title)); [left; split; reflexivity |].
  destruct (first_site_in known_sites (Py.lower title)) as [E | Hin].
  - rewrite E. left. split; reflexivity.
  - right. set (u := first_site known_sites (Py.lower title)) in *.
    clearbody u. rewrite (analyze_title_domain netloc u Hnet Hin).
    pose proof title_domains_analysed as Hall. rewrite forallb_forall in Hall.
    specialize (Hall u Hin). cbv beta in Hall.
    destruct (URLAnalyzer.analyze rest_after_scheme u) as [a |]; [| discriminate].
    apply andb_prop in Hall as [Hall Hiff]. apply andb_prop in Hall as [Hd Hact].
    exists a. split; [reflexivity |].
    split; [now apply String.eqb_eq |]. split; [now apply mem_in |].
    apply Bool.eqb_prop in Hiff. rewrite <- mem_in, Hiff.
    rewrite !andb_true_iff, !String.eqb_eq. tauto.
Qed.

Lemma title_urls_reach_ten_site_rules_witness :
  parses_bare_domains rest_after_scheme /\
  window_url "firefox" mail_title = "gmail.com" /\
  exists a,
    URLAnalyzer.analyze rest_after_scheme "gmail.com" = Some a /\
    URLAnalyzer.activity a = "neutral".
Proof.
  assert (Hp : parses_bare_domains rest_after_scheme) by (intros d _; reflexivity).
  split; [exact Hp |]. split; [reflexivity |].
  destruct (title_urls_reach_ten_site_rules rest_after_scheme "firefox" mail_title Hp)
    as (_ & [(E & _) | (a & Ha & _ & _ & Hiff)]).
  - discriminate E.
  - exists a. split; [exact Ha |]. apply Hiff. right. left. reflexivity.
Defined.

End TitleProperties.

(** * Properties of the daily statistics *)

Section StatsProperties.

Import Stats StatsSpec.

(** The weights of the statistics are the scores of the classifier. *)
Lemma weights_agree (key : string) :
  weight key = Classifier._calculate_productivity key.
Proof.
  unfold weight, Classifier._calculate_productivity, PRODUCTIVITY_WEIGHTS,
    Classifier.scores.
  cbn [Py.dict_get].
  repeat match goal with
         | |- context [String.eqb ?k key] => destruct (String.eqb k key); [reflexivity |]
         end.
  reflexivity.
Qed.

Lemma classify_score_is_weight (an : Classifier.Analyzers) (screenshot : option Image)
    (window_info : option Monitor.WindowInfo) :
  Spec.unguarded_calls_return an screenshot window_info = true ->
  let r := Classifier.classify an screenshot window_info in
  Classifier.productivity_score r = weight (Classifier.activity_type r) /\
  Classifier.is_productive r = Py.gt (weight (Classifier.activity_type r)) 0.
Proof.
  intros Hret. cbn zeta.
  rewrite (classify_runs_all_stages _ _ _ Hret). unfold Spec.all_stages.
  match goal with
  | |- context [Spec.exec (Classifier.description_stage ?a ?t)
                  (Spec.exec Classifier.productivity_stage ?r0)] =>
      destruct (description_stage_keeps a t (Spec.exec Classifier.productivity_stage r0))
        as (Ha & Hs & Hp & _);
      destruct (productivity_stage_sets r0) as (Ha0 & Hs0 & Hp0)
  end.
  cbn zeta in *. rewrite Ha, Hs, Hp, Ha0, Hs0, Hp0, weights_agree. split; reflexivity.
Qed.

(** X25. The score stored with a record is the weight the statistics give
    its activity type: for every type, [PRODUCTIVITY_WEIGHTS.get(type, 0)]
    of the statistics is what [_calculate_productivity] of the classifier
    returns, a value between -1 and 1. So a record that the worker makes
    through the classifier, the analyzer calls outside an inner [try]
    returning, carries as productivity_score the weight of its stored
    activity_type, and is_productive exactly when that weight is positive. *)
Theorem stored_score_is_statistics_weight (env : Worker.WorkerEnv)
    (w : Monitor.WindowInfo) (img : Image) (ts : Z) (d : Daemon.Daemon) :
  Daemon._content_classifier d = true ->
  Worker.save_screenshots env = false ->
  Spec.unguarded_calls_return (Worker.analyzers env) (Some img) (Some w) = true ->
  (forall activity_type,
     weight activity_type = Classifier._calculate_productivity activity_type /\
     - (1) <= weight activity_type /\ weight activity_type <= 1) /\
  exists a,
    Worker._analyze_content env w img ts d = (d, Ok a) /\
    Models.productivity_score a = weight (Models.activity_type a) /\
    (Models.is_productive a = true <-> 0 < weight (Models.activity_type a)).
Proof.
  intros Hcls Hsave Hret. split.
  - intros t. rewrite weights_agree. split; [reflexivity |].
    apply calculate_productivity_range.
  - unfold Worker._analyze_content, bind, gets, ret. rewrite Hsave, Hcls.
    eexists. split; [reflexivity |].
    destruct (classify_score_is_weight _ _ _ Hret) as [Hs Hp]. cbn zeta in Hs, Hp.
    cbn [Worker.from_classification Models.productivity_score Models.activity_type
         Models.is_productive Worker.with_extracted_text Worker.with_is_nsfw
         Worker.with_nsfw_score Worker.with_confidence Worker.with_detection_method
         Worker.with_productivity_score Worker.with_is_productive
         Worker.with_activity_type Worker.with_content_title
         Worker.with_content_description Worker.with_content_category
         Worker.with_content_type].
    split; [exact Hs |]. rewrite Hp. apply gt_true_iff.
Qed.

Lemma stored_score_is_statistics_weight_witness :
  exists a,
    Worker._analyze_content (WorkerSpec.offline_pass 1100) Spec.vscode_window
      (PILImage 1) 1030 (DaemonSpec.started_daemon DaemonSpec.default_config)
    = (DaemonSpec.started_daemon DaemonSpec.default_config, Ok a) /\
    Models.activity_type a = "productive" /\
    Models.productivity_score a = weight "productive" /\
    weight "productive" = 1.
Proof.
  destruct (stored_score_is_statistics_weight (WorkerSpec.offline_pass 1100)
              Spec.vscode_window (PILImage 1) 1030
              (DaemonSpec.started_daemon DaemonSpec.default_config)
              eq_refl eq_refl eq_refl) as (_ & a & Ha & Hs & _).
  exists a. split; [exact Ha |].
  assert (Ht : Models.activity_type a = "productive").
  { vm_compute in Ha. inversion Ha. reflexivity. }
  split; [exact Ht |]. rewrite Hs, Ht. split; reflexivity.
Defined.

Lemma tally_total (activities : list Models.Activity) (t : Totals) :
  total_duration (fold_left count activities t)
  = (total_duration t + seconds activities)%Z.
Proof.
  revert t. induction activities as [| a activities IH]; intros t;
    cbn [fold_left seconds fold_right].
  - lia.
  - rewrite IH. cbn [count total_duration].
    fold (seconds activities). lia.
Qed.

Lemma dict_get_add_time (key : string) (duration : Z) (d : list (string * Z))
    (k : string) :
  Py.dict_get (add_time key duration d) k 0%Z
  = (Py.dict_get d k 0 + (if String.eqb key k then duration else 0))%Z.
Proof.
  induction d as [| [k' v] d IH]; cbn [add_time Py.dict_get].
  - destruct (String.eqb key k); lia.
  - destruct (String.eqb k' key) eqn:E; cbn [Py.dict_get].
    + apply String.eqb_eq in E. subst k'. destruct (String.eqb key k); lia.
    + destruct (String.eqb k' k) eqn:E'; [| exact IH].
      apply String.eqb_eq in E'. subst k'. rewrite String.eqb_sym, E. lia.
Qed.

Lemma seconds_of_cons (k : string) (a : Models.Activity)
    (activities : list Models.Activity) :
  seconds_of k (a :: activities)
  = ((if String.eqb (Models.activity_type a) k then Models.duration a else 0)
     + seconds_of k activities)%Z.
Proof.
  unfold seconds_of. cbn [filter].
  destruct (String.eqb (Models.activity_type a) k); reflexivity.
Qed.

Lemma tally_time (activities : list Models.Activity) (t : Totals) (k : string) :
  Py.dict_get (time_by_type (fold_left count activities t)) k 0%Z
  = (Py.dict_get (time_by_type t) k 0 + seconds_of k activities)%Z.
Proof.
  revert t. induction activities as [| a activities IH]; intros t; cbn [fold_left].
  - unfold seconds_of. cbn. lia.
  - rewrite IH, seconds_of_cons. cbn [count time_by_type].
    rewrite dict_get_add_time. lia.
Qed.

Lemma one_bucket_per_type (t : string) (d : Z) :
  (fold_right (fun k acc => (if String.eqb t k then d else 0) + acc) 0 summary_types
   + (if negb (Py.mem t summary_types) then d else 0) = d)%Z.
Proof.
  unfold summary_types, Py.mem. cbn [fold_right existsb].
  repeat match goal with
         | |- context [String.eqb t ?k] =>
             let E := fresh "E" in
             destruct (String.eqb t k) eqn:E;
             [ apply String.eqb_eq in E; subst t; cbn; lia | ]
         end.
  cbn. lia.
Qed.

Lemma seconds_filter_cons (f : Models.Activity -> bool) (a : Models.Activity)
    (activities : list Models.Activity) :
  seconds (filter f (a :: activities))
  = ((if f a then Models.duration a else 0) + seconds (filter f activities))%Z.
Proof. cbn [filter]. destruct (f a); reflexivity. Qed.

Lemma seconds_by_type (activities : list Models.Activity) :
  (fold_right (fun k acc => seconds_of k activities + acc) 0 summary_types
   + seconds (filter (fun a => negb (Py.mem (Models.activity_type a) summary_types))
                activities)
   = seconds activities)%Z.
Proof.
  induction activities as [| a activities IH]; [reflexivity |].
  rewrite seconds_filter_cons.
  pose proof (one_bucket_per_type (Models.activity_type a) (Models.duration a)) as H.
  change (seconds (a :: activities))
    with (Models.duration a + seconds activities)%Z.
  unfold summary_types in IH at 1. unfold summary_types in H at 1.
  unfold summary_types at 1. cbn [fold_right] in *.
  rewrite !seconds_of_cons. lia.
Qed.

(** X26. The ten time fields of a daily summary account for exactly the
    activities of the ten types they are named after: the total tracked
    time is the sum of the ten fields plus the seconds of the activities of
    any other type ("unknown", the default of a record, among them), which
    are counted in the total and the session count but shown in no field. *)
Theorem summary_times_leave_out_other_types (date_str : string)
    (activities : list Models.Activity) :
  let summary := get_daily_summary date_str None (Ok activities) in
  total_tracked_time summary
  = (time_fields summary
     + seconds (filter (fun a => negb (Py.mem (Models.activity_type a) summary_types))
                  activities))%Z /\
  total_tracked_time summary = seconds activities /\
  total_sessions summary = Z.of_nat (List.length activities).
Proof.
  cbn zeta. destruct activities as [| a activities]; [repeat split |].
  unfold get_daily_summary, time_fields.
  cbn [total_tracked_time total_sessions productive_time educational_time
       entertainment_time social_media_time gaming_time shopping_time news_time
       adult_content_time neutral_time idle_time].
  unfold tally.
  pose proof (tally_total (a :: activities) (mkTotals [] 0 0)) as Hd.
  cbn [total_duration] in Hd. rewrite Z.add_0_l in Hd. rewrite Hd.
  rewrite !tally_time. cbn [time_by_type Py.dict_get].
  pose proof (seconds_by_type (a :: activities)) as H.
  unfold summary_types in H at 1. cbn [fold_right] in H.
  split; [| split; reflexivity]. lia.
Qed.

Lemma summary_times_leave_out_other_types_witness :
  let summary :=
    get_daily_summary "2024-05-01" None
      (Ok (activity_of "unknown" 30 :: mixed_minute)) in
  total_tracked_time summary = 90%Z /\ time_fields summary = 60%Z.
Proof.
  destruct (summary_times_leave_out_other_types "2024-05-01"
              (activity_of "unknown" 30 :: mixed_minute)) as (H & Ht & _).
  cbn zeta. split; [rewrite Ht; reflexivity |].
  rewrite Ht in H. vm_compute in H. vm_compute. reflexivity.
Defined.

End StatsProperties.

(** * Properties of the duration format *)

Section DurationProperties.

Import Helpers.

Lemma same_minute_same_parts (s s' : Z) :
  (3600 <= s)%Z -> (s / 60 = s' / 60)%Z ->
  (3600 <= s')%Z /\ (s / 3600 = s' / 3600)%Z /\
  ((s mod 3600) / 60 = (s' mod 3600) / 60)%Z.
Proof.
  intros Hs Hm. Z.to_euclidean_division_equations. lia.
Qed.

(** X27. From one hour on, [format_duration] shows hours and minutes only:
    two durations in the same minute are formatted alike, so the uptime in
    the status of a daemon that has run for an hour changes once a minute,
    and a full hour is shown without its zero minutes. *)
Theorem uptime_shown_by_the_minute_after_an_hour (now now' started : Z)
    (s : Daemon.DaemonState) :
  Daemon.start_time s = Some started ->
  (3600 <= now - started)%Z ->
  ((now - started) / 60 = (now' - started) / 60)%Z ->
  uptime_formatted now s = uptime_formatted now' s /\
  (((now - started) mod 3600 < 60)%Z ->
   uptime_formatted now s = str ((now - started) / 3600) ++ "h").
Proof.
  intros Hstart Hhour Hminute. unfold uptime_formatted, Daemon.uptime.
  rewrite Hstart.
  destruct (same_minute_same_parts _ _ Hhour Hminute) as (Hhour' & Hh & Hm).
  unfold format_duration.
  assert (E1 : (now - started <? 60)%Z = false) by (apply Z.ltb_ge; lia).
  assert (E2 : (now - started <? 3600)%Z = false) by (apply Z.ltb_ge; lia).
  assert (E1' : (now' - started <? 60)%Z = false) by (apply Z.ltb_ge; lia).
  assert (E2' : (now' - started <? 3600)%Z = false) by (apply Z.ltb_ge; lia).
  rewrite E1, E2, E1', E2', Hh, Hm. split; [reflexivity |].
  intros Hlt. rewrite <- Hm.
  assert (E : ((now - started) mod 3600 / 60 =? 0)%Z = true).
  { apply Z.eqb_eq. apply Z.div_small. split; [| exact Hlt].
    apply Z.mod_pos_bound. lia. }
  rewrite E. reflexivity.
Qed.

Lemma uptime_shown_by_the_minute_after_an_hour_witness :
  uptime_formatted 4600 (Daemon.state (DaemonSpec.started_daemon DaemonSpec.default_config))
  = uptime_formatted 4659 (Daemon.state (DaemonSpec.started_daemon DaemonSpec.default_config)) /\
  uptime_formatted 4600 (Daemon.state (DaemonSpec.started_daemon DaemonSpec.default_config)) = "1h".
Proof.
  destruct (uptime_shown_by_the_minute_after_an_hour 4600 4659 1000
              (Daemon.state (DaemonSpec.started_daemon DaemonSpec.default_config)) eq_refl)
    as [H1 H2]; [vm_compute; discriminate | reflexivity |].
  split; [exact H1 |]. rewrite H2; reflexivity.
Defined.

End DurationProperties.
